(** * rtl_433: a shallow embedding of the 433.92 MHz signal pipeline

    The development follows [src/rtl_433.c]: envelope detection over the
    interleaved IQ bytes, the fixed-point low-pass filter, the bit-packet
    buffer, the pulse-width demodulator, the analyzer, the frame printer
    and the block callback that chains them.

    C integers are modelled in [Z].  Conversions to a narrower type are
    written out ([to_uint8], [to_int8], [to_uint16], [to_int16]); [int]
    arithmetic is left unwrapped where the operands keep it inside 32 bits
    (see [lp_acc_fits_int32]).  What the program prints on [stderr] is a
    list of strings, one per [fprintf]; a memory access outside an object
    is [None]. *)

From Stdlib Require Import ZArith Lia.
From stdpp Require Import base numbers list strings pretty.

Open Scope Z_scope.

(** ** Integer conversions *)

(** Assignment to an [unsigned char]. *)
Definition to_uint8 (z : Z) : Z := z mod 256.

(** The cast [(signed char)]. *)
Definition to_int8 (z : Z) : Z :=
  let u := z mod 256 in if u <? 128 then u else u - 256.

(** Assignment to a [uint16_t]. *)
Definition to_uint16 (z : Z) : Z := z mod 65536.

(** The cast [(int16_t)] and assignment to an [int16_t]. *)
Definition to_int16 (z : Z) : Z :=
  let u := z mod 65536 in if u <? 32768 then u else u - 65536.

(** C truth value of an [int]. *)
Definition truthy (z : Z) : bool := negb (z =? 0).

(** ** Constants *)

Definition MINIMAL_BUF_LENGTH : Z := 512.
Definition MAXIMAL_BUF_LENGTH : Z := 256 * 16384.
Definition DEFAULT_LEVEL_LIMIT : Z := 10000.
Definition DEFAULT_DECIMATION_LEVEL : Z := 0.
Definition FILTER_ORDER : Z := 1.
Definition BITBUF_COLS : Z := 5.
Definition BITBUF_ROWS : Z := 12.

(** ** Envelope detector *)

(** One iteration body of [envelope_detect]: the two bytes of an IQ pair,
    [buf[2*i]] and [buf[2*i+1]], give the value stored in
    [sample_buffer[op]]. *)
Definition envelope_sample (b_r b_i : Z) : Z :=
  let var_r := to_uint8 (Z.lxor b_r 0x80) in
  let var_i := to_uint8 (Z.lxor b_i 0x80) in
  to_uint16 (to_int8 var_i * to_int8 var_i + to_int8 var_r * to_int8 var_r).

(** The loop [for (i=0 ; i<len/2 ; i+=stride)].  [half] is [len/2].  Every
    iteration advances [i] by [stride >= 1], so [half] iterations of fuel
    are never used up ([envelope_loop_fuel]).  The loop writes the 16-bit
    word [op] after it has read the bytes [2*i] and [2*i+1] with [op <= i],
    so no read sees a word written earlier and the result is a list of its
    own. *)
Fixpoint envelope_loop (fuel : nat) (buf : list Z) (half stride i : Z)
  : option (list Z) :=
  match fuel with
  | O => Some []
  | S fuel' =>
      if i <? half then
        b_r ← buf !! Z.to_nat (2 * i);
        b_i ← buf !! Z.to_nat (2 * i + 1);
        rest ← envelope_loop fuel' buf half stride (i + stride);
        Some (envelope_sample b_r b_i :: rest)
      else Some []
  end.

(** [envelope_detect buf len decimate]: the words written at the start of
    the buffer.  [1<<decimate] is defined for [0 <= decimate <= 30]. *)
Definition envelope_detect (buf : list Z) (len decimate : Z)
  : option (list Z) :=
  if decide (0 ≤ decimate ≤ 30 ∧ 0 ≤ len) then
    let stride := Z.shiftl 1 decimate in
    envelope_loop (Z.to_nat (len / 2)) buf (len / 2) stride 0
  else None.

(** ** Low-pass filter *)

Definition F_SCALE : Z := 15.
Definition S_CONST : Z := Z.shiftl 1 F_SCALE.

(** [FIX(x)] is [(int)(x*S_CONST)], truncated towards zero:
    [0.96907 * 32768 = 31754.48...] and [0.015466 * 32768 = 506.78...]. *)
Definition a : list Z := [S_CONST; 31754].
Definition b : list Z := [506; 506].

Definition a1 : Z := default 0 (a !! 1%nat).
Definition b0 : Z := default 0 (b !! 0%nat).
Definition b1 : Z := default 0 (b !! 1%nat).

(** The 32-bit accumulator of one output sample,
    [(a[1]*y_prev>>1) + (b[0]*x>>1) + (b[1]*x_prev>>1)]. *)
Definition lp_acc (y_prev x x_prev : Z) : Z :=
  Z.shiftr (a1 * y_prev) 1 + Z.shiftr (b0 * x) 1 + Z.shiftr (b1 * x_prev) 1.

(** One output sample: the accumulator shifted by [F_SCALE-1] and stored in
    an [int16_t]. *)
Definition lp_sample (y_prev x x_prev : Z) : Z :=
  to_int16 (Z.shiftr (lp_acc y_prev x x_prev) (F_SCALE - 1)).

(** The outputs [y_buf[0..]] for the inputs [xs], given the output and the
    input that precede them. *)
Fixpoint lp_run (y_prev x_prev : Z) (xs : list Z) : list Z :=
  match xs with
  | [] => []
  | x :: xs' =>
      let y := lp_sample y_prev x x_prev in
      y :: lp_run y x xs'
  end.

(** The state the filter keeps between calls: [lp_xmem[0]] and the word
    [y_buf[-1]] in front of the output buffer. *)
Record lp_state := { lp_xmem : Z; lp_ymem : Z }.

(** [low_pass_filter x_buf y_buf len].  The first sample is computed from
    [y_buf[-1]] and [lp_xmem[0]], the others from their predecessors in the
    two buffers.  The two [memcpy] calls then read [x_buf[len-1-FILTER_ORDER]]
    and [y_buf[len-1-FILTER_ORDER]]; for [len < 2] the first of them reads
    in front of [x_buf].  Result: the [len] outputs and the state left for
    the next call. *)
Definition low_pass_filter (x_buf : list Z) (len : Z) (st : lp_state)
  : option (list Z * lp_state) :=
  if decide (2 ≤ len ≤ Z.of_nat (length x_buf)) then
    let ys := lp_run (lp_ymem st) (lp_xmem st) (take (Z.to_nat len) x_buf) in
    x_keep ← x_buf !! Z.to_nat (len - 1 - FILTER_ORDER);
    y_keep ← ys !! Z.to_nat (len - 1 - FILTER_ORDER);
    Some (ys, {| lp_xmem := x_keep; lp_ymem := y_keep |})
  else None.

(** ** Output on [stderr] and faults *)

(** A computation that may fault and that prints: the result and the
    strings written to [stderr], in order, or [None] for an access outside
    an object. *)
Definition Out (A : Type) : Type := option (A * list string).

Definition ret {A} (x : A) : Out A := Some (x, []).

Definition bind {A B} (m : Out A) (k : A → Out B) : Out B :=
  match m with
  | None => None
  | Some (x, o1) =>
      match k x with
      | None => None
      | Some (y, o2) => Some (y, o1 ++ o2)
      end
  end.

Definition fault {A} : Out A := None.

Definition fprintf_stderr (s : string) : Out unit := Some (tt, [s]).

Notation "'do' x <- m 'in' k" := (bind m (fun x => k))
  (at level 10, x name, m at level 200, k at level 200).
Notation "m ;;; k" := (bind m (fun _ => k))
  (at level 100, k at level 200, right associativity).

(** The newline character of the format strings. *)
Definition nl : string := String (Ascii.ascii_of_nat 10) "".

(** [%d]. *)
Definition fmt_d (z : Z) : string := pretty z.

Definition hex_digit (d : Z) : Ascii.ascii :=
  if d <? 10 then Ascii.ascii_of_nat (Z.to_nat (48 + d))
  else Ascii.ascii_of_nat (Z.to_nat (87 + d)).

Fixpoint hex_go (fuel : nat) (n : Z) (acc : string) : string :=
  match fuel with
  | O => acc
  | S fuel' =>
      let acc' := String (hex_digit (n mod 16)) acc in
      if n / 16 =? 0 then acc' else hex_go fuel' (n / 16) acc'
  end.

(** [%x]: the argument as an [unsigned int], at most eight digits. *)
Definition fmt_x (z : Z) : string := hex_go 8 (z mod 2 ^ 32) "".

(** [%02x]: [%x] padded with a zero to two characters. *)
Definition fmt_02x (z : Z) : string :=
  let s := fmt_x z in
  if (String.length s <? 2)%nat then ("0" ++ s)%string else s.

(** ** Bit packet *)

Record protocol_state := {
  (* bits state *)
  bits_col_idx : Z;
  bits_row_idx : Z;
  bits_bit_col_idx : Z;
  bits_buffer : list (list Z);
  (* demod state *)
  pulse_length : Z;
  pulse_count : Z;
  pulse_distance : Z;
  sample_counter : Z;
  start_c : Z;
  (* pwm limits *)
  short_limit : Z;
  long_limit : Z;
  reset_limit : Z
}.

Definition set_bits (col row bit : Z) (buf : list (list Z))
    (p : protocol_state) : protocol_state :=
  {| bits_col_idx := col; bits_row_idx := row; bits_bit_col_idx := bit;
     bits_buffer := buf;
     pulse_length := pulse_length p; pulse_count := pulse_count p;
     pulse_distance := pulse_distance p; sample_counter := sample_counter p;
     start_c := start_c p;
     short_limit := short_limit p; long_limit := long_limit p;
     reset_limit := reset_limit p |}.

Definition set_demod (len cnt dist ctr start : Z) (p : protocol_state)
  : protocol_state :=
  {| bits_col_idx := bits_col_idx p; bits_row_idx := bits_row_idx p;
     bits_bit_col_idx := bits_bit_col_idx p; bits_buffer := bits_buffer p;
     pulse_length := len; pulse_count := cnt;
     pulse_distance := dist; sample_counter := ctr;
     start_c := start;
     short_limit := short_limit p; long_limit := long_limit p;
     reset_limit := reset_limit p |}.

(** The [BITBUF_ROWS] by [BITBUF_COLS] array after [memset(..., 0, ...)]. *)
Definition zero_buffer : list (list Z) :=
  replicate (Z.to_nat BITBUF_ROWS) (replicate (Z.to_nat BITBUF_COLS) 0).

(** [p->bits_buffer[r][c]] for reading. *)
Definition bits_read (buf : list (list Z)) (r c : Z) : option Z :=
  if decide (0 ≤ r < BITBUF_ROWS ∧ 0 ≤ c < BITBUF_COLS) then
    row ← buf !! Z.to_nat r; row !! Z.to_nat c
  else None.

(** [p->bits_buffer[r][c] |= v], the element being a [uint8_t]. *)
Definition bits_or (buf : list (list Z)) (r c v : Z)
  : option (list (list Z)) :=
  if decide (0 ≤ r < BITBUF_ROWS ∧ 0 ≤ c < BITBUF_COLS) then
    row ← buf !! Z.to_nat r;
    old ← row !! Z.to_nat c;
    Some (<[Z.to_nat r := <[Z.to_nat c := to_uint8 (Z.lor old v)]> row]> buf)
  else None.

Definition demod_reset_bits_packet (p : protocol_state) : protocol_state :=
  set_bits 0 0 7 zero_buffer p.

Definition demod_add_bit (p : protocol_state) (bit : Z)
  : Out protocol_state :=
  match bits_or (bits_buffer p) (bits_row_idx p) (bits_col_idx p)
          (Z.shiftl bit (bits_bit_col_idx p)) with
  | None => fault
  | Some buf =>
      let row := bits_row_idx p in
      let col := bits_col_idx p in
      let bitc := bits_bit_col_idx p - 1 in
      if bitc <? 0 then
        let col := col + 1 in
        if 4 <? col then
          fprintf_stderr ("p->bits_col_idx>4!" ++ nl) ;;;
          ret (set_bits 4 row 7 buf p)
        else ret (set_bits col row 7 buf p)
      else ret (set_bits col row bitc buf p)
  end.

Definition demod_next_bits_packet (p : protocol_state)
  : Out protocol_state :=
  let row := bits_row_idx p + 1 in
  if 11 <? row then
    fprintf_stderr ("p->bits_row_idx>11!" ++ nl) ;;;
    ret (set_bits 0 11 7 (bits_buffer p) p)
  else ret (set_bits 0 row 7 (bits_buffer p) p).

(** ** Frame printer *)

Definition of_opt {A} (o : option A) : Out A :=
  match o with
  | Some x => ret x
  | None => fault
  end.

(** A counted loop whose body only prints. *)
Fixpoint for_each {A} (l : list A) (body : A → Out unit) : Out unit :=
  match l with
  | [] => ret tt
  | x :: l' => body x ;;; for_each l' body
  end.

(** The innermost loop body: [if (p->bits_buffer[i][j] & 1<<k)]. *)
Definition print_bit (buf : list (list Z)) (i j k : Z) : Out unit :=
  do x <- of_opt (bits_read buf i j) in
  if truthy (Z.land x (Z.shiftl 1 k)) then fprintf_stderr "1 "
  else fprintf_stderr "0 ".

(** The three nested loops that dump the whole buffer. *)
Definition print_rows (buf : list (list Z)) : Out unit :=
  for_each (seqZ 0 BITBUF_ROWS) (fun i =>
    for_each (seqZ 0 BITBUF_COLS) (fun j =>
      for_each (reverse (seqZ 0 8)) (fun k => print_bit buf i j k) ;;;
      fprintf_stderr " ") ;;;
    fprintf_stderr nl).

(** [temp = (int16_t)((uint16_t)(b1 << 12) | (b2 << 4)); temp = temp >> 4;]
    on bytes 1 and 2 of row 0. *)
Definition rubicson_temp (byte1 byte2 : Z) : Z :=
  let temp := to_int16 (Z.lor (to_uint16 (Z.shiftl byte1 12)) (Z.shiftl byte2 4)) in
  to_int16 (Z.shiftr temp 4).

(** [temp2 = (int16_t)((uint16_t)(b2 << 8) | (b3&0xF0)); temp2 = temp2 >> 4;]
    on bytes 2 and 3 of row 1. *)
Definition prologue_temp (byte2 byte3 : Z) : Z :=
  let temp2 := to_int16 (Z.lor (to_uint16 (Z.shiftl byte2 8)) (Z.land byte3 0xF0)) in
  to_int16 (Z.shiftr temp2 4).

(** The arguments of ["%s%d.%d"]: [t<0?"-":""], [abs(t/10)], [abs(t%10)],
    with C's division truncating towards zero. *)
Definition fmt_temp (t : Z) : string :=
  ((if (t <? 0)%Z then "-" else "") ++
   fmt_d (Z.abs (Z.quot t 10)) ++ "." ++ fmt_d (Z.abs (Z.rem t 10)))%string.

(** [(p->bits_buffer[1][1]&0x03)+1]. *)
Definition prologue_channel (byte1 : Z) : Z := Z.land byte1 0x03 + 1.

(** [((b0&0x0F)<<4)|(b1&0xF0)>>4]; the shift binds tighter than [|]. *)
Definition prologue_rid (byte0 byte1 : Z) : Z :=
  Z.lor (Z.shiftl (Z.land byte0 0x0F) 4) (Z.shiftr (Z.land byte1 0xF0) 4).

Definition demod_print_bits_packet (p : protocol_state) : Out unit :=
  let buf := bits_buffer p in
  fprintf_stderr nl ;;;
  print_rows buf ;;;
  fprintf_stderr nl ;;;
  do r10 <- of_opt (bits_read buf 1 0) in
  do r11 <- of_opt (bits_read buf 1 1) in
  do r12 <- of_opt (bits_read buf 1 2) in
  do r13 <- of_opt (bits_read buf 1 3) in
  do r14 <- of_opt (bits_read buf 1 4) in
  fprintf_stderr (fmt_02x r10 ++ " " ++ fmt_02x r11 ++ " " ++ fmt_02x r12
                  ++ " " ++ fmt_02x r13 ++ " " ++ fmt_02x r14 ++ nl) ;;;
  do r00 <- of_opt (bits_read buf 0 0) in
  do r01 <- of_opt (bits_read buf 0 1) in
  do r02 <- of_opt (bits_read buf 0 2) in
  let temp := rubicson_temp r01 r02 in
  (* Prologue sensor *)
  let temp2 := prologue_temp r12 r13 in
  fprintf_stderr ("button        = "
                  ++ fmt_d (if truthy (Z.land r11 0x04) then 1 else 0) ++ nl) ;;;
  fprintf_stderr ("first reading = "
                  ++ fmt_d (if truthy (Z.land r11 0x08) then 0 else 1) ++ nl) ;;;
  fprintf_stderr ("temp          = " ++ fmt_temp temp2 ++ nl) ;;;
  fprintf_stderr ("channel       = " ++ fmt_d (prologue_channel r11) ++ nl) ;;;
  fprintf_stderr ("id            = "
                  ++ fmt_d (Z.shiftr (Z.land r10 0xF0) 4) ++ nl) ;;;
  let rid := prologue_rid r10 r11 in
  fprintf_stderr ("rid           = " ++ fmt_d rid ++ nl) ;;;
  fprintf_stderr ("hrid          = " ++ fmt_02x rid ++ nl) ;;;
  fprintf_stderr ("rid = " ++ fmt_x r00 ++ nl) ;;;
  fprintf_stderr ("temp = " ++ fmt_temp temp ++ nl) ;;;
  fprintf_stderr nl.

(** ** Pulse-width demodulator *)

(** The first four statements of the loop body of [pwm_demod] on the sample
    [s = buf[i]]: pulse start, pulse end, the sample count and the
    classification of a gap. *)
Definition pwm_demod_edges (level : Z) (p : protocol_state) (s : Z)
  : Out protocol_state :=
  let p :=
    if level <? s then
      set_demod (pulse_length p) 1 (pulse_distance p) (sample_counter p) 1 p
    else p in
  let p :=
    if truthy (pulse_count p) && (s <? level) then
      set_demod 0 0 1 0 (start_c p) p
    else p in
  let p :=
    if truthy (start_c p) then
      set_demod (pulse_length p) (pulse_count p) (pulse_distance p)
        (sample_counter p + 1) (start_c p) p
    else p in
  if truthy (pulse_distance p) && (level <? s) then
    do p <-
      (if sample_counter p <? short_limit p then demod_add_bit p 0
       else if sample_counter p <? long_limit p then demod_add_bit p 1
       else
         do p <- demod_next_bits_packet p in
         ret (set_demod (pulse_length p) 0 (pulse_distance p) 0
                (start_c p) p)) in
    ret (set_demod (pulse_length p) (pulse_count p) 0 (sample_counter p)
           (start_c p) p)
  else ret p.

(** The last statement of the loop body: [if (p->sample_counter >
    p->reset_limit)], which prints the packet and clears it. *)
Definition pwm_demod_timeout (p : protocol_state) : Out protocol_state :=
  if reset_limit p <? sample_counter p then
    let p := set_demod (pulse_length p) (pulse_count p) 0 0 0 p in
    demod_print_bits_packet p ;;;
    ret (demod_reset_bits_packet p)
  else ret p.

(** One iteration of the loop of [pwm_demod]. *)
Definition pwm_demod_sample (level : Z) (p : protocol_state) (s : Z)
  : Out protocol_state :=
  do p <- pwm_demod_edges level p s in
  pwm_demod_timeout p.

(** [pwm_demod demod p buf len] on the [len] samples [buf[0..len-1]]. *)
Fixpoint pwm_demod (level : Z) (p : protocol_state) (buf : list Z)
  : Out protocol_state :=
  match buf with
  | [] => ret p
  | s :: buf' =>
      do p <- pwm_demod_sample level p s in
      pwm_demod level p buf'
  end.

(** The two protocol instances as [main] sets them up. *)
Definition protocol_init (short long reset : Z) : protocol_state :=
  {| bits_col_idx := 0; bits_row_idx := 0; bits_bit_col_idx := 7;
     bits_buffer := zero_buffer;
     pulse_length := 0; pulse_count := 0; pulse_distance := 0;
     sample_counter := 0; start_c := 0;
     short_limit := short; long_limit := long; reset_limit := reset |}.

Definition rubicson_init : protocol_state := protocol_init 1744 3500 5000.
Definition prologue_init : protocol_state := protocol_init 3500 7000 15000.

(** ** Analyzer *)

(** The file-level variables of [pwm_analyze]. *)
Record analyze_state := {
  counter : Z;
  print : Z;
  print2 : Z;
  pulses_found : Z;
  pulse_start : Z;
  pulse_end : Z;
  pulse_avg : Z
}.

Definition analyze_init : analyze_state :=
  {| counter := 0; print := 1; print2 := 0; pulses_found := 0;
     pulse_start := 0; pulse_end := 0; pulse_avg := 0 |}.

(** One iteration of the loop of [pwm_analyze] on the sample [s]. *)
Definition pwm_analyze_sample (level : Z) (st : analyze_state) (s : Z)
  : Out analyze_state :=
  do st <-
    (if (level <? s) && truthy (print st) then
       let found := pulses_found st + 1 in
       fprintf_stderr ("pulse_distance "
                       ++ fmt_d (counter st - pulse_end st) ++ nl) ;;;
       fprintf_stderr ("pulse_start[" ++ fmt_d found ++ "] found at sample "
                       ++ fmt_d (counter st) ++ ", value = " ++ fmt_d s ++ nl) ;;;
       ret {| counter := counter st; print := 0; print2 := 1;
              pulses_found := found; pulse_start := counter st;
              pulse_end := pulse_end st; pulse_avg := pulse_avg st |}
     else ret st) in
  let st :=
    {| counter := counter st + 1; print := print st; print2 := print2 st;
       pulses_found := pulses_found st; pulse_start := pulse_start st;
       pulse_end := pulse_end st; pulse_avg := pulse_avg st |} in
  if s <? level then
    do st <-
      (if truthy (print2 st) then
         let avg := pulse_avg st + (counter st - pulse_start st) in
         if pulses_found st =? 0 then fault
         else
           fprintf_stderr
             ("pulse_end  [" ++ fmt_d (pulses_found st) ++ "] found at sample "
              ++ fmt_d (counter st) ++ ", pulse lenght = "
              ++ fmt_d (counter st - pulse_start st)
              ++ ", pulse avg lenght = "
              ++ fmt_d (Z.quot avg (pulses_found st)) ++ nl) ;;;
           ret {| counter := counter st; print := print st; print2 := 0;
                  pulses_found := pulses_found st;
                  pulse_start := pulse_start st;
                  pulse_end := counter st; pulse_avg := avg |}
       else ret st) in
    ret {| counter := counter st; print := 1; print2 := print2 st;
           pulses_found := pulses_found st; pulse_start := pulse_start st;
           pulse_end := pulse_end st; pulse_avg := pulse_avg st |}
  else ret st.

Fixpoint pwm_analyze (level : Z) (st : analyze_state) (buf : list Z)
  : Out analyze_state :=
  match buf with
  | [] => ret st
  | s :: buf' =>
      do st <- pwm_analyze_sample level st s in
      pwm_analyze level st buf'
  end.

(** ** Block callback *)

Record dm_state := {
  file : bool;                  (* [demod->file] is not [NULL] *)
  save_data : Z;
  level_limit : Z;
  decimation_level : Z;
  filter_buffer : list Z;       (* [f_buf] is [&filter_buffer[FILTER_ORDER]] *)
  analyze : Z;
  rubicson : protocol_state;
  prologue : protocol_state
}.

(** The file-level variables the callback uses, the demodulator context
    and what has left the program: the bytes written to the raw sink and
    whether [rtlsdr_cancel_async] was called. *)
Record world := {
  do_exit : Z;
  bytes_to_read : Z;
  lp_mem : Z;                   (* [lp_xmem[0]] *)
  analyzer : analyze_state;
  demod : dm_state;
  sink : list Z;
  cancelled : bool
}.

(** [main] clears [filter_buffer] with [memset]; the model keeps the prefix
    written so far and reads zero behind it.  [f_buf[0..n-1]]: *)
Definition f_buf_read (fb : list Z) (n : Z) : option (list Z) :=
  if decide (0 ≤ n ≤ MAXIMAL_BUF_LENGTH) then
    let body := drop (Z.to_nat FILTER_ORDER) fb in
    Some (take (Z.to_nat n) body
          ++ replicate (Z.to_nat n - length body) 0)
  else None.

(** [filter_buffer] after a call of [low_pass_filter] that wrote the
    outputs [ys] and left [st]. *)
Definition f_buf_write (fb : list Z) (ys : list Z) (st : lp_state) : list Z :=
  lp_ymem st :: ys ++ drop (Z.to_nat FILTER_ORDER + length ys) fb.

(** The bytes of an [int16_t], low byte first. *)
Definition int16_bytes (s : Z) : list Z :=
  [to_uint8 s; to_uint8 (Z.shiftr s 8)].

(** [rtlsdr_callback buf len ctx].  [fwrite] is taken to write all it is
    given. *)
Definition rtlsdr_callback (buf : list Z) (len : Z) (w : world) : Out world :=
  let dm := demod w in
  if file dm || negb (truthy (save_data dm)) then
    if truthy (do_exit w) then ret w
    else
      let trunc := (0 <? bytes_to_read w) && (bytes_to_read w <? len) in
      let len := if trunc then bytes_to_read w else len in
      let do_exit' := if trunc then 1 else do_exit w in
      let cancelled' := if trunc then true else cancelled w in
      let d := decimation_level dm in
      do x_buf <- of_opt (envelope_detect buf len d) in
      do r <- of_opt (low_pass_filter x_buf (Z.shiftr len (d + 1))
                        {| lp_xmem := lp_mem w;
                           lp_ymem := default 0 (filter_buffer dm !! 0%nat) |}) in
      let fb := f_buf_write (filter_buffer dm) r.1 r.2 in
      do fed <- of_opt (f_buf_read fb (len / 2)) in
      do r2 <-
        (if truthy (analyze dm) then
           do an <- pwm_analyze (level_limit dm) (analyzer w) fed in
           ret (an, rubicson dm, prologue dm)
         else
           do pro <- pwm_demod (level_limit dm) (prologue dm) fed in
           do rub <- pwm_demod (level_limit dm) (rubicson dm) fed in
           ret (analyzer w, rub, pro)) in
      do out <-
        (if truthy (save_data dm) then
           do samples <- of_opt (f_buf_read fb ((Z.shiftr len d + 1) / 2)) in
           ret (take (Z.to_nat (Z.shiftr len d)) (concat (map int16_bytes samples)))
         else ret []) in
      ret {| do_exit := do_exit';
             bytes_to_read :=
               if 0 <? bytes_to_read w then (bytes_to_read w - len) mod 2 ^ 32
               else bytes_to_read w;
             lp_mem := lp_xmem r.2;
             analyzer := r2.1.1;
             demod :=
               {| file := file dm; save_data := save_data dm;
                  level_limit := level_limit dm;
                  decimation_level := decimation_level dm;
                  filter_buffer := fb; analyze := analyze dm;
                  rubicson := r2.1.2; prologue := r2.2 |};
             sink := sink w ++ out;
             cancelled := cancelled' |}
  else ret w.

(** The state [main] builds before the first block, for the options
    [-l level], [-c decimation], [-a] and [-n samples]. *)
Definition world_init (level decimation analyze_flag to_read : Z) : world :=
  {| do_exit := 0; bytes_to_read := to_read; lp_mem := 0;
     analyzer := analyze_init;
     demod :=
       {| file := false; save_data := 0; level_limit := level;
          decimation_level := decimation; filter_buffer := [];
          analyze := analyze_flag;
          rubicson := rubicson_init; prologue := prologue_init |};
     sink := []; cancelled := false |}.

(** ** Fragments of [main] *)

Definition DEFAULT_BUF_LENGTH : Z := 16 * 16384.

(** The check of the [-b] option: [out_block_size] after it, for the value
    the option left there. *)
Definition main_out_block_size (out_block_size : Z) : Out Z :=
  if (out_block_size <? MINIMAL_BUF_LENGTH)
     || (MAXIMAL_BUF_LENGTH <? out_block_size) then
    fprintf_stderr
      ("Output block size wrong value, falling back to default" ++ nl) ;;;
    fprintf_stderr ("Minimal length: " ++ fmt_d MINIMAL_BUF_LENGTH ++ nl) ;;;
    fprintf_stderr ("Maximal length: " ++ fmt_d MAXIMAL_BUF_LENGTH ++ nl) ;;;
    ret DEFAULT_BUF_LENGTH
  else ret out_block_size.

(** The loop of the test mode ([-r file]),
    [while (fread(test_mode_buf, 131072, 1, test_mode) != 0)]: [blocks] are
    the successive contents of [test_mode_buf], one per successful [fread];
    the result carries the count [i]. *)
Fixpoint main_test_mode_loop (blocks : list (list Z)) (i : Z) (w : world)
  : Out (Z * world) :=
  match blocks with
  | [] => ret (i, w)
  | test_mode_buf :: blocks' =>
      do w <- rtlsdr_callback test_mode_buf 131072 w in
      main_test_mode_loop blocks' (i + 1) w
  end.

(** The test mode as a whole, up to its [exit(0)]. *)
Definition main_test_mode (test_mode_file : string) (blocks : list (list Z))
    (w : world) : Out world :=
  fprintf_stderr ("Test mode active. Reading samples from file: "
                  ++ test_mode_file ++ nl) ;;;
  do r <- main_test_mode_loop blocks 0 w in
  fprintf_stderr ("Test mode file issued " ++ fmt_d r.1 ++ " packets" ++ nl) ;;;
  fprintf_stderr ("Filter coeffs used:" ++ nl) ;;;
  fprintf_stderr ("a: " ++ fmt_d (default 0 (a !! 0%nat)) ++ " "
                  ++ fmt_d (default 0 (a !! 1%nat)) ++ nl) ;;;
  fprintf_stderr ("b: " ++ fmt_d (default 0 (b !! 0%nat)) ++ " "
                  ++ fmt_d (default 0 (b !! 1%nat)) ++ nl) ;;;
  ret r.2.

(** * Vocabulary of the properties *)

(** ** Two consecutive envelope blocks

    Two blocks of 256 envelope samples, as the callback passes them to the
    filter for 512-byte blocks: silence that ends in one strong sample,
    then silence. *)
Definition block_a : list Z := replicate 255 0 ++ [30000].
Definition block_b : list Z := replicate 256 0.
Definition lp_state_init : lp_state := {| lp_xmem := 0; lp_ymem := 0 |}.

(** ** The bit packet as an object

    A well-formed buffer has [BITBUF_ROWS] rows of [BITBUF_COLS] bytes; a
    valid cursor points into it. *)
Definition buffer_wf (buf : list (list Z)) : Prop :=
  length buf = Z.to_nat BITBUF_ROWS ∧
  Forall (λ row, length row = Z.to_nat BITBUF_COLS) buf.

Definition cursor_ok (p : protocol_state) : Prop :=
  0 ≤ bits_col_idx p ≤ 4 ∧ 0 ≤ bits_row_idx p ≤ 11 ∧
  0 ≤ bits_bit_col_idx p ≤ 7 ∧ buffer_wf (bits_buffer p).

(** The calls a demodulator makes on its packet between two resets. *)
Inductive packet_op :=
  | AddBit (bit : Z)
  | NextPacket.

Definition run_op (p : protocol_state) (op : packet_op) : Out protocol_state :=
  match op with
  | AddBit bit => demod_add_bit p bit
  | NextPacket => demod_next_bits_packet p
  end.

Fixpoint run_ops (p : protocol_state) (ops : list packet_op)
  : Out protocol_state :=
  match ops with
  | [] => ret p
  | op :: ops' => do p <- run_op p op in run_ops p ops'
  end.

(** The two diagnostics. *)
Definition col_diag : string := "p->bits_col_idx>4!" ++ nl.
Definition row_diag : string := "p->bits_row_idx>11!" ++ nl.

(** ** The lines of a printed packet *)

(** A byte of the packet, zero outside the buffer. *)
Definition byte_at (buf : list (list Z)) (r c : Z) : Z :=
  default 0 (bits_read buf r c).

(** The hexadecimal line, from the five bytes of a row. *)
Definition hex_line (b0 b1 b2 b3 b4 : Z) : string :=
  fmt_02x b0 ++ " " ++ fmt_02x b1 ++ " " ++ fmt_02x b2
  ++ " " ++ fmt_02x b3 ++ " " ++ fmt_02x b4 ++ nl.

(** The seven Prologue lines, from bytes 0 to 3 of a row. *)
Definition prologue_lines (b0 b1 b2 b3 : Z) : list string :=
  [ "button        = " ++ fmt_d (if truthy (Z.land b1 0x04) then 1 else 0) ++ nl;
    "first reading = " ++ fmt_d (if truthy (Z.land b1 0x08) then 0 else 1) ++ nl;
    "temp          = " ++ fmt_temp (prologue_temp b2 b3) ++ nl;
    "channel       = " ++ fmt_d (prologue_channel b1) ++ nl;
    "id            = " ++ fmt_d (Z.shiftr (Z.land b0 0xF0) 4) ++ nl;
    "rid           = " ++ fmt_d (prologue_rid b0 b1) ++ nl;
    "hrid          = " ++ fmt_02x (prologue_rid b0 b1) ++ nl ]%string.

(** The two Rubicson lines, from bytes 0 to 2 of a row. *)
Definition rubicson_lines (b0 b1 b2 : Z) : list string :=
  [ "rid = " ++ fmt_x b0 ++ nl;
    "temp = " ++ fmt_temp (rubicson_temp b1 b2) ++ nl ]%string.

(** The field lines of a packet: the hexadecimal line and the Prologue
    lines of row 1, then the Rubicson lines of row 0 and the closing empty
    line. *)
Definition field_lines (buf : list (list Z)) : list string :=
  hex_line (byte_at buf 1 0) (byte_at buf 1 1) (byte_at buf 1 2)
    (byte_at buf 1 3) (byte_at buf 1 4)
  :: prologue_lines (byte_at buf 1 0) (byte_at buf 1 1) (byte_at buf 1 2)
       (byte_at buf 1 3)
  ++ rubicson_lines (byte_at buf 0 0) (byte_at buf 0 1) (byte_at buf 0 2)
  ++ [nl].

(** A packet that is empty but for its rows 0 and 1. *)
Definition packet_of_rows (row0 row1 : list Z) (p : protocol_state)
  : protocol_state :=
  set_bits (bits_col_idx p) (bits_row_idx p) (bits_bit_col_idx p)
    (<[0%nat := row0]> (<[1%nat := row1]> zero_buffer)) p.

(** A 12-bit two's-complement value. *)
Definition sext12 (v : Z) : Z := if v <? 2048 then v else v - 4096.

(** The row 1 of the first Prologue scenario, the row 0 of the Rubicson
    scenario and an all-zero row. *)
Definition prologue_row : list Z := [0x95; 0xA1; 0x00; 0xEA; 0xCC].
Definition rubicson_row : list Z := [0xA0; 0x07; 0xB0; 0x00; 0x00].
Definition zero_row : list Z := [0; 0; 0; 0; 0].

(** The packets of the two scenarios: empty but for the scenario's row. *)
Definition prologue_packet : protocol_state :=
  packet_of_rows zero_row prologue_row prologue_init.
Definition rubicson_packet : protocol_state :=
  packet_of_rows rubicson_row zero_row rubicson_init.

(** A packet whose Prologue channel bits are both set, and a Prologue
    instance on the sample that exceeds its reset limit. *)
Definition channel_packet : protocol_state :=
  packet_of_rows zero_row [0x90; 0x03; 0x00; 0x00; 0x00] prologue_init.
Definition prologue_silent : protocol_state :=
  set_demod 0 0 1 15000 1 prologue_packet.

(** ** Sample sequences for the demodulator *)

(** The first sample of a pulse followed by [n] samples of silence, and the
    same closed by the first sample of the next pulse. *)
Definition pulse_then_silence (hi lo : Z) (n : nat) : list Z :=
  hi :: replicate n lo.
Definition pulse_gap_pulse (hi lo : Z) (n : nat) : list Z :=
  hi :: replicate n lo ++ [hi].

(** The value of [sample_counter] once the third statement of the loop body
    has counted a sample that is neither the start nor the end of a
    pulse. *)
Definition counted (p : protocol_state) : Z :=
  if truthy (start_c p) then sample_counter p + 1 else sample_counter p.

(** ** Gap classification *)

(** What closing a gap does to the packet. *)
Inductive gap_outcome :=
  | AppendBit (bit : Z)
  | AdvanceRow.

(** The three bands of a protocol instance, on the value [c] that
    [sample_counter] has when the gap is classified. *)
Definition band (short long c : Z) : gap_outcome :=
  if c <? short then AppendBit 0
  else if c <? long then AppendBit 1
  else AdvanceRow.

Definition rubicson_band : Z → gap_outcome := band 1744 3500.

(** The instance [p0] after a gap that was classified with the counter at
    [c]: inside a pulse with the bit appended, or on the next row with the
    counter and [pulse_count] cleared. *)
Definition gap_result (p0 : protocol_state) (o : gap_outcome) (c : Z)
  : Out protocol_state :=
  match o with
  | AppendBit bit =>
      do p <- demod_add_bit p0 bit in ret (set_demod 0 1 0 c 1 p)
  | AdvanceRow =>
      do p <- demod_next_bits_packet p0 in ret (set_demod 0 0 0 0 1 p)
  end.

(** "A gap of [n] samples appends [bit]", for the Rubicson instance at the
    default level: after a pulse, [n] samples of silence and the first
    sample of the next pulse, the packet is the fresh packet with [bit]
    appended. *)
Definition gap_appends (n : nat) (bit : Z) : Prop :=
  ∃ p out q,
    pwm_demod DEFAULT_LEVEL_LIMIT rubicson_init (pulse_gap_pulse 20000 0 n)
      = Some (p, out) ∧
    demod_add_bit rubicson_init bit = Some (q, []) ∧
    bits_buffer p = bits_buffer q ∧ bits_row_idx p = bits_row_idx q ∧
    bits_col_idx p = bits_col_idx q ∧ bits_bit_col_idx p = bits_bit_col_idx q.

(** ** A block for the callback

    512 bytes of a steady strong carrier: every IQ pair is [0xFF, 0xFF]. *)
Definition carrier_block : list Z := replicate 512 255.

(** ** Proof steps shared by the demodulator lemmas *)

(** Projections of updated records, and the tests the hypotheses decide. *)
Ltac demod_proj :=
  cbn [bits_col_idx bits_row_idx bits_bit_col_idx bits_buffer pulse_length
       pulse_count pulse_distance sample_counter start_c short_limit
       long_limit reset_limit set_demod set_bits protocol_init].

Ltac demod_proj_in H :=
  cbn [bits_col_idx bits_row_idx bits_bit_col_idx bits_buffer pulse_length
       pulse_count pulse_distance sample_counter start_c short_limit
       long_limit reset_limit set_demod set_bits protocol_init] in H.

Ltac ltb_decide :=
  repeat match goal with
    | |- context [?x <? ?y] =>
        first [ rewrite (proj2 (Z.ltb_lt x y)) by lia
              | rewrite (proj2 (Z.ltb_ge x y)) by lia ]
    end.

(** ** Reading bits back

    Bit [k] of byte [c] of row [r], by the test the printer makes,
    [bits_buffer[r][c] & 1<<k]; and bit number [n] of a row in the order
    the printer shows them, the most significant bit of byte 0 first. *)
Definition packet_bit (buf : list (list Z)) (r c k : Z) : bool :=
  truthy (Z.land (byte_at buf r c) (Z.shiftl 1 k)).

Definition row_bit (buf : list (list Z)) (r n : Z) : bool :=
  packet_bit buf r (n / 8) (7 - n mod 8).

(** A value that is a bit. *)
Definition is_bit (bit : Z) : Prop := bit = 0 ∨ bit = 1.

(** ** A transmission as samples

    The call a classified gap makes on the packet, and the demodulator
    fields it leaves: inside the pulse with the counter kept for a bit, or
    with the counter and [pulse_count] cleared after a row advance. *)
Definition outcome_op (o : gap_outcome) : packet_op :=
  match o with
  | AppendBit bit => AddBit bit
  | AdvanceRow => NextPacket
  end.

Definition after_outcome (o : gap_outcome) (c : Z) (p : protocol_state)
  : protocol_state :=
  match o with
  | AppendBit _ => set_demod 0 1 0 c 1 p
  | AdvanceRow => set_demod 0 0 0 0 1 p
  end.

(** Pulses of [w] samples at [hi], separated by gaps of the given numbers
    of samples at [lo]: a first pulse, then each gap with the pulse that
    closes it. *)
Definition pwm_frame (hi lo : Z) (w g : nat) : list Z :=
  replicate g lo ++ replicate w hi.

Definition pwm_encode (hi lo : Z) (w : nat) (gaps : list nat) : list Z :=
  replicate w hi ++ concat (map (pwm_frame hi lo w) gaps).

(** The operation a gap of [g] samples stands for in an instance with the
    given limits. *)
Definition gap_op (short long : Z) (g : nat) : packet_op :=
  outcome_op (band short long (Z.of_nat g + 1)).

(** The instance has the given limits. *)
Definition has_limits (short long reset : Z) (p : protocol_state) : Prop :=
  short_limit p = short ∧ long_limit p = long ∧ reset_limit p = reset.

(** ** The demodulator state as an object

    The three flags are 0 or 1 and the counter has not passed the reset
    limit; with a valid cursor this is the state between two samples. *)
Definition flags_ok (p : protocol_state) : Prop :=
  is_bit (pulse_count p) ∧ is_bit (pulse_distance p) ∧ is_bit (start_c p).

Definition demod_ok (p : protocol_state) : Prop :=
  cursor_ok p ∧ flags_ok p ∧ 0 ≤ sample_counter p ≤ reset_limit p.

(** The analyzer never divides by zero while a pulse it reports has been
    counted. *)
Definition analyze_ok (st : analyze_state) : Prop :=
  0 ≤ pulses_found st ∧ (truthy (print2 st) = true → 1 ≤ pulses_found st).

(** ** Streams cut into blocks *)

(** The demodulator called on one block after the other, as the callback
    does. *)
Fixpoint pwm_demod_blocks (level : Z) (p : protocol_state)
    (blocks : list (list Z)) : Out protocol_state :=
  match blocks with
  | [] => ret p
  | buf :: blocks' =>
      do p <- pwm_demod level p buf in
      pwm_demod_blocks level p blocks'
  end.

(** ** The callback's world *)

(** The number of bytes a callback processes of a block of [len] bytes:
    what is left of the [-n] budget, when that is less. *)
Definition effective_len (len : Z) (w : world) : Z :=
  if (0 <? bytes_to_read w) && (bytes_to_read w <? len) then bytes_to_read w
  else len.

Definition world_ok (w : world) : Prop :=
  demod_ok (rubicson (demod w)) ∧ demod_ok (prologue (demod w)) ∧
  analyze_ok (analyzer w) ∧ 0 ≤ decimation_level (demod w) ≤ 30.

(** The options of the run, which no callback changes. *)
Definition same_options (w w' : world) : Prop :=
  file (demod w') = file (demod w) ∧
  save_data (demod w') = save_data (demod w) ∧
  level_limit (demod w') = level_limit (demod w) ∧
  decimation_level (demod w') = decimation_level (demod w) ∧
  analyze (demod w') = analyze (demod w).

(** The words of [filter_buffer] and the input kept in [lp_xmem] are in the
    range of the filter's outputs and inputs. *)
Definition filter_ok (w : world) : Prop :=
  Forall (λ v, 0 ≤ v ≤ 32704) (filter_buffer (demod w)) ∧
  0 ≤ lp_mem w ≤ 32768.

(** The state [main] builds when it is given the name of a file to write
    the filtered samples to. *)
Definition world_init_file (level decimation analyze_flag to_read : Z)
  : world :=
  let w := world_init level decimation analyze_flag to_read in
  {| do_exit := do_exit w; bytes_to_read := bytes_to_read w;
     lp_mem := lp_mem w; analyzer := analyzer w;
     demod :=
       {| file := true; save_data := 1;
          level_limit := level_limit (demod w);
          decimation_level := decimation_level (demod w);
          filter_buffer := filter_buffer (demod w);
          analyze := analyze (demod w);
          rubicson := rubicson (demod w); prologue := prologue (demod w) |};
     sink := sink w; cancelled := cancelled w |}.

(** A demodulator between two transmissions: no pulse seen, no packet
    begun, the counter within the reset limit. *)
Definition demod_idle (p : protocol_state) : Prop :=
  pulse_count p = 0 ∧ start_c p = 0 ∧ sample_counter p ≤ reset_limit p.

(** * Properties *)

(** ** Integer conversions *)

Lemma to_uint8_range z : 0 ≤ to_uint8 z < 256.
Proof. unfold to_uint8. apply Z.mod_pos_bound. lia. Qed.

Lemma to_int8_range z : -128 ≤ to_int8 z ≤ 127.
Proof.
  unfold to_int8. pose proof (Z.mod_pos_bound z 256 ltac:(lia)) as Hu.
  destruct (Z.ltb_spec (z mod 256) 128); lia.
Qed.

Lemma to_int16_range z : -32768 ≤ to_int16 z ≤ 32767.
Proof.
  unfold to_int16. pose proof (Z.mod_pos_bound z 65536 ltac:(lia)) as Hu.
  destruct (Z.ltb_spec (z mod 65536) 32768); lia.
Qed.

Lemma to_int16_small z : -32768 ≤ z ≤ 32767 → to_int16 z = z.
Proof.
  intros Hz. unfold to_int16.
  destruct (Z.ltb_spec (z mod 65536) 32768) as [Hlt|Hge].
  - destruct (Z.le_gt_cases 0 z) as [Hp|Hn].
    + apply Z.mod_small. lia.
    + assert (z mod 65536 = z + 65536) as E; [|lia].
      symmetry. apply (Z.mod_unique z 65536 (-1)); lia.
  - destruct (Z.le_gt_cases 0 z) as [Hp|Hn].
    + rewrite Z.mod_small in Hge; lia.
    + assert (z mod 65536 = z + 65536) as E; [|lia].
      symmetry. apply (Z.mod_unique z 65536 (-1)); lia.
Qed.

(** ** Envelope detector *)

Lemma envelope_sample_range b_r b_i : 0 ≤ envelope_sample b_r b_i ≤ 32768.
Proof.
  unfold envelope_sample, to_uint16.
  pose proof (to_int8_range (to_uint8 (Z.lxor b_r 128))) as Hr.
  pose proof (to_int8_range (to_uint8 (Z.lxor b_i 128))) as Hi.
  set (r := to_int8 _) in *. set (i := to_int8 (to_uint8 (Z.lxor b_i _))) in *.
  assert (0 ≤ i * i ≤ 16384) by nia.
  assert (0 ≤ r * r ≤ 16384) by nia.
  rewrite Z.mod_small; lia.
Qed.

(** On a byte the recentring is a subtraction of 128. *)
Lemma recentre_byte b :
  0 ≤ b < 256 → to_int8 (to_uint8 (Z.lxor b 0x80)) = b - 128.
Proof.
  intros Hb.
  assert (forallb (λ x, to_int8 (to_uint8 (Z.lxor x 0x80)) =? x - 128)
            (seqZ 0 256) = true) as Hall by (vm_compute; reflexivity).
  rewrite forallb_forall in Hall.
  apply Z.eqb_eq, Hall, list_elem_of_In, elem_of_seqZ. lia.
Qed.

(** So the envelope of a byte pair is [(I-128)² + (Q-128)²]. *)
Lemma envelope_sample_bias b_r b_i :
  0 ≤ b_r < 256 → 0 ≤ b_i < 256 →
  envelope_sample b_r b_i = (b_i - 128) * (b_i - 128) + (b_r - 128) * (b_r - 128).
Proof.
  intros Hr Hi. unfold envelope_sample, to_uint16.
  rewrite !recentre_byte by done.
  set (r := b_r - 128). set (i := b_i - 128).
  assert (-128 ≤ r ≤ 127) by (subst r; lia).
  assert (-128 ≤ i ≤ 127) by (subst i; lia).
  clearbody r i.
  assert (0 ≤ i * i ≤ 16384) by nia.
  assert (0 ≤ r * r ≤ 16384) by nia.
  apply Z.mod_small. lia.
Qed.

Lemma envelope_loop_range fuel buf half stride i out :
  envelope_loop fuel buf half stride i = Some out →
  Forall (λ v, 0 ≤ v ≤ 32768) out.
Proof.
  revert i out. induction fuel as [|fuel IH]; intros i out; simpl.
  - intros [= <-]. constructor.
  - destruct (i <? half); [|intros [= <-]; constructor].
    destruct (buf !! Z.to_nat (2 * i)) as [b_r|]; simpl; [|done].
    destruct (buf !! Z.to_nat (2 * i + 1)) as [b_i|]; simpl; [|done].
    destruct (envelope_loop fuel buf half stride (i + stride)) as [rest|] eqn:E;
      simpl; [|done].
    intros [= <-]. constructor; [apply envelope_sample_range | eauto].
Qed.

(** More fuel than [half - i] iterations changes nothing: the loop stops by
    its own test. *)
Lemma envelope_loop_fuel fuel buf half stride i :
  1 ≤ stride → 0 ≤ i → (Z.to_nat (half - i) ≤ fuel)%nat →
  envelope_loop (S fuel) buf half stride i = envelope_loop fuel buf half stride i.
Proof.
  intros Hs. revert i. induction fuel as [|fuel IH]; intros i Hi Hf.
  - simpl. destruct (Z.ltb_spec i half); [lia|done].
  - change (envelope_loop (S (S fuel)) buf half stride i)
      with (if i <? half then
              b_r ← buf !! Z.to_nat (2 * i);
              b_i ← buf !! Z.to_nat (2 * i + 1);
              rest ← envelope_loop (S fuel) buf half stride (i + stride);
              Some (envelope_sample b_r b_i :: rest)
            else Some []).
    rewrite IH by lia. reflexivity.
Qed.

(** C3, as amended: every value that [envelope_detect] writes lies in
    [0, 32768]; the upper end is [(-128)² + (-128)²], the envelope of the
    byte pair [0x00, 0x00]. *)
Theorem envelope_detect_range buf len decimate out :
  envelope_detect buf len decimate = Some out →
  Forall (λ v, 0 ≤ v ≤ 32768) out.
Proof.
  unfold envelope_detect. case_decide; [|done].
  apply envelope_loop_range.
Qed.

Lemma envelope_detect_range_witness :
  envelope_detect [0; 0; 255; 255] 4 0 = Some [32768; 32258] ∧
  Forall (λ v, 0 ≤ v ≤ 32768) [32768; 32258].
Proof.
  split; [reflexivity|].
  apply (envelope_detect_range [0; 0; 255; 255] 4 0). reflexivity.
Defined.

(** C3, as stated, fails: the byte pair [0x00, 0x00] has the envelope
    32768, above 32258. *)
Lemma envelope_exceeds_32258 :
  ¬ (∀ buf len decimate out,
       envelope_detect buf len decimate = Some out →
       Forall (λ v, 0 ≤ v ≤ 32258) out).
Proof.
  intros H. specialize (H [0; 0] 2 0 [32768] eq_refl).
  apply Forall_inv in H. lia.
Qed.

(** ** Low-pass filter *)

Lemma lp_run_length y x xs : length (lp_run y x xs) = length xs.
Proof. revert y x. induction xs as [|x' xs IH]; intros; simpl; auto. Qed.

(** With 16-bit operands the accumulator stays inside a 32-bit [int], so
    the C expression does not overflow. *)
Lemma lp_acc_fits_int32 y x x' :
  -32768 ≤ y ≤ 32767 → 0 ≤ x < 65536 → 0 ≤ x' < 65536 →
  - 2 ^ 31 ≤ lp_acc y x x' < 2 ^ 31.
Proof.
  intros Hy Hx Hx'. unfold lp_acc.
  change a1 with 31754. change b0 with 506. change b1 with 506.
  rewrite !Z.shiftr_div_pow2 by lia. change (2 ^ 1) with 2.
  change (2 ^ 31) with 2147483648.
  Z.to_euclidean_division_equations. lia.
Qed.

(** The recurrence itself is continuous: the outputs for two blocks in a
    row are those of the first block followed by those of the second
    started from the last output and the last input of the first. *)
Lemma lp_run_app y x xs1 xs2 :
  lp_run y x (xs1 ++ xs2) =
  lp_run y x xs1
  ++ lp_run (default y (last (lp_run y x xs1))) (default x (last xs1)) xs2.
Proof.
  revert y x. induction xs1 as [|x1 xs1 IH]; intros y x; simpl; [done|].
  f_equal. rewrite IH. f_equal. rewrite !last_cons.
  destruct (last (lp_run _ _ xs1)), (last xs1); reflexivity.
Qed.

(** What [low_pass_filter] keeps for the next call are the samples at index
    [len-2] of its input and of its output. *)
Lemma low_pass_filter_keeps x_buf len st ys st' :
  low_pass_filter x_buf len st = Some (ys, st') →
  length ys = Z.to_nat len ∧
  x_buf !! Z.to_nat (len - 2) = Some (lp_xmem st') ∧
  ys !! Z.to_nat (len - 2) = Some (lp_ymem st').
Proof.
  unfold low_pass_filter. case_decide as Hlen; [|done].
  change (len - 1 - FILTER_ORDER) with (len - 1 - 1).
  replace (len - 1 - 1) with (len - 2) by lia.
  destruct (x_buf !! Z.to_nat (len - 2)) as [xk|] eqn:Ex; simpl; [|done].
  destruct (lp_run _ _ _ !! Z.to_nat (len - 2)) as [yk|] eqn:Ey; simpl; [|done].
  intros [= <- <-]. simpl. split_and!; [|done..].
  rewrite lp_run_length, length_take. lia.
Qed.

(** C1 at two 256-sample blocks: the call on the first block keeps the
    samples at index 254, not the last ones (30000 and its output 463), so
    the second call starts from another state than the one-call filter has
    at that point, and the outputs differ from index 256 on. *)
Theorem low_pass_filter_not_continuous :
  ∃ ys ys1 ys2 st st1 st2,
    low_pass_filter (block_a ++ block_b) 512 lp_state_init = Some (ys, st) ∧
    low_pass_filter block_a 256 lp_state_init = Some (ys1, st1) ∧
    low_pass_filter block_b 256 st1 = Some (ys2, st2) ∧
    last block_a = Some 30000 ∧ last ys1 = Some 463 ∧
    st1 = {| lp_xmem := 0; lp_ymem := 0 |} ∧
    ys !! 256%nat = Some 911 ∧ ys2 !! 0%nat = Some 0 ∧
    ys ≠ ys1 ++ ys2.
Proof.
  do 6 eexists.
  split; [vm_compute; reflexivity|].
  split; [vm_compute; reflexivity|].
  split; [vm_compute; reflexivity|].
  split; [vm_compute; reflexivity|].
  split; [vm_compute; reflexivity|].
  split; [reflexivity|].
  split; [vm_compute; reflexivity|].
  split; [vm_compute; reflexivity|].
  intros H. apply (f_equal (λ l, l !! 256%nat)) in H.
  vm_compute in H. discriminate H.
Qed.

(** ** The output monad *)

Lemma bind_ret_l {A B} (x : A) (k : A → Out B) : bind (ret x) k = k x.
Proof. unfold bind, ret. destruct (k x) as [[y o]|]; reflexivity. Qed.

Lemma bind_ret_r {A} (m : Out A) : bind m ret = m.
Proof.
  destruct m as [[x o]|]; [|reflexivity]. simpl. by rewrite app_nil_r.
Qed.

Lemma bind_assoc {A B C} (m : Out A) (k : A → Out B) (h : B → Out C) :
  bind (bind m k) h = bind m (λ x, bind (k x) h).
Proof.
  destruct m as [[x o]|]; [|reflexivity]. simpl.
  destruct (k x) as [[y o2]|]; [|reflexivity]. simpl.
  destruct (h y) as [[z o3]|]; [|reflexivity]. by rewrite app_assoc.
Qed.

Lemma bind_Some {A B} (m : Out A) (k : A → Out B) x o y o' :
  m = Some (x, o) → k x = Some (y, o') → bind m k = Some (y, o ++ o').
Proof. intros -> E. simpl. by rewrite E. Qed.

(** ** Bit packet *)

Lemma zero_buffer_wf : buffer_wf zero_buffer.
Proof. split; [reflexivity | repeat constructor]. Qed.

Lemma bits_read_wf buf r c :
  buffer_wf buf → 0 ≤ r < BITBUF_ROWS → 0 ≤ c < BITBUF_COLS →
  ∃ row x, buf !! Z.to_nat r = Some row ∧ row !! Z.to_nat c = Some x ∧
           bits_read buf r c = Some x.
Proof.
  intros [Hlen Hrows] Hr Hc.
  destruct (lookup_lt_is_Some_2 buf (Z.to_nat r)) as [row Erow]; [lia|].
  pose proof (Forall_lookup_1 _ _ _ _ Hrows Erow) as Hrow. simpl in Hrow.
  destruct (lookup_lt_is_Some_2 row (Z.to_nat c)) as [x Ex]; [lia|].
  exists row, x. split_and!; [done..|].
  unfold bits_read. rewrite decide_True by done. rewrite Erow. simpl. done.
Qed.

Lemma bits_or_wf buf r c v :
  buffer_wf buf → 0 ≤ r < BITBUF_ROWS → 0 ≤ c < BITBUF_COLS →
  ∃ buf', bits_or buf r c v = Some buf' ∧ buffer_wf buf'.
Proof.
  intros Hwf Hr Hc.
  destruct (bits_read_wf buf r c Hwf Hr Hc) as (row & x & Erow & Ex & _).
  destruct Hwf as [Hlen Hrows].
  eexists. split.
  - unfold bits_or. rewrite decide_True by done.
    rewrite Erow. simpl. rewrite Ex. simpl. reflexivity.
  - split; [by rewrite length_insert|].
    apply Forall_insert; [done|]. rewrite length_insert.
    apply (Forall_lookup_1 _ _ _ _ Hrows Erow).
Qed.

(** What one [demod_add_bit] does to a valid cursor: the byte under the
    cursor is written, and the cursor moves one bit, one byte, or, from the
    last bit of the last byte, back to the top of that byte with the
    diagnostic. *)
Lemma demod_add_bit_spec p bit :
  cursor_ok p →
  ∃ buf',
    bits_or (bits_buffer p) (bits_row_idx p) (bits_col_idx p)
      (Z.shiftl bit (bits_bit_col_idx p)) = Some buf' ∧
    buffer_wf buf' ∧
    demod_add_bit p bit =
      if decide (bits_bit_col_idx p = 0) then
        if decide (bits_col_idx p = 4) then
          Some (set_bits 4 (bits_row_idx p) 7 buf' p, [col_diag])
        else
          Some (set_bits (bits_col_idx p + 1) (bits_row_idx p) 7 buf' p, [])
      else
        Some (set_bits (bits_col_idx p) (bits_row_idx p)
                (bits_bit_col_idx p - 1) buf' p, []).
Proof.
  intros (Hc & Hr & Hb & Hwf).
  destruct (bits_or_wf (bits_buffer p) (bits_row_idx p) (bits_col_idx p)
              (Z.shiftl bit (bits_bit_col_idx p)) Hwf) as (buf' & E & Hwf');
    [unfold BITBUF_ROWS; lia | unfold BITBUF_COLS; lia |].
  exists buf'. split_and!; [done..|].
  unfold demod_add_bit. rewrite E.
  destruct (Z.ltb_spec (bits_bit_col_idx p - 1) 0).
  - rewrite decide_True by lia.
    destruct (Z.ltb_spec 4 (bits_col_idx p + 1)).
    + rewrite decide_True by lia. reflexivity.
    + rewrite decide_False by lia. reflexivity.
  - rewrite decide_False by lia. reflexivity.
Qed.

Lemma demod_next_bits_packet_spec p :
  demod_next_bits_packet p =
    if decide (11 ≤ bits_row_idx p) then
      Some (set_bits 0 11 7 (bits_buffer p) p, [row_diag])
    else Some (set_bits 0 (bits_row_idx p + 1) 7 (bits_buffer p) p, []).
Proof.
  unfold demod_next_bits_packet.
  destruct (Z.ltb_spec 11 (bits_row_idx p + 1)).
  - rewrite decide_True by lia. reflexivity.
  - rewrite decide_False by lia. reflexivity.
Qed.

Lemma run_op_ok p op :
  cursor_ok p →
  ∃ p' out, run_op p op = Some (p', out) ∧ cursor_ok p' ∧
            (bits_row_idx p = 11 → bits_row_idx p' = 11) ∧
            (∀ bit, op = AddBit bit →
                    bits_row_idx p' = bits_row_idx p ∧
                    (bits_col_idx p = 4 → bits_col_idx p' = 4)).
Proof.
  intros Hok. destruct op as [bit|]; simpl.
  - destruct (demod_add_bit_spec p bit Hok) as (buf' & _ & Hwf' & ->).
    destruct Hok as (Hc & Hr & Hb & Hwf).
    repeat case_decide; eexists _, _; (split; [reflexivity|]);
      unfold cursor_ok; simpl; split_and!; try done; try lia;
      intros ? _; split; try done; lia.
  - rewrite demod_next_bits_packet_spec.
    destruct Hok as (Hc & Hr & Hb & Hwf).
    case_decide; eexists _, _; (split; [reflexivity|]);
      unfold cursor_ok; simpl; split_and!; try done; lia.
Qed.

Lemma run_ops_ok p ops :
  cursor_ok p →
  ∃ p' out, run_ops p ops = Some (p', out) ∧ cursor_ok p' ∧
            (bits_row_idx p = 11 → bits_row_idx p' = 11) ∧
            (Forall (λ op, op ≠ NextPacket) ops →
             bits_row_idx p' = bits_row_idx p ∧
             (bits_col_idx p = 4 → bits_col_idx p' = 4)).
Proof.
  revert p. induction ops as [|op ops IH]; intros p Hok; simpl.
  - exists p, []. split_and!; done.
  - destruct (run_op_ok p op Hok) as (p1 & o1 & E1 & Hok1 & Hrow1 & Hadd1).
    destruct (IH p1 Hok1) as (p2 & o2 & E2 & Hok2 & Hrow2 & Hadd2).
    exists p2, (o1 ++ o2). split; [by apply (bind_Some _ _ _ _ _ _ E1 E2)|].
    split_and!; [done|auto|].
    intros Hall. inversion Hall as [|? ? Hop Hall']; subst.
    destruct op as [bit|]; [|done].
    destruct (Hadd1 bit eq_refl) as [Hr1 Hc1].
    destruct (Hadd2 Hall') as [Hr2 Hc2].
    split; [congruence|auto].
Qed.

Lemma demod_reset_bits_packet_ok q : cursor_ok (demod_reset_bits_packet q).
Proof.
  unfold cursor_ok. simpl. split_and!; try lia. apply zero_buffer_wf.
Qed.

(** C7.  Whatever sequence of [demod_add_bit] and [demod_next_bits_packet]
    calls follows a reset, no write leaves the 12-by-5 buffer (the run does
    not fault) and the cursor it reaches is valid: byte index in 0..4, row
    index in 0..11, bit index in 0..7.  From that cursor, a
    [demod_add_bit] writes the byte under the cursor and prints the column
    diagnostic exactly when it is on the last bit of byte 4, where the
    cursor is put back on byte 4; [demod_next_bits_packet] prints the row
    diagnostic exactly when the row is 11, where the row stays 11.  Once
    the cursor is on byte 4, further appends stay on byte 4 of that row;
    once it is on row 11, every further call stays on row 11. *)
Theorem bit_packet_cursor_invariant (q : protocol_state) (ops : list packet_op) :
  ∃ p out,
    run_ops (demod_reset_bits_packet q) ops = Some (p, out) ∧
    cursor_ok p ∧
    (∀ bit, ∃ p' o buf',
        demod_add_bit p bit = Some (p', o) ∧
        bits_or (bits_buffer p) (bits_row_idx p) (bits_col_idx p)
          (Z.shiftl bit (bits_bit_col_idx p)) = Some buf' ∧
        bits_buffer p' = buf' ∧
        (bits_col_idx p = 4 ∧ bits_bit_col_idx p = 0 →
         o = [col_diag] ∧ bits_row_idx p' = bits_row_idx p ∧
         bits_col_idx p' = 4 ∧ bits_bit_col_idx p' = 7) ∧
        (¬ (bits_col_idx p = 4 ∧ bits_bit_col_idx p = 0) → o = [])) ∧
    (∃ p' o,
        demod_next_bits_packet p = Some (p', o) ∧
        (bits_row_idx p = 11 →
         o = [row_diag] ∧ bits_row_idx p' = 11 ∧
         bits_col_idx p' = 0 ∧ bits_bit_col_idx p' = 7) ∧
        (bits_row_idx p ≠ 11 → o = [] ∧ bits_row_idx p' = bits_row_idx p + 1)) ∧
    (bits_col_idx p = 4 →
     ∀ bits, ∃ p' o,
       run_ops p (map AddBit bits) = Some (p', o) ∧
       bits_row_idx p' = bits_row_idx p ∧ bits_col_idx p' = 4) ∧
    (bits_row_idx p = 11 →
     ∀ ops', ∃ p' o, run_ops p ops' = Some (p', o) ∧ bits_row_idx p' = 11).
Proof.
  destruct (run_ops_ok _ ops (demod_reset_bits_packet_ok q))
    as (p & out & E & Hok & _ & _).
  exists p, out. split; [done|]. split; [done|]. split_and!.
  - intros bit.
    destruct (demod_add_bit_spec p bit Hok) as (buf' & Eor & _ & Eadd).
    destruct Hok as (Hc & Hr & Hb & Hwf).
    rewrite Eadd. repeat case_decide; eexists _, _, buf';
      (split; [reflexivity|]); simpl; split_and!; try done; try lia;
      intros; try lia; tauto.
  - rewrite demod_next_bits_packet_spec.
    destruct Hok as (Hc & Hr & Hb & Hwf).
    case_decide; eexists _, _; (split; [reflexivity|]); simpl;
      split; intros; split_and!; try done; lia.
  - intros Hcol bits.
    destruct (run_ops_ok p (map AddBit bits) Hok) as (p' & o & E' & _ & _ & H).
    exists p', o. split; [done|].
    destruct H as [Hr' Hc']; [|auto].
    apply Forall_forall. intros op Hin Hop. subst op.
    apply list_elem_of_In, in_map_iff in Hin.
    destruct Hin as (? & [=] & _).
  - intros Hrow ops'.
    destruct (run_ops_ok p ops' Hok) as (p' & o & E' & _ & H & _).
    exists p', o. auto.
Qed.

(** ** Frame printer *)

Lemma for_each_ok {A} (l : list A) (body : A → Out unit) :
  (∀ x, x ∈ l → ∃ o, body x = Some (tt, o)) →
  ∃ o, for_each l body = Some (tt, o).
Proof.
  induction l as [|x l IH]; intros Hbody; simpl.
  - by exists [].
  - destruct (Hbody x) as [o1 E1]; [left|].
    destruct IH as [o2 E2]; [intros y Hy; apply Hbody; by right|].
    exists (o1 ++ o2). by apply (bind_Some _ _ _ _ _ _ E1 E2).
Qed.

Lemma print_rows_ok buf : buffer_wf buf → ∃ o, print_rows buf = Some (tt, o).
Proof.
  intros Hwf. unfold print_rows.
  apply for_each_ok. intros i Hi. apply elem_of_seqZ in Hi.
  destruct (for_each_ok (seqZ 0 BITBUF_COLS) (λ j,
              for_each (reverse (seqZ 0 8)) (λ k, print_bit buf i j k) ;;;
              fprintf_stderr " ")) as [o E].
  - intros j Hj. apply elem_of_seqZ in Hj.
    destruct (for_each_ok (reverse (seqZ 0 8)) (λ k, print_bit buf i j k))
      as [o E].
    + intros k _. unfold print_bit.
      destruct (bits_read_wf buf i j Hwf) as (? & x & _ & _ & ->); [lia..|].
      simpl. destruct (truthy _); eexists; reflexivity.
    + eexists. eapply bind_Some; [exact E | reflexivity].
  - eexists. eapply bind_Some; [exact E | reflexivity].
Qed.

(** The printer does not fault on a well-formed packet, and what it prints
    ends with the field lines of rows 1 and 0. *)
Lemma demod_print_bits_packet_lines p :
  buffer_wf (bits_buffer p) →
  ∃ dump,
    demod_print_bits_packet p = Some (tt, dump ++ field_lines (bits_buffer p)).
Proof.
  intros Hwf. unfold demod_print_bits_packet, field_lines, byte_at.
  destruct (print_rows_ok _ Hwf) as [o ->].
  destruct (bits_read_wf _ 1 0 Hwf) as (? & r10 & _ & _ & ->); [done..|].
  destruct (bits_read_wf _ 1 1 Hwf) as (? & r11 & _ & _ & ->); [done..|].
  destruct (bits_read_wf _ 1 2 Hwf) as (? & r12 & _ & _ & ->); [done..|].
  destruct (bits_read_wf _ 1 3 Hwf) as (? & r13 & _ & _ & ->); [done..|].
  destruct (bits_read_wf _ 1 4 Hwf) as (? & r14 & _ & _ & ->); [done..|].
  destruct (bits_read_wf _ 0 0 Hwf) as (? & r00 & _ & _ & ->); [done..|].
  destruct (bits_read_wf _ 0 1 Hwf) as (? & r01 & _ & _ & ->); [done..|].
  destruct (bits_read_wf _ 0 2 Hwf) as (? & r02 & _ & _ & ->); [done..|].
  exists (nl :: o ++ [nl]).
  cbn [bind of_opt ret fprintf_stderr default].
  f_equal. f_equal.
  unfold hex_line, prologue_lines, rubicson_lines.
  cbn [app id]. rewrite <- app_assoc. reflexivity.
Qed.

Lemma byte_at_row buf r c row :
  0 ≤ r < BITBUF_ROWS → 0 ≤ c < BITBUF_COLS →
  buf !! Z.to_nat r = Some row →
  byte_at buf r c = default 0 (row !! Z.to_nat c).
Proof.
  intros Hr Hc E. unfold byte_at, bits_read.
  rewrite decide_True by done. rewrite E. reflexivity.
Qed.

Lemma packet_of_rows_wf row0 row1 p :
  length row0 = 5%nat → length row1 = 5%nat →
  buffer_wf (bits_buffer (packet_of_rows row0 row1 p)).
Proof.
  intros H0 H1. split; [reflexivity|]. simpl.
  repeat constructor; assumption.
Qed.

Lemma not_In_existsb (s : string) (l : list string) :
  existsb (String.eqb s) l = false → ¬ In s l.
Proof.
  intros Hf Hin.
  assert (existsb (String.eqb s) l = true) as Ht; [|congruence].
  apply existsb_exists. exists s. split; [done|]. apply String.eqb_refl.
Qed.

(** [to_int16] only looks at the low 16 bits. *)
Lemma to_int16_congr x y : x mod 65536 = y mod 65536 → to_int16 x = to_int16 y.
Proof. intros E. unfold to_int16. by rewrite E. Qed.

Lemma lor_to_uint16 x y :
  Z.lor (to_uint16 x) y mod 65536 = Z.lor x y mod 65536.
Proof.
  unfold to_uint16. change 65536 with (2 ^ 16).
  rewrite <- !Z.land_ones by lia.
  rewrite !Z.land_lor_distr_l, <- Z.land_assoc, Z.land_diag. reflexivity.
Qed.

(** The second shift of either temperature stays inside an [int16_t]. *)
Lemma to_int16_shiftr_4 z :
  to_int16 (Z.shiftr (to_int16 z) 4) = Z.shiftr (to_int16 z) 4.
Proof.
  apply to_int16_small. pose proof (to_int16_range z).
  rewrite Z.shiftr_div_pow2 by lia. change (2 ^ 4) with 16.
  Z.to_euclidean_division_equations. lia.
Qed.

Lemma prologue_temp_formula b2 b3 :
  prologue_temp b2 b3 =
    Z.shiftr (to_int16 (Z.lor (Z.shiftl b2 8) (Z.land b3 0xF0))) 4.
Proof.
  unfold prologue_temp. rewrite to_int16_shiftr_4. f_equal.
  apply to_int16_congr, lor_to_uint16.
Qed.

Lemma rubicson_temp_formula b1 b2 :
  rubicson_temp b1 b2 =
    Z.shiftr (to_int16 (Z.lor (Z.shiftl b1 12) (Z.shiftl b2 4))) 4.
Proof.
  unfold rubicson_temp. rewrite to_int16_shiftr_4. f_equal.
  apply to_int16_congr, lor_to_uint16.
Qed.

(** Both temperatures are the 12 bits that follow the fourth nibble of
    their row, read as a signed number.  The Prologue one depends on byte 3
    through its high nibble only, the Rubicson one on byte 1 through its
    low nibble only; the rest is checked case by case. *)
Lemma prologue_temp_sext12 b2 b3 :
  0 ≤ b2 < 256 → 0 ≤ b3 < 256 →
  prologue_temp b2 b3 = sext12 (b2 * 16 + b3 / 16).
Proof.
  intros H2 H3.
  assert (forallb (λ y, Z.land y 0xF0 =? 16 * (y / 16)) (seqZ 0 256) = true)
    as Hnib by (vm_compute; reflexivity).
  rewrite forallb_forall in Hnib.
  assert (Z.land b3 0xF0 = 16 * (b3 / 16)) as Eb3
    by (apply Z.eqb_eq, Hnib, list_elem_of_In, elem_of_seqZ; lia).
  assert (forallb (λ x, forallb (λ k,
            Z.shiftr (to_int16 (Z.lor (Z.shiftl x 8) (16 * k))) 4
            =? sext12 (x * 16 + k)) (seqZ 0 16)) (seqZ 0 256) = true) as Hall
    by (vm_compute; reflexivity).
  rewrite forallb_forall in Hall.
  specialize (Hall b2). rewrite forallb_forall in Hall.
  rewrite prologue_temp_formula, Eb3.
  apply Z.eqb_eq, Hall; apply list_elem_of_In, elem_of_seqZ;
    [lia|]. Z.to_euclidean_division_equations. lia.
Qed.

Lemma rubicson_temp_sext12 b1 b2 :
  0 ≤ b1 < 256 → 0 ≤ b2 < 256 →
  rubicson_temp b1 b2 = sext12 (b1 mod 16 * 256 + b2).
Proof.
  intros H1 H2.
  assert (forallb (λ x, to_uint16 (Z.shiftl x 12) =? Z.shiftl (x mod 16) 12)
            (seqZ 0 256) = true) as Hnib by (vm_compute; reflexivity).
  rewrite forallb_forall in Hnib.
  assert (to_uint16 (Z.shiftl b1 12) = Z.shiftl (b1 mod 16) 12) as Eb1
    by (apply Z.eqb_eq, Hnib, list_elem_of_In, elem_of_seqZ; lia).
  assert (forallb (λ m, forallb (λ y,
            Z.shiftr (to_int16 (Z.lor (Z.shiftl m 12) (Z.shiftl y 4))) 4
            =? sext12 (m * 256 + y)) (seqZ 0 256)) (seqZ 0 16) = true) as Hall
    by (vm_compute; reflexivity).
  rewrite forallb_forall in Hall.
  specialize (Hall (b1 mod 16)). rewrite forallb_forall in Hall.
  unfold rubicson_temp. rewrite to_int16_shiftr_4, Eb1.
  apply Z.eqb_eq, Hall; apply list_elem_of_In, elem_of_seqZ;
    [|lia]. pose proof (Z.mod_pos_bound b1 16). lia.
Qed.

(** C5, as amended: for a packet whose row 1 holds
    [{0x95, 0xA1, 0x00, 0xEA, 0xCC}] the printer emits [channel = 2],
    [temp = 1.4], [id = 9], [rid = 90] and [hrid = 5a].  The temperature is
    [((byte2 << 8) | (byte3 & 0xF0))] as a signed 16-bit value shifted
    right by 4, in tenths of a degree: 14 for these bytes, and for all
    bytes the 12 bits of byte 2 and the high nibble of byte 3 as a signed
    number. *)
Theorem prologue_scenario_prints (p : protocol_state) :
  buffer_wf (bits_buffer p) →
  bits_buffer p !! 1%nat = Some prologue_row →
  (∃ dump rest,
     demod_print_bits_packet p =
       Some (tt, dump
                 ++ [ "95 a1 00 ea cc" ++ nl;
                      "button        = 0" ++ nl;
                      "first reading = 1" ++ nl;
                      "temp          = 1.4" ++ nl;
                      "channel       = 2" ++ nl;
                      "id            = 9" ++ nl;
                      "rid           = 90" ++ nl;
                      "hrid          = 5a" ++ nl ]%string
                 ++ rest)) ∧
  prologue_temp 0x00 0xEA = 14 ∧
  (∀ b2 b3, 0 ≤ b2 < 256 → 0 ≤ b3 < 256 →
     prologue_temp b2 b3 =
       Z.shiftr (to_int16 (Z.lor (Z.shiftl b2 8) (Z.land b3 0xF0))) 4 ∧
     prologue_temp b2 b3 = sext12 (b2 * 16 + b3 / 16)).
Proof.
  intros Hwf Hrow. split_and!.
  - destruct (demod_print_bits_packet_lines p Hwf) as [dump ->].
    exists dump. eexists. do 2 f_equal. unfold field_lines.
    rewrite !(byte_at_row _ 1 _ prologue_row) by done.
    change (default 0 (prologue_row !! Z.to_nat 0)) with 0x95.
    change (default 0 (prologue_row !! Z.to_nat 1)) with 0xA1.
    change (default 0 (prologue_row !! Z.to_nat 2)) with 0x00.
    change (default 0 (prologue_row !! Z.to_nat 3)) with 0xEA.
    change (default 0 (prologue_row !! Z.to_nat 4)) with 0xCC.
    rewrite app_comm_cons. f_equal.
  - vm_compute. reflexivity.
  - intros b2 b3 H2 H3. split; [apply prologue_temp_formula|].
    by apply prologue_temp_sext12.
Qed.

Lemma prologue_scenario_prints_witness :
  buffer_wf (bits_buffer prologue_packet) ∧
  bits_buffer prologue_packet !! 1%nat = Some prologue_row ∧
  ∃ dump rest,
    demod_print_bits_packet prologue_packet =
      Some (tt, dump
                ++ [ "95 a1 00 ea cc" ++ nl;
                     "button        = 0" ++ nl;
                     "first reading = 1" ++ nl;
                     "temp          = 1.4" ++ nl;
                     "channel       = 2" ++ nl;
                     "id            = 9" ++ nl;
                     "rid           = 90" ++ nl;
                     "hrid          = 5a" ++ nl ]%string
                ++ rest).
Proof.
  assert (buffer_wf (bits_buffer prologue_packet)) as Hwf
    by (apply packet_of_rows_wf; reflexivity).
  split; [exact Hwf|]. split; [reflexivity|].
  exact (proj1 (prologue_scenario_prints prologue_packet Hwf eq_refl)).
Defined.

Lemma In_existsb (s : string) (l : list string) :
  existsb (String.eqb s) l = true → In s l.
Proof.
  intros H. apply existsb_exists in H as (x & Hin & Heq).
  apply String.eqb_eq in Heq. by subst.
Qed.

(** C5, as stated, fails: on the packet that is empty but for the row 1 of
    the scenario, the temperature line reads [1.4] and no line reads
    [temp = 23.4]. *)
Lemma prologue_scenario_not_23_4 :
  ∃ out,
    demod_print_bits_packet prologue_packet = Some (tt, out) ∧
    In ("temp          = 1.4" ++ nl)%string out ∧
    ¬ In ("temp          = 23.4" ++ nl)%string out.
Proof.
  eexists. split; [vm_compute; reflexivity|]. split.
  - apply In_existsb. vm_compute. reflexivity.
  - apply not_In_existsb. vm_compute. reflexivity.
Qed.

(** C6, as amended: for a packet whose row 0 holds
    [{0xA0, 0x07, 0xB0, 0x00, 0x00}] the Rubicson temperature is
    [((byte1 << 12) | (byte2 << 4))] as a 16-bit value shifted right
    arithmetically by 4, the signed 12 bits [12..24) of the row; for these
    bytes that is [0x7B0 = 1968], and the printer emits [temp = 196.8]. *)
Theorem rubicson_scenario_prints (p : protocol_state) :
  buffer_wf (bits_buffer p) →
  bits_buffer p !! 0%nat = Some rubicson_row →
  (∃ before,
     demod_print_bits_packet p =
       Some (tt, before ++ [ "rid = a0" ++ nl; "temp = 196.8" ++ nl; nl ]%string)) ∧
  rubicson_temp 0x07 0xB0 = 1968 ∧
  (∀ b1 b2, 0 ≤ b1 < 256 → 0 ≤ b2 < 256 →
     rubicson_temp b1 b2 =
       Z.shiftr (to_int16 (Z.lor (Z.shiftl b1 12) (Z.shiftl b2 4))) 4 ∧
     rubicson_temp b1 b2 = sext12 (b1 mod 16 * 256 + b2)).
Proof.
  intros Hwf Hrow. split_and!.
  - destruct (demod_print_bits_packet_lines p Hwf) as [dump ->].
    unfold field_lines.
    rewrite !(byte_at_row _ 0 _ rubicson_row) by done.
    change (default 0 (rubicson_row !! Z.to_nat 0)) with 0xA0.
    change (default 0 (rubicson_row !! Z.to_nat 1)) with 0x07.
    change (default 0 (rubicson_row !! Z.to_nat 2)) with 0xB0.
    eexists (dump ++ hex_line _ _ _ _ _ :: prologue_lines _ _ _ _).
    rewrite <- app_assoc. do 3 f_equal.
  - vm_compute. reflexivity.
  - intros b1 b2 H1 H2. split; [apply rubicson_temp_formula|].
    by apply rubicson_temp_sext12.
Qed.

Lemma rubicson_scenario_prints_witness :
  buffer_wf (bits_buffer rubicson_packet) ∧
  bits_buffer rubicson_packet !! 0%nat = Some rubicson_row ∧
  ∃ before,
    demod_print_bits_packet rubicson_packet =
      Some (tt, before ++ [ "rid = a0" ++ nl; "temp = 196.8" ++ nl; nl ]%string).
Proof.
  assert (buffer_wf (bits_buffer rubicson_packet)) as Hwf
    by (apply packet_of_rows_wf; reflexivity).
  split; [exact Hwf|]. split; [reflexivity|].
  exact (proj1 (rubicson_scenario_prints rubicson_packet Hwf eq_refl)).
Defined.

(** C6, as stated, fails: on the packet that is empty but for the row 0 of
    the scenario, the raw temperature is 1968, not 123, and the Rubicson
    line reads [temp = 196.8]; no line reads [temp = 12.3]. *)
Lemma rubicson_scenario_not_12_3 :
  rubicson_temp 0x07 0xB0 ≠ 123 ∧
  ∃ out,
    demod_print_bits_packet rubicson_packet = Some (tt, out) ∧
    In ("temp = 196.8" ++ nl)%string out ∧
    ¬ In ("temp = 12.3" ++ nl)%string out.
Proof.
  split; [vm_compute; discriminate|].
  eexists. split; [vm_compute; reflexivity|]. split.
  - apply In_existsb. vm_compute. reflexivity.
  - apply not_In_existsb. vm_compute. reflexivity.
Qed.

Lemma prologue_channel_mod b1 : prologue_channel b1 = b1 mod 4 + 1.
Proof.
  unfold prologue_channel. change 3 with (Z.ones 2).
  by rewrite Z.land_ones by lia.
Qed.

(** C9, as amended: for every well-formed packet the printer emits, as the
    fifth of its field lines, [channel = N] where [N] is the low two bits
    of byte 1 of row 1 plus one, and [N] lies in 1..4. *)
Theorem prologue_channel_printed (p : protocol_state) :
  buffer_wf (bits_buffer p) →
  ∃ dump lines channel,
    demod_print_bits_packet p = Some (tt, dump ++ lines) ∧
    lines !! 4%nat = Some ("channel       = " ++ fmt_d channel ++ nl)%string ∧
    channel = byte_at (bits_buffer p) 1 1 mod 4 + 1 ∧
    channel = Z.land (byte_at (bits_buffer p) 1 1) 0x03 + 1 ∧
    1 ≤ channel ≤ 4.
Proof.
  intros Hwf. destruct (demod_print_bits_packet_lines p Hwf) as [dump E].
  exists dump, (field_lines (bits_buffer p)),
    (prologue_channel (byte_at (bits_buffer p) 1 1)).
  split_and!; [done|reflexivity|apply prologue_channel_mod|reflexivity|..];
    rewrite prologue_channel_mod;
    pose proof (Z.mod_pos_bound (byte_at (bits_buffer p) 1 1) 4); lia.
Qed.

Lemma prologue_channel_printed_witness :
  buffer_wf (bits_buffer channel_packet) ∧
  ∃ dump lines channel,
    demod_print_bits_packet channel_packet = Some (tt, dump ++ lines) ∧
    lines !! 4%nat = Some ("channel       = " ++ fmt_d channel ++ nl)%string ∧
    channel = byte_at (bits_buffer channel_packet) 1 1 mod 4 + 1 ∧
    channel = Z.land (byte_at (bits_buffer channel_packet) 1 1) 0x03 + 1 ∧
    1 ≤ channel ≤ 4.
Proof.
  assert (buffer_wf (bits_buffer channel_packet)) as Hwf
    by (apply packet_of_rows_wf; reflexivity).
  split; [exact Hwf|].
  exact (prologue_channel_printed channel_packet Hwf).
Defined.

(** C9, as stated, fails: with both channel bits set the printed channel is
    4, outside 1..3. *)
Lemma prologue_channel_4 :
  ¬ (1 ≤ prologue_channel 0x03 ≤ 3) ∧
  ∃ out,
    demod_print_bits_packet channel_packet = Some (tt, out) ∧
    In ("channel       = 4" ++ nl)%string out.
Proof.
  split; [vm_compute; intros [_ H]; by apply H|].
  eexists. split; [vm_compute; reflexivity|].
  apply In_existsb. vm_compute. reflexivity.
Qed.

(** ** Packet termination *)

Lemma cursor_ok_set_demod len cnt dist ctr start p :
  cursor_ok p → cursor_ok (set_demod len cnt dist ctr start p).
Proof. intros H. exact H. Qed.

(** The first four statements of the loop body never fault on a valid
    cursor, and leave one. *)
Lemma pwm_demod_edges_ok level p s :
  cursor_ok p →
  ∃ q o, pwm_demod_edges level p s = Some (q, o) ∧ cursor_ok q.
Proof.
  intros Hok. unfold pwm_demod_edges.
  set (p1 := if level <? s then _ else p).
  assert (cursor_ok p1) as Hok1 by (subst p1; by destruct (level <? s)).
  clearbody p1.
  set (p2 := if truthy (pulse_count p1) && (s <? level) then _ else p1).
  assert (cursor_ok p2) as Hok2 by (subst p2; by destruct (_ && _)).
  clearbody p2.
  set (p3 := if truthy (start_c p2) then _ else p2).
  assert (cursor_ok p3) as Hok3 by (subst p3; by destruct (truthy _)).
  clearbody p3.
  destruct (truthy (pulse_distance p3) && (level <? s));
    [|by exists p3, []].
  destruct (sample_counter p3 <? short_limit p3);
    [|destruct (sample_counter p3 <? long_limit p3)].
  - destruct (run_op_ok p3 (AddBit 0) Hok3) as (q & o & E & Hq & _).
    cbn [run_op] in E. rewrite E. eexists _, _. split; [reflexivity|].
    by apply cursor_ok_set_demod.
  - destruct (run_op_ok p3 (AddBit 1) Hok3) as (q & o & E & Hq & _).
    cbn [run_op] in E. rewrite E. eexists _, _. split; [reflexivity|].
    by apply cursor_ok_set_demod.
  - destruct (run_op_ok p3 NextPacket Hok3) as (q & o & E & Hq & _).
    cbn [run_op] in E. rewrite E. eexists _, _. split; [reflexivity|].
    by do 2 apply cursor_ok_set_demod.
Qed.

(** C10.  Whatever the limits of the protocol instance and whatever the
    sample: the first four statements of the loop body of [pwm_demod] leave
    a state [q]; when its [sample_counter] does not exceed [reset_limit]
    nothing more happens, and when it does the body prints, after the dump
    of the buffer, the hexadecimal line and the seven Prologue lines decoded
    from row 1 of the packet, then the two Rubicson lines decoded from row
    0 of the same packet and an empty line, and it leaves the packet reset
    and the demodulator idle. *)
Theorem termination_prints_both (level s : Z) (p : protocol_state) :
  cursor_ok p →
  ∃ q o,
    pwm_demod_edges level p s = Some (q, o) ∧
    (sample_counter q ≤ reset_limit q →
     pwm_demod_sample level p s = Some (q, o)) ∧
    (reset_limit q < sample_counter q →
     ∃ dump,
       pwm_demod_sample level p s =
         Some (demod_reset_bits_packet
                 (set_demod (pulse_length q) (pulse_count q) 0 0 0 q),
               o ++ dump
               ++ [hex_line (byte_at (bits_buffer q) 1 0)
                     (byte_at (bits_buffer q) 1 1) (byte_at (bits_buffer q) 1 2)
                     (byte_at (bits_buffer q) 1 3) (byte_at (bits_buffer q) 1 4)]
               ++ prologue_lines (byte_at (bits_buffer q) 1 0)
                    (byte_at (bits_buffer q) 1 1) (byte_at (bits_buffer q) 1 2)
                    (byte_at (bits_buffer q) 1 3)
               ++ rubicson_lines (byte_at (bits_buffer q) 0 0)
                    (byte_at (bits_buffer q) 0 1) (byte_at (bits_buffer q) 0 2)
               ++ [nl])).
Proof.
  intros Hok.
  destruct (pwm_demod_edges_ok level p s Hok) as (q & o & Eedges & Hq).
  exists q, o. split; [done|]. unfold pwm_demod_sample. split.
  - intros Hidle. rewrite <- (app_nil_r o).
    eapply bind_Some; [exact Eedges|].
    unfold pwm_demod_timeout.
    destruct (Z.ltb_spec (reset_limit q) (sample_counter q)); [lia|].
    reflexivity.
  - intros Hover.
    destruct (demod_print_bits_packet_lines
                (set_demod (pulse_length q) (pulse_count q) 0 0 0 q))
      as [dump Eprint]; [apply Hq|].
    exists dump. eapply bind_Some; [exact Eedges|].
    unfold pwm_demod_timeout.
    destruct (Z.ltb_spec (reset_limit q) (sample_counter q)); [|lia].
    rewrite Eprint. cbn [bind ret]. rewrite app_nil_r. reflexivity.
Qed.

Lemma termination_prints_both_witness :
  cursor_ok prologue_silent ∧
  ∃ q o, pwm_demod_edges 10000 prologue_silent 0 = Some (q, o).
Proof.
  assert (cursor_ok prologue_silent) as Hok.
  { unfold cursor_ok. cbn. split_and!; try lia.
    apply (packet_of_rows_wf zero_row prologue_row prologue_init);
      reflexivity. }
  split; [exact Hok|].
  destruct (termination_prints_both 10000 0 prologue_silent Hok)
    as (q & o & E & _).
  exists q, o. exact E.
Defined.

(** The Prologue instance on the sample that ends a silence of 15001
    samples prints both groups of lines for its packet. *)
Lemma prologue_termination_example :
  ∃ dump,
    pwm_demod_sample 10000 prologue_silent 0 =
      Some (prologue_init,
            dump
            ++ [("95 a1 00 ea cc" ++ nl)%string]
            ++ prologue_lines 0x95 0xA1 0x00 0xEA
            ++ rubicson_lines 0 0 0
            ++ [nl]).
Proof.
  destruct (demod_print_bits_packet_lines prologue_packet) as [dump E].
  { apply packet_of_rows_wf; reflexivity. }
  exists dump. unfold pwm_demod_sample.
  eapply (bind_Some _ _ (set_demod 0 0 1 15001 1 prologue_packet) []);
    [reflexivity|].
  unfold pwm_demod_timeout. cbn [reset_limit sample_counter set_demod
    prologue_packet packet_of_rows set_bits prologue_init protocol_init].
  change (15000 <? 15001) with true. cbv iota.
  change (demod_print_bits_packet _) with (demod_print_bits_packet prologue_packet).
  rewrite E. cbn [bind ret]. rewrite app_nil_r. reflexivity.
Qed.

Lemma pwm_demod_timeout_ok q :
  cursor_ok q →
  ∃ p' o, pwm_demod_timeout q = Some (p', o) ∧ cursor_ok p'.
Proof.
  intros Hq. unfold pwm_demod_timeout.
  destruct (reset_limit q <? sample_counter q); [|by exists q, []].
  destruct (demod_print_bits_packet_lines
              (set_demod (pulse_length q) (pulse_count q) 0 0 0 q))
    as [dump ->]; [apply Hq|].
  eexists _, _. split; [reflexivity|]. apply demod_reset_bits_packet_ok.
Qed.

(** From a valid cursor, so from the two instances [main] builds, the
    demodulator runs through any block without a fault and keeps the
    cursor valid. *)
Lemma pwm_demod_ok level p buf :
  cursor_ok p →
  ∃ p' o, pwm_demod level p buf = Some (p', o) ∧ cursor_ok p'.
Proof.
  revert p. induction buf as [|s buf IH]; intros p Hok; cbn [pwm_demod].
  - by exists p, [].
  - destruct (pwm_demod_edges_ok level p s Hok) as (q & o1 & E1 & Hq).
    destruct (pwm_demod_timeout_ok q Hq) as (p1 & o2 & E2 & Hp1).
    destruct (IH p1 Hp1) as (p2 & o3 & E3 & Hp2).
    exists p2, ((o1 ++ o2) ++ o3). split; [|done].
    eapply bind_Some; [|exact E3].
    unfold pwm_demod_sample. eapply bind_Some; [exact E1 | exact E2].
Qed.

Lemma protocol_init_ok short long reset :
  cursor_ok (protocol_init short long reset).
Proof.
  unfold cursor_ok. cbn. split_and!; try lia. apply zero_buffer_wf.
Qed.

(** ** Demodulator thresholds *)

Lemma set_demod_id p :
  set_demod (pulse_length p) (pulse_count p) (pulse_distance p)
    (sample_counter p) (start_c p) p = p.
Proof. by destruct p. Qed.

(** On a sample equal to the level no edge is seen: the first four
    statements only count the sample. *)
Lemma pwm_demod_edges_level level p :
  pwm_demod_edges level p level =
    ret (set_demod (pulse_length p) (pulse_count p) (pulse_distance p)
           (counted p) (start_c p) p).
Proof.
  unfold pwm_demod_edges, counted.
  rewrite Z.ltb_irrefl, !andb_false_r.
  destruct (truthy (start_c p)) eqn:E; simpl; rewrite ?E, ?andb_false_r.
  - reflexivity.
  - by rewrite set_demod_id.
Qed.

(** C8, as amended: a sample equal to [level_limit] neither enters nor
    leaves a pulse.  [pulse_count] is unchanged; as long as the counted
    sample does not lift [sample_counter] above [reset_limit], nothing is
    printed and [pulse_distance], [start_c] and the bit packet are
    unchanged too; when it does, the silence timeout prints the packet and
    clears [pulse_distance], [start_c] and [sample_counter]. *)
Theorem level_sample_holds_state (level : Z) (p : protocol_state) :
  buffer_wf (bits_buffer p) →
  ∃ p' out,
    pwm_demod_sample level p level = Some (p', out) ∧
    pulse_count p' = pulse_count p ∧
    (counted p ≤ reset_limit p →
     out = [] ∧ pulse_distance p' = pulse_distance p ∧
     start_c p' = start_c p ∧ sample_counter p' = counted p ∧
     bits_buffer p' = bits_buffer p ∧ bits_row_idx p' = bits_row_idx p ∧
     bits_col_idx p' = bits_col_idx p ∧
     bits_bit_col_idx p' = bits_bit_col_idx p) ∧
    (reset_limit p < counted p →
     out ≠ [] ∧ pulse_distance p' = 0 ∧ start_c p' = 0 ∧
     sample_counter p' = 0).
Proof.
  intros Hwf. unfold pwm_demod_sample.
  rewrite pwm_demod_edges_level, bind_ret_l.
  unfold pwm_demod_timeout. cbn [reset_limit sample_counter set_demod].
  destruct (Z.ltb_spec (reset_limit p) (counted p)) as [Hover|Hin].
  - match goal with |- context [demod_print_bits_packet ?q] =>
      destruct (demod_print_bits_packet_lines q Hwf) as [dump ->] end.
    eexists _, _. split; [reflexivity|]. simpl.
    split_and!; [done|intros; lia|].
    intros _. split_and!; try done.
    rewrite app_nil_r. unfold field_lines.
    intros H. by apply app_eq_nil in H as [_ [=]].
  - eexists _, _. split; [reflexivity|]. simpl.
    split_and!; [done| |intros; lia]. done.
Qed.

Lemma level_sample_holds_state_witness :
  buffer_wf (bits_buffer rubicson_init) ∧
  ∃ p' out,
    pwm_demod_sample 10000 rubicson_init 10000 = Some (p', out) ∧
    pulse_count p' = pulse_count rubicson_init.
Proof.
  split; [exact zero_buffer_wf|].
  destruct (level_sample_holds_state 10000 rubicson_init zero_buffer_wf)
    as (p' & out & E & Hcount & _).
  exists p', out. split; [exact E | exact Hcount].
Defined.

(** C8, as stated, fails: after a pulse and 5000 samples of silence the
    Rubicson instance is in a gap ([pulse_distance = 1], [start_c = 1]);
    a sample equal to the level then counts as sample 5001, and the
    timeout clears both. *)
Lemma level_sample_resets :
  ∃ p p' out,
    pwm_demod 10000 rubicson_init (pulse_then_silence 20000 0 5000)
      = Some (p, []) ∧
    pwm_demod_sample 10000 p 10000 = Some (p', out) ∧
    pulse_distance p = 1 ∧ pulse_distance p' = 0 ∧
    start_c p = 1 ∧ start_c p' = 0.
Proof.
  eexists _, _, _.
  split; [vm_compute; reflexivity|].
  split; [vm_compute; reflexivity|].
  split_and!; reflexivity.
Qed.

(** ** Gap classification *)

Lemma pwm_demod_timeout_idle p :
  sample_counter p ≤ reset_limit p → pwm_demod_timeout p = ret p.
Proof. intros H. unfold pwm_demod_timeout. by ltb_decide. Qed.

Lemma pwm_demod_app level p buf1 buf2 :
  pwm_demod level p (buf1 ++ buf2) =
  do p <- pwm_demod level p buf1 in pwm_demod level p buf2.
Proof.
  revert p. induction buf1 as [|s buf1 IH]; intros p; cbn [app pwm_demod].
  - by rewrite bind_ret_l.
  - rewrite bind_assoc.
    destruct (pwm_demod_sample level p s) as [[p' o]|]; [|reflexivity].
    cbn [bind]. by rewrite IH.
Qed.

(** The packet operations do not look at the demodulator fields. *)
Lemma demod_add_bit_set_demod len cnt dist ctr start p bit :
  demod_add_bit (set_demod len cnt dist ctr start p) bit =
  do q <- demod_add_bit p bit in ret (set_demod len cnt dist ctr start q).
Proof.
  unfold demod_add_bit. demod_proj.
  destruct (bits_or _ _ _ _) as [buf|]; [|reflexivity].
  destruct (_ <? 0); [destruct (4 <? _)|]; reflexivity.
Qed.

Lemma demod_next_bits_packet_set_demod len cnt dist ctr start p :
  demod_next_bits_packet (set_demod len cnt dist ctr start p) =
  do q <- demod_next_bits_packet p in ret (set_demod len cnt dist ctr start q).
Proof.
  unfold demod_next_bits_packet. demod_proj.
  destruct (11 <? _); reflexivity.
Qed.

Lemma demod_add_bit_reset_limit p bit q o :
  demod_add_bit p bit = Some (q, o) → reset_limit q = reset_limit p.
Proof.
  unfold demod_add_bit.
  destruct (bits_or _ _ _ _) as [buf|]; [|done].
  destruct (_ <? 0); [destruct (4 <? _)|]; by intros [= <- _].
Qed.

Lemma demod_next_bits_packet_reset_limit p q o :
  demod_next_bits_packet p = Some (q, o) → reset_limit q = reset_limit p.
Proof.
  unfold demod_next_bits_packet.
  destruct (11 <? _); by intros [= <- _].
Qed.

Section Gap.
Variables level hi lo : Z.
Hypothesis Hlo : lo < level.
Hypothesis Hhi : level < hi.

(** A sample of silence inside a gap, or after the row was advanced,
    only counts. *)
Lemma silence_step p :
  pulse_count p = 0 → truthy (start_c p) = true →
  sample_counter p + 1 ≤ reset_limit p →
  pwm_demod_sample level p lo =
    ret (set_demod (pulse_length p) 0 (pulse_distance p)
           (sample_counter p + 1) (start_c p) p).
Proof.
  intros Hcount Hstart Hreset.
  unfold pwm_demod_sample, pwm_demod_edges.
  rewrite (proj2 (Z.ltb_ge level lo)) by lia.
  rewrite Hcount. cbn [truthy Z.eqb negb andb]. rewrite Hstart.
  cbn [pulse_distance set_demod]. rewrite andb_false_r, bind_ret_l.
  unfold pwm_demod_timeout. cbn [reset_limit sample_counter set_demod].
  rewrite (proj2 (Z.ltb_ge _ _)) by lia. by rewrite Hcount.
Qed.

Lemma silence_run k p :
  pulse_count p = 0 → truthy (start_c p) = true →
  sample_counter p + Z.of_nat k ≤ reset_limit p →
  pwm_demod level p (replicate k lo) =
    ret (set_demod (pulse_length p) 0 (pulse_distance p)
           (sample_counter p + Z.of_nat k) (start_c p) p).
Proof.
  revert p. induction k as [|k IH]; intros p Hcount Hstart Hreset.
  - cbn [replicate pwm_demod]. rewrite Z.add_0_r, <- Hcount.
    by rewrite set_demod_id.
  - cbn [replicate pwm_demod].
    rewrite silence_step, bind_ret_l by (done || lia).
    rewrite IH by (cbn [pulse_count start_c sample_counter reset_limit
                        set_demod]; done || lia).
    cbn [pulse_length pulse_distance start_c sample_counter set_demod].
    replace (sample_counter p + 1 + Z.of_nat k)
      with (sample_counter p + Z.of_nat (S k)) by lia.
    reflexivity.
Qed.

Variables short long reset : Z.
Hypothesis Hlimits : 1 ≤ short ∧ short ≤ long ∧ long ≤ reset.

Local Abbreviation p0 := (protocol_init short long reset).

(** A fresh instance after the first sample of a pulse and [n] samples
    of silence: in the gap, with the counter at [n]. *)
Lemma silence_after_pulse (n : nat) :
  (1 ≤ n)%nat → Z.of_nat n ≤ reset →
  pwm_demod level p0 (pulse_then_silence hi lo n) =
    ret (set_demod 0 0 1 (Z.of_nat n) 1 p0).
Proof.
  intros Hn Hreset. destruct n as [|n]; [lia|].
  unfold pulse_then_silence. cbn [replicate pwm_demod].
  assert (pwm_demod_sample level p0 hi = ret (set_demod 0 1 0 1 1 p0)) as ->.
  { unfold pwm_demod_sample, pwm_demod_edges. ltb_decide. cbn.
    rewrite pwm_demod_timeout_idle by (demod_proj; lia). reflexivity. }
  rewrite bind_ret_l.
  assert (pwm_demod_sample level (set_demod 0 1 0 1 1 p0) lo
          = ret (set_demod 0 0 1 1 1 p0)) as ->.
  { unfold pwm_demod_sample, pwm_demod_edges. ltb_decide. cbn.
    rewrite pwm_demod_timeout_idle by (demod_proj; lia). reflexivity. }
  rewrite bind_ret_l.
  rewrite silence_run by (demod_proj; done || lia).
  demod_proj.
  replace (1 + Z.of_nat n) with (Z.of_nat (S n)) by lia. reflexivity.
Qed.

(** The first sample of the next pulse is counted, then the gap is
    classified on the counter: [n + 1] after [n] samples of silence. *)
Lemma gap_classified (n : nat) :
  (1 ≤ n)%nat → Z.of_nat n ≤ reset →
  pwm_demod level p0 (pulse_gap_pulse hi lo n) =
    gap_result p0 (band short long (Z.of_nat n + 1)) (Z.of_nat n + 1).
Proof.
  intros Hn Hreset. unfold pulse_gap_pulse.
  rewrite app_comm_cons, pwm_demod_app.
  fold (pulse_then_silence hi lo n).
  rewrite silence_after_pulse, bind_ret_l by done.
  cbn [pwm_demod]. rewrite bind_ret_r.
  unfold pwm_demod_sample, pwm_demod_edges, band.
  rewrite (proj2 (Z.ltb_lt level hi)) by lia.
  rewrite (proj2 (Z.ltb_ge hi level)) by lia.
  cbn -[Z.add].
  assert (Z.of_nat n + 1 ≤ reset + 1) as Hc by lia.
  set (c := Z.of_nat n + 1) in *. clearbody c.
  change (set_demod 0 1 1 c 1 _) with (set_demod 0 1 1 c 1 p0).
  unfold gap_result.
  destruct (Z.ltb_spec c short); [|destruct (Z.ltb_spec c long)].
  - rewrite demod_add_bit_set_demod.
    destruct (demod_add_bit p0 0) as [[q o]|] eqn:E; [|reflexivity].
    apply demod_add_bit_reset_limit in E.
    cbn [bind ret]. demod_proj.
    rewrite pwm_demod_timeout_idle by (demod_proj; rewrite E; demod_proj; lia).
    cbn [ret]. by rewrite !app_nil_r.
  - rewrite demod_add_bit_set_demod.
    destruct (demod_add_bit p0 1) as [[q o]|] eqn:E; [|reflexivity].
    apply demod_add_bit_reset_limit in E.
    cbn [bind ret]. demod_proj.
    rewrite pwm_demod_timeout_idle by (demod_proj; rewrite E; demod_proj; lia).
    cbn [ret]. by rewrite !app_nil_r.
  - rewrite demod_next_bits_packet_set_demod.
    destruct (demod_next_bits_packet p0) as [[q o]|] eqn:E; [|reflexivity].
    apply demod_next_bits_packet_reset_limit in E.
    cbn [bind ret]. demod_proj.
    rewrite pwm_demod_timeout_idle by (demod_proj; rewrite E; demod_proj; lia).
    cbn [ret]. by rewrite !app_nil_r.
Qed.

(** Silence for one sample more than [reset] prints the packet and
    leaves the instance as it was at the start. *)
Lemma silence_timeout (n : nat) :
  Z.of_nat n = reset →
  pwm_demod level p0 (pulse_then_silence hi lo (S n)) =
    (demod_print_bits_packet p0 ;;; ret p0).
Proof.
  intros Hn. unfold pulse_then_silence.
  rewrite replicate_S_end, app_comm_cons, pwm_demod_app.
  fold (pulse_then_silence hi lo n).
  rewrite silence_after_pulse, bind_ret_l by lia.
  cbn [pwm_demod]. rewrite bind_ret_r.
  unfold pwm_demod_sample, pwm_demod_edges.
  rewrite (proj2 (Z.ltb_ge level lo)) by lia.
  cbn -[Z.add]. unfold pwm_demod_timeout. demod_proj.
  rewrite (proj2 (Z.ltb_lt reset (Z.of_nat n + 1))) by lia.
  reflexivity.
Qed.
End Gap.

(** C2, as amended.  The Rubicson instance classifies a gap on
    [sample_counter], which counts the samples of silence and then the
    first sample of the closing pulse: after a pulse and [n] samples below
    the level ([1 <= n <= 5000]) the next sample above the level is
    classified with the counter at [n + 1].  Below 1744 it appends 0, from
    1744 up to 3499 it appends 1, from 3500 on it advances the row; so
    counter values 1000, 1744, 3499 and 3500 give 0, 1, 1 and a new row,
    and a counter equal to [short_limit] gives 1.  During silence the
    counter is [n] after [n] samples and nothing is printed up to
    [n = 5000 = reset_limit]; sample 5001 prints the packet and resets the
    instance. *)
Theorem rubicson_gap_classification (level hi lo : Z) (n : nat) :
  lo < level → level < hi → (1 ≤ n ≤ 5000)%nat →
  pwm_demod level rubicson_init (pulse_gap_pulse hi lo n) =
    gap_result rubicson_init (rubicson_band (Z.of_nat n + 1)) (Z.of_nat n + 1) ∧
  pwm_demod level rubicson_init (pulse_then_silence hi lo n) =
    ret (set_demod 0 0 1 (Z.of_nat n) 1 rubicson_init) ∧
  (n = 5000%nat →
   pwm_demod level rubicson_init (pulse_then_silence hi lo (S n)) =
     (demod_print_bits_packet rubicson_init ;;; ret rubicson_init)) ∧
  rubicson_band 1000 = AppendBit 0 ∧ rubicson_band 1744 = AppendBit 1 ∧
  rubicson_band 3499 = AppendBit 1 ∧ rubicson_band 3500 = AdvanceRow.
Proof.
  intros Hlo Hhi Hn. split_and!; try reflexivity.
  - apply (gap_classified level hi lo Hlo Hhi 1744 3500 5000); lia.
  - apply (silence_after_pulse level hi lo Hlo Hhi 1744 3500 5000); lia.
  - intros ->.
    apply (silence_timeout level hi lo Hlo Hhi 1744 3500 5000); lia.
Qed.

Lemma rubicson_gap_classification_witness :
  pwm_demod 10000 rubicson_init (pulse_gap_pulse 20000 0 3499) =
    gap_result rubicson_init AdvanceRow 3500 ∧
  pwm_demod 10000 rubicson_init (pulse_gap_pulse 20000 0 3498) =
    gap_result rubicson_init (AppendBit 1) 3499.
Proof.
  split.
  - exact (proj1 (rubicson_gap_classification 10000 20000 0 3499
                    eq_refl eq_refl ltac:(lia))).
  - exact (proj1 (rubicson_gap_classification 10000 20000 0 3498
                    eq_refl eq_refl ltac:(lia))).
Defined.

(** C2, as stated, fails: a gap of 3499 samples does not append a 1.  The
    closing sample is counted before the gap is classified, the counter is
    3500 and the packet advances to row 1 with nothing appended. *)
Lemma gap_3499_advances_row :
  ¬ gap_appends 3499 1 ∧
  ∃ p,
    pwm_demod DEFAULT_LEVEL_LIMIT rubicson_init (pulse_gap_pulse 20000 0 3499)
      = Some (p, []) ∧
    bits_row_idx p = 1 ∧ bits_col_idx p = 0 ∧ bits_bit_col_idx p = 7 ∧
    bits_buffer p = zero_buffer.
Proof.
  split.
  - intros (p & out & q & E1 & E2 & _ & Hrow & _).
    vm_compute in E1. vm_compute in E2.
    injection E1 as <- _. injection E2 as <-.
    discriminate Hrow.
  - eexists. split; [vm_compute; reflexivity|].
    split_and!; reflexivity.
Qed.

(** Gaps of 1000, 1744 and 3498 samples do append 0, 1 and 1. *)
Lemma gap_appends_examples :
  gap_appends 1000 0 ∧ gap_appends 1744 1 ∧ gap_appends 3498 1.
Proof.
  split_and!; eexists _, _, _;
    (split; [vm_compute; reflexivity|]);
    (split; [vm_compute; reflexivity|]);
    split_and!; reflexivity.
Qed.

(** ** Block callback *)

Lemma pwm_analyze_sample_counter level st s st' o :
  pwm_analyze_sample level st s = Some (st', o) →
  counter st' = counter st + 1.
Proof.
  unfold pwm_analyze_sample.
  destruct ((level <? s) && truthy (print st)); cbn [bind ret fprintf_stderr];
    (destruct (s <? level); cbn [counter];
     [destruct (truthy _); cbn [pulses_found];
      [destruct (_ =? 0); cbn [fault bind fprintf_stderr ret]|]|]);
    try done; by intros [= <- _].
Qed.

(** The analyzer counts every sample it is given. *)
Lemma pwm_analyze_counter level st buf st' o :
  pwm_analyze level st buf = Some (st', o) →
  counter st' = counter st + Z.of_nat (length buf).
Proof.
  revert st o. induction buf as [|s buf IH]; intros st o; cbn [pwm_analyze].
  - intros [= <- _]. cbn [length]. lia.
  - destruct (pwm_analyze_sample level st s) as [[st1 o1]|] eqn:E1; [|done].
    cbn [bind].
    destruct (pwm_analyze level st1 buf) as [[st2 o2]|] eqn:E2; [|done].
    intros [= <- _].
    rewrite (IH _ _ E2), (pwm_analyze_sample_counter _ _ _ _ _ E1).
    cbn [length]. lia.
Qed.

Lemma f_buf_read_length fb n l :
  f_buf_read fb n = Some l → length l = Z.to_nat n.
Proof.
  unfold f_buf_read. case_decide; [|done]. intros [= <-].
  rewrite length_app, length_take, length_replicate. lia.
Qed.

(** C4 at the decimation exponent 1 ([-c 1], level 100) on 512-byte blocks
    of a steady carrier.  The filter writes [512 >> 2 = 128] samples behind
    the history word of [filter_buffer], yet the analyzer advances its
    sample counter by [512/2 = 256]; each demodulator, fed the same 256
    words, sees the 128 never-written zeros as a gap of 128 samples and
    appends a bit on the next block.  With the exponent 0 the same carrier
    appends nothing. *)
Theorem decimated_block_overread :
  (∃ w out,
     rtlsdr_callback carrier_block 512 (world_init 100 1 1 0) = Some (w, out) ∧
     Z.shiftr 512 (1 + 1) = 128 ∧
     length (filter_buffer (demod w)) = 129%nat ∧
     counter (analyzer w) = 256) ∧
  (∃ w1 o1 w2 o2,
     rtlsdr_callback carrier_block 512 (world_init 100 1 0 0) = Some (w1, o1) ∧
     rtlsdr_callback carrier_block 512 w1 = Some (w2, o2) ∧
     pulse_distance (rubicson (demod w1)) = 1 ∧
     sample_counter (rubicson (demod w1)) = 128 ∧
     bits_bit_col_idx (rubicson (demod w2)) = 6 ∧
     bits_bit_col_idx (prologue (demod w2)) = 6) ∧
  (∃ w1 o1 w2 o2,
     rtlsdr_callback carrier_block 512 (world_init 100 0 0 0) = Some (w1, o1) ∧
     rtlsdr_callback carrier_block 512 w1 = Some (w2, o2) ∧
     pulse_distance (rubicson (demod w1)) = 0 ∧
     bits_bit_col_idx (rubicson (demod w2)) = 7 ∧
     bits_bit_col_idx (prologue (demod w2)) = 7).
Proof.
  split_and!.
  - eexists _, _. split; [vm_compute; reflexivity|].
    split_and!; reflexivity.
  - eexists _, _, _, _. split; [vm_compute; reflexivity|].
    split; [vm_compute; reflexivity|]. split_and!; reflexivity.
  - eexists _, _, _, _. split; [vm_compute; reflexivity|].
    split; [vm_compute; reflexivity|]. split_and!; reflexivity.
Qed.

(** For every block the callback accepts (no pending exit, no byte budget):
    the filter rewrites [len >> (d+1)] words of [f_buf] and leaves the rest
    of [filter_buffer] as it was, and in analyzer mode the sample counter
    advances by [len/2]. *)
Lemma rtlsdr_callback_lengths buf len w w' out :
  rtlsdr_callback buf len w = Some (w', out) →
  file (demod w) || negb (truthy (save_data (demod w))) = true →
  do_exit w = 0 → bytes_to_read w = 0 →
  ∃ y_keep ys,
    length ys = Z.to_nat (Z.shiftr len (decimation_level (demod w) + 1)) ∧
    filter_buffer (demod w') =
      y_keep :: ys ++ drop (1 + length ys) (filter_buffer (demod w)) ∧
    (truthy (analyze (demod w)) = true →
     counter (analyzer w') = counter (analyzer w) + Z.of_nat (Z.to_nat (len / 2))).
Proof.
  intros E Hfile Hexit Hbudget. unfold rtlsdr_callback in E.
  rewrite Hfile, Hexit, Hbudget in E.
  cbn [truthy Z.eqb negb Z.ltb Z.compare andb] in E.
  destruct (envelope_detect buf len _) as [x_buf|]; [|done].
  cbn [of_opt bind ret] in E.
  destruct (low_pass_filter x_buf _ _) as [[ys st]|] eqn:Efilter; [|done].
  cbn [of_opt bind ret fst snd] in E.
  destruct (f_buf_read _ (len / 2)) as [fed|] eqn:Efed; [|done].
  cbn [of_opt bind ret] in E.
  apply low_pass_filter_keeps in Efilter as (Hlen & _ & _).
  apply f_buf_read_length in Efed.
  exists (lp_ymem st), ys.
  destruct (truthy (analyze (demod w))).
  - destruct (pwm_analyze _ _ fed) as [[an o]|] eqn:Ean; [|done].
    cbn [bind ret fst snd] in E.
    destruct (truthy (save_data (demod w)));
      [destruct (f_buf_read _ _); [|done]|];
      cbn [of_opt bind ret] in E; injection E as <- _;
      cbn [demod filter_buffer analyzer]; (split_and!; [done|done|]);
      intros _; rewrite (pwm_analyze_counter _ _ _ _ _ Ean); lia.
  - destruct (pwm_demod _ (prologue _) fed) as [[pro o1]|]; [|done].
    cbn [bind ret] in E.
    destruct (pwm_demod _ (rubicson _) fed) as [[rub o2]|]; [|done].
    cbn [bind ret fst snd] in E.
    destruct (truthy (save_data (demod w)));
      [destruct (f_buf_read _ _); [|done]|];
      cbn [of_opt bind ret] in E; injection E as <- _;
      cbn [demod filter_buffer analyzer]; (split_and!; [done|done|]);
      intros [=].
Qed.

(** * Further properties of the pipeline *)

(** ** Envelope detector: how many samples, and which *)

Lemma envelope_loop_count fuel buf half stride i :
  1 ≤ stride → 0 ≤ i → 2 * half ≤ Z.of_nat (length buf) →
  (Z.to_nat (half - i) ≤ fuel)%nat →
  ∃ out,
    envelope_loop fuel buf half stride i = Some out ∧
    length out = Z.to_nat ((half - i + stride - 1) / stride).
Proof.
  intros Hs. revert i. induction fuel as [|fuel IH]; intros i Hi Hbuf Hfuel.
  - exists []. split; [reflexivity|]. cbn [length].
    assert ((half - i + stride - 1) / stride ≤ 0); [|lia].
    Z.to_euclidean_division_equations. nia.
  - cbn [envelope_loop]. destruct (Z.ltb_spec i half) as [Hlt|Hge].
    + destruct (lookup_lt_is_Some_2 buf (Z.to_nat (2 * i))) as [b_r ->]; [lia|].
      destruct (lookup_lt_is_Some_2 buf (Z.to_nat (2 * i + 1))) as [b_i ->];
        [lia|].
      destruct (IH (i + stride)) as (rest & -> & Hlen); [lia..|].
      eexists. split; [reflexivity|]. cbn [length]. rewrite Hlen.
      replace (half - i + stride - 1) with (half - (i + stride) + stride - 1 + 1 * stride)
        by lia.
      rewrite Z.div_add by lia.
      assert (0 ≤ (half - (i + stride) + stride - 1) / stride); [|lia].
      Z.to_euclidean_division_equations. nia.
    + exists []. split; [reflexivity|]. cbn [length].
      assert ((half - i + stride - 1) / stride ≤ 0); [|lia].
      Z.to_euclidean_division_equations. nia.
Qed.

Lemma envelope_loop_lookup fuel buf half stride i out k x :
  0 ≤ stride → 0 ≤ i →
  envelope_loop fuel buf half stride i = Some out →
  out !! k = Some x →
  ∃ b_r b_i,
    buf !! Z.to_nat (2 * (i + Z.of_nat k * stride)) = Some b_r ∧
    buf !! Z.to_nat (2 * (i + Z.of_nat k * stride) + 1) = Some b_i ∧
    x = envelope_sample b_r b_i.
Proof.
  intros Hs. revert i out k.
  induction fuel as [|fuel IH]; intros i out k Hi; cbn [envelope_loop].
  - intros [= <-]. by rewrite lookup_nil.
  - destruct (i <? half); [|intros [= <-]; by rewrite lookup_nil].
    destruct (buf !! Z.to_nat (2 * i)) as [b_r|] eqn:Er; [|done].
    destruct (buf !! Z.to_nat (2 * i + 1)) as [b_i|] eqn:Ei; [|done].
    cbn [mbind option_bind].
    destruct (envelope_loop fuel buf half stride (i + stride)) as [rest|] eqn:E;
      [|done].
    cbn [mbind option_bind]. intros [= <-]. destruct k as [|k].
    + intros [= <-]. exists b_r, b_i.
      replace (i + Z.of_nat 0 * stride) with i by lia. done.
    + cbn [lookup list_lookup]. intros Hk.
      destruct (IH (i + stride) rest k ltac:(lia) E Hk) as (c_r & c_i & H1 & H2 & ->).
      exists c_r, c_i.
      replace (i + Z.of_nat (S k) * stride) with (i + stride + Z.of_nat k * stride)
        by lia.
      done.
Qed.

(** X1.  On a buffer that holds the [len] bytes it is given,
    [envelope_detect] reads nothing outside it and writes one sample for
    every [2^d]-th IQ pair: [ceil((len/2) / 2^d)] samples, none for
    [len < 2]. *)
Theorem envelope_detect_count (buf : list Z) (len d : Z) :
  0 ≤ d ≤ 30 → 0 ≤ len ≤ Z.of_nat (length buf) →
  ∃ out,
    envelope_detect buf len d = Some out ∧
    Z.of_nat (length out) = (len / 2 + 2 ^ d - 1) / 2 ^ d ∧
    (len < 2 → out = []).
Proof.
  intros Hd Hlen. unfold envelope_detect. rewrite decide_True by lia.
  rewrite Z.shiftl_1_l.
  assert (1 ≤ 2 ^ d) by (pose proof (Z.pow_pos_nonneg 2 d); lia).
  assert (0 ≤ len / 2 ∧ 2 * (len / 2) ≤ len)
    by (Z.to_euclidean_division_equations; lia).
  destruct (envelope_loop_count (Z.to_nat (len / 2)) buf (len / 2) (2 ^ d) 0)
    as (out & E & Hcount); [lia..|].
  exists out. split; [done|]. rewrite Hcount, Z.sub_0_r. split.
  - apply Z2Nat.id. Z.to_euclidean_division_equations. nia.
  - intros Hsmall. apply nil_length_inv. rewrite Hcount.
    assert (len / 2 = 0) as -> by (Z.to_euclidean_division_equations; lia).
    rewrite Z.sub_0_r, Z.add_0_l.
    assert ((2 ^ d - 1) / 2 ^ d ≤ 0); [|lia].
    Z.to_euclidean_division_equations. nia.
Qed.

Lemma envelope_detect_count_witness :
  ∃ out,
    envelope_detect [0; 0; 255; 255; 128; 128] 6 1 = Some out ∧
    Z.of_nat (length out) = 2.
Proof.
  destruct (envelope_detect_count [0; 0; 255; 255; 128; 128] 6 1)
    as (out & E & Hlen & _); [lia | cbn; lia |].
  exists out. split; [exact E | exact Hlen].
Defined.

(** X2.  On bytes, sample [k] of the output is the squared magnitude of
    the recentred IQ pair number [k * 2^d]: with [I] and [Q] the bytes at
    [2 * k * 2^d] and [2 * k * 2^d + 1], it is [(I-128)² + (Q-128)²]. *)
Theorem envelope_detect_sample (buf : list Z) (len d : Z) (out : list Z)
    (k : nat) (x : Z) :
  Forall (λ byte, 0 ≤ byte < 256) buf →
  envelope_detect buf len d = Some out →
  out !! k = Some x →
  ∃ bI bQ,
    buf !! Z.to_nat (2 * (Z.of_nat k * 2 ^ d)) = Some bI ∧
    buf !! Z.to_nat (2 * (Z.of_nat k * 2 ^ d) + 1) = Some bQ ∧
    x = (bI - 128) * (bI - 128) + (bQ - 128) * (bQ - 128).
Proof.
  intros Hbytes. unfold envelope_detect. case_decide as Hd; [|done].
  rewrite Z.shiftl_1_l. intros E Hk.
  assert (0 ≤ 2 ^ d) as Hs by (pose proof (Z.pow_pos_nonneg 2 d); lia).
  destruct (envelope_loop_lookup _ _ _ _ _ _ _ _ Hs (Z.le_refl 0) E Hk)
    as (b_r & b_i & H1 & H2 & ->).
  exists b_r, b_i. rewrite Z.add_0_l in H1, H2. split_and!; [done..|].
  rewrite envelope_sample_bias; [lia|..].
  - apply (Forall_lookup_1 _ _ _ _ Hbytes H1).
  - apply (Forall_lookup_1 _ _ _ _ Hbytes H2).
Qed.

Lemma envelope_detect_sample_witness :
  ∃ bI bQ,
    [10; 20; 30; 40; 200; 100; 7; 8] !! Z.to_nat (2 * (Z.of_nat 1 * 2 ^ 1)) = Some bI ∧
    [10; 20; 30; 40; 200; 100; 7; 8] !! Z.to_nat (2 * (Z.of_nat 1 * 2 ^ 1) + 1) = Some bQ ∧
    5968 = (bI - 128) * (bI - 128) + (bQ - 128) * (bQ - 128).
Proof.
  apply (envelope_detect_sample [10; 20; 30; 40; 200; 100; 7; 8] 8 1
           [25588; 5968] 1 5968).
  - repeat constructor; lia.
  - vm_compute. reflexivity.
  - reflexivity.
Defined.

(** ** Low-pass filter: range of the output *)

(** On an envelope sample and a previous output below 32705 the
    accumulator shifted by 14 already fits an [int16_t]: the store does not
    wrap. *)
Lemma lp_sample_range y x x' :
  0 ≤ y ≤ 32704 → 0 ≤ x ≤ 32768 → 0 ≤ x' ≤ 32768 →
  lp_sample y x x' = Z.shiftr (lp_acc y x x') (F_SCALE - 1) ∧
  0 ≤ lp_sample y x x' ≤ 32704.
Proof.
  intros Hy Hx Hx'.
  assert (0 ≤ Z.shiftr (lp_acc y x x') (F_SCALE - 1) ≤ 32704) as Hr.
  { unfold lp_acc. change a1 with 31754. change b0 with 506.
    change b1 with 506. change (F_SCALE - 1) with 14.
    rewrite !Z.shiftr_div_pow2 by lia.
    change (2 ^ 1) with 2. change (2 ^ 14) with 16384.
    Z.to_euclidean_division_equations. lia. }
  unfold lp_sample. rewrite to_int16_small by lia. done.
Qed.

Lemma lp_run_range y x xs :
  0 ≤ y ≤ 32704 → 0 ≤ x ≤ 32768 →
  Forall (λ v, 0 ≤ v ≤ 32768) xs →
  Forall (λ v, 0 ≤ v ≤ 32704) (lp_run y x xs).
Proof.
  intros Hy Hx Hxs. revert y x Hy Hx.
  induction Hxs as [|x1 xs Hx1 _ IH]; intros y x Hy Hx; cbn [lp_run].
  - constructor.
  - destruct (lp_sample_range y x1 x Hy Hx1 Hx) as [_ Hr].
    constructor; [done|]. by apply IH.
Qed.

Lemma low_pass_filter_in_range (x_buf : list Z) (len : Z) (st st' : lp_state)
    (ys : list Z) :
  0 ≤ lp_xmem st ≤ 32768 → 0 ≤ lp_ymem st ≤ 32704 →
  Forall (λ v, 0 ≤ v ≤ 32768) x_buf →
  low_pass_filter x_buf len st = Some (ys, st') →
  Forall (λ v, 0 ≤ v ≤ 32704) ys ∧
  0 ≤ lp_xmem st' ≤ 32768 ∧ 0 ≤ lp_ymem st' ≤ 32704.
Proof.
  intros Hx Hy Hbuf E.
  destruct (low_pass_filter_keeps _ _ _ _ _ E) as (_ & Hkx & Hky).
  unfold low_pass_filter in E. case_decide; [|done].
  destruct (x_buf !! _); [|done]. cbn [mbind option_bind] in E.
  destruct (lp_run _ _ _ !! _); [|done]. cbn [mbind option_bind] in E.
  injection E as <- _.
  assert (Forall (λ v, 0 ≤ v ≤ 32704)
            (lp_run (lp_ymem st) (lp_xmem st) (take (Z.to_nat len) x_buf)))
    as Hys by (apply lp_run_range; [done..|by apply Forall_take]).
  split; [done|]. split.
  - apply (Forall_lookup_1 _ _ _ _ Hbuf Hkx).
  - apply (Forall_lookup_1 _ _ _ _ Hys Hky).
Qed.

(** X3.  Fed envelope values (0..32768) from a state in range, a call of
    [low_pass_filter] writes only samples in 0..32704, so no output is
    negative and no store into the [int16_t] buffer wraps; the state it
    leaves is in range again, so this holds call after call. *)
Theorem low_pass_filter_range (x_buf : list Z) (len : Z) (st st' : lp_state)
    (ys : list Z) :
  0 ≤ lp_xmem st ≤ 32768 → 0 ≤ lp_ymem st ≤ 32704 →
  Forall (λ v, 0 ≤ v ≤ 32768) x_buf →
  low_pass_filter x_buf len st = Some (ys, st') →
  Forall (λ v, 0 ≤ v ≤ 32704) ys ∧
  0 ≤ lp_xmem st' ≤ 32768 ∧ 0 ≤ lp_ymem st' ≤ 32704.
Proof. apply low_pass_filter_in_range. Qed.

Lemma low_pass_filter_range_witness :
  Forall (λ v, 0 ≤ v ≤ 32704) [506; 1502; 2467] ∧
  0 ≤ 32768 ≤ 32768 ∧ 0 ≤ 1502 ≤ 32704.
Proof.
  apply (low_pass_filter_range [32768; 32768; 32768] 3 lp_state_init
           {| lp_xmem := 32768; lp_ymem := 1502 |} [506; 1502; 2467]).
  - cbn. lia.
  - cbn. lia.
  - repeat constructor; lia.
  - vm_compute. reflexivity.
Defined.

(** X4.  With a 16-bit previous output and 16-bit inputs, as the buffers
    of [low_pass_filter] hold them, the sum of the three halved products
    stays inside a 32-bit [int]: the expression never overflows, as the
    comment above the filter says. *)
Theorem lp_acc_no_overflow (y x x' : Z) :
  -32768 ≤ y ≤ 32767 → 0 ≤ x < 65536 → 0 ≤ x' < 65536 →
  - 2 ^ 31 ≤ a1 * y < 2 ^ 31 ∧ 0 ≤ b0 * x < 2 ^ 31 ∧ 0 ≤ b1 * x' < 2 ^ 31 ∧
  - 2 ^ 31 ≤ lp_acc y x x' < 2 ^ 31.
Proof.
  intros Hy Hx Hx'. pose proof (lp_acc_fits_int32 y x x' Hy Hx Hx') as Hacc.
  change a1 with 31754. change b0 with 506. change b1 with 506.
  change (2 ^ 31) with 2147483648 in *. lia.
Qed.

Lemma lp_acc_no_overflow_witness :
  - 2 ^ 31 ≤ a1 * -32768 < 2 ^ 31 ∧ 0 ≤ b0 * 65535 < 2 ^ 31 ∧
  0 ≤ b1 * 65535 < 2 ^ 31 ∧ - 2 ^ 31 ≤ lp_acc (-32768) 65535 65535 < 2 ^ 31.
Proof. apply (lp_acc_no_overflow (-32768) 65535 65535); lia. Defined.

(** ** Bit packet: what an append stores *)

Lemma truthy_land_bit x k :
  0 ≤ k → truthy (Z.land x (Z.shiftl 1 k)) = Z.testbit x k.
Proof.
  intros Hk. unfold truthy. rewrite Z.shiftl_1_l.
  destruct (Z.testbit x k) eqn:Ebit.
  - apply negb_true_iff, Z.eqb_neq. intros Hz.
    apply (f_equal (λ z, Z.testbit z k)) in Hz.
    rewrite Z.land_spec, Ebit, Z.pow2_bits_true, Z.bits_0 in Hz by lia.
    discriminate Hz.
  - apply negb_false_iff, Z.eqb_eq, Z.bits_inj'. intros n Hn.
    rewrite Z.land_spec, Z.bits_0, Z.pow2_bits_eqb by lia.
    destruct (Z.eqb_spec k n) as [<-|]; [by rewrite Ebit|apply andb_false_r].
Qed.

Lemma testbit_or_bit old bit i j :
  is_bit bit → 0 ≤ i → 0 ≤ j < 8 →
  Z.testbit (to_uint8 (Z.lor old (Z.shiftl bit i))) j =
    Z.testbit old j || ((bit =? 1) && (j =? i)).
Proof.
  intros Hbit Hi Hj. unfold to_uint8. change 256 with (2 ^ 8).
  rewrite Z.mod_pow2_bits_low, Z.lor_spec by lia. f_equal.
  destruct Hbit as [-> | ->].
  - by rewrite Z.shiftl_0_l, Z.bits_0.
  - rewrite Z.shiftl_1_l, Z.pow2_bits_eqb by lia. cbn [Z.eqb Pos.eqb andb].
    apply Z.eqb_sym.
Qed.

Lemma bits_or_byte_at buf r c v buf' r' c' :
  buffer_wf buf → bits_or buf r c v = Some buf' →
  0 ≤ r' < BITBUF_ROWS → 0 ≤ c' < BITBUF_COLS →
  byte_at buf' r' c' =
    if decide (r' = r ∧ c' = c) then to_uint8 (Z.lor (byte_at buf r c) v)
    else byte_at buf r' c'.
Proof.
  intros Hwf E Hr' Hc'. unfold bits_or in E. case_decide as Hrc; [|done].
  destruct Hrc as [Hr Hc].
  destruct (bits_read_wf buf r c Hwf Hr Hc) as (row & old & Erow & Eold & Eread).
  rewrite Erow in E. cbn [mbind option_bind] in E. rewrite Eold in E.
  cbn [mbind option_bind] in E. injection E as <-.
  destruct Hwf as [Hlen Hrows].
  pose proof (Forall_lookup_1 _ _ _ _ Hrows Erow) as Hrow. cbn beta in Hrow.
  unfold byte_at, bits_read. rewrite !decide_True by done.
  rewrite Erow. cbn [mbind option_bind]. rewrite Eold. cbn [default].
  destruct (decide (r' = r)) as [->|Hne].
  - rewrite list_lookup_insert_eq by lia. cbn [mbind option_bind].
    destruct (decide (c' = c)) as [->|Hnc].
    + rewrite decide_True by done.
      rewrite list_lookup_insert_eq by lia. rewrite ?decide_True by done.
      reflexivity.
    + rewrite decide_False by tauto.
      rewrite list_lookup_insert_ne by lia.
      rewrite ?decide_True by done. by rewrite Erow.
  - rewrite decide_False by tauto.
    rewrite list_lookup_insert_ne by lia.
    rewrite ?decide_True by done. reflexivity.
Qed.

Lemma run_ops_app p ops1 ops2 :
  run_ops p (ops1 ++ ops2) = do q <- run_ops p ops1 in run_ops q ops2.
Proof.
  revert p. induction ops1 as [|op ops1 IH]; intros p; cbn [app run_ops].
  - by rewrite bind_ret_l.
  - rewrite bind_assoc.
    destruct (run_op p op) as [[p' o]|]; [|reflexivity].
    cbn [bind]. by rewrite IH.
Qed.

Lemma byte_at_zero_buffer r c : byte_at zero_buffer r c = 0.
Proof.
  unfold byte_at, bits_read. case_decide as H; [|reflexivity].
  unfold zero_buffer, BITBUF_ROWS, BITBUF_COLS in *.
  rewrite lookup_replicate_2 by lia. cbn [mbind option_bind].
  rewrite lookup_replicate_2 by lia. reflexivity.
Qed.

(** One append on a valid cursor, in full: where the cursor goes, what is
    printed and which bit changes. *)
Lemma demod_add_bit_effect p bit :
  cursor_ok p → is_bit bit →
  ∃ p' o,
    demod_add_bit p bit = Some (p', o) ∧ cursor_ok p' ∧
    o = (if decide (bits_col_idx p = 4 ∧ bits_bit_col_idx p = 0)
         then [col_diag] else []) ∧
    bits_row_idx p' = bits_row_idx p ∧
    bits_col_idx p' = (if decide (bits_bit_col_idx p = 0)
                       then Z.min 4 (bits_col_idx p + 1) else bits_col_idx p) ∧
    bits_bit_col_idx p' = (if decide (bits_bit_col_idx p = 0)
                           then 7 else bits_bit_col_idx p - 1) ∧
    ∀ r c k,
      0 ≤ r < BITBUF_ROWS → 0 ≤ c < BITBUF_COLS → 0 ≤ k < 8 →
      packet_bit (bits_buffer p') r c k =
        if decide (r = bits_row_idx p ∧ c = bits_col_idx p
                   ∧ k = bits_bit_col_idx p)
        then packet_bit (bits_buffer p) r c k || (bit =? 1)
        else packet_bit (bits_buffer p) r c k.
Proof.
  intros Hok Hbit.
  destruct (demod_add_bit_spec p bit Hok) as (buf' & Eor & Hwf' & Eadd).
  destruct Hok as (Hc & Hr & Hb & Hwf).
  assert (∀ r c k,
            0 ≤ r < BITBUF_ROWS → 0 ≤ c < BITBUF_COLS → 0 ≤ k < 8 →
            packet_bit buf' r c k =
              if decide (r = bits_row_idx p ∧ c = bits_col_idx p
                         ∧ k = bits_bit_col_idx p)
              then packet_bit (bits_buffer p) r c k || (bit =? 1)
              else packet_bit (bits_buffer p) r c k) as Hbits.
  { intros r c k Hr' Hc' Hk.
    unfold packet_bit. rewrite !truthy_land_bit by lia.
    rewrite (bits_or_byte_at _ _ _ _ _ r c Hwf Eor) by done.
    destruct (decide (r = bits_row_idx p ∧ c = bits_col_idx p))
      as [[-> ->]|Hne].
    - rewrite testbit_or_bit by (done || lia).
      destruct (Z.eqb_spec k (bits_bit_col_idx p)) as [->|Hnk].
      + rewrite decide_True by done. by rewrite andb_true_r.
      + rewrite decide_False by tauto. by rewrite andb_false_r, orb_false_r.
    - rewrite decide_False by tauto. reflexivity. }
  rewrite Eadd.
  destruct (decide (bits_bit_col_idx p = 0)) as [Hb0|Hb0];
    [destruct (decide (bits_col_idx p = 4)) as [Hc4|Hc4]|];
    eexists _, _; (split; [reflexivity|]); unfold cursor_ok;
    cbn [bits_col_idx bits_row_idx bits_bit_col_idx bits_buffer set_bits];
    (split; [split_and!; try done; lia|]);
    (split; [first [rewrite decide_True by done | rewrite decide_False by tauto];
             reflexivity|]);
    split_and!; try done; lia.
Qed.

(** X5.  With the cursor inside the buffer, [demod_add_bit] ORs the bit
    into the position under the cursor and changes no other bit of the
    packet: appending 0 changes nothing, appending 1 sets that one bit. *)
Theorem demod_add_bit_sets_cursor_bit (p : protocol_state) (bit : Z) :
  cursor_ok p → is_bit bit →
  ∃ p' o,
    demod_add_bit p bit = Some (p', o) ∧
    ∀ r c k,
      0 ≤ r < BITBUF_ROWS → 0 ≤ c < BITBUF_COLS → 0 ≤ k < 8 →
      packet_bit (bits_buffer p') r c k =
        if decide (r = bits_row_idx p ∧ c = bits_col_idx p
                   ∧ k = bits_bit_col_idx p)
        then packet_bit (bits_buffer p) r c k || (bit =? 1)
        else packet_bit (bits_buffer p) r c k.
Proof.
  intros Hok Hbit.
  destruct (demod_add_bit_effect p bit Hok Hbit)
    as (p' & o & E & _ & _ & _ & _ & _ & Hbits).
  by exists p', o.
Qed.

Lemma demod_add_bit_sets_cursor_bit_witness :
  ∃ p' o,
    demod_add_bit rubicson_init 1 = Some (p', o) ∧
    packet_bit (bits_buffer p') 0 0 7 = true ∧
    packet_bit (bits_buffer p') 0 0 6 = false.
Proof.
  destruct (demod_add_bit_sets_cursor_bit rubicson_init 1
              (protocol_init_ok 1744 3500 5000) (or_intror eq_refl))
    as (p' & o & E & Hbits).
  exists p', o. split; [exact E|]. split.
  - rewrite (Hbits 0 0 7) by (unfold BITBUF_ROWS, BITBUF_COLS; lia).
    reflexivity.
  - rewrite (Hbits 0 0 6) by (unfold BITBUF_ROWS, BITBUF_COLS; lia).
    reflexivity.
Defined.

(** Appending fewer than 40 bits to a fresh packet: the invariant of the
    run. *)
Lemma packed_run q bs :
  Forall is_bit bs → (length bs < 40)%nat →
  ∃ p,
    run_ops (demod_reset_bits_packet q) (map AddBit bs) = Some (p, []) ∧
    cursor_ok p ∧
    bits_row_idx p = 0 ∧
    bits_col_idx p = Z.of_nat (length bs) / 8 ∧
    bits_bit_col_idx p = 7 - Z.of_nat (length bs) mod 8 ∧
    (∀ n, 0 ≤ n < 40 →
       row_bit (bits_buffer p) 0 n = (default 0 (bs !! Z.to_nat n) =? 1)) ∧
    (∀ r n, 1 ≤ r < BITBUF_ROWS → 0 ≤ n < 40 →
       row_bit (bits_buffer p) r n = false).
Proof.
  induction bs as [|b bs IH] using rev_ind; intros Hbits Hlen.
  - exists (demod_reset_bits_packet q). split; [reflexivity|].
    split; [apply demod_reset_bits_packet_ok|].
    split_and!; try reflexivity.
    + intros n Hn. unfold row_bit, packet_bit. cbn [demod_reset_bits_packet
        bits_buffer set_bits]. rewrite byte_at_zero_buffer, lookup_nil.
      reflexivity.
    + intros r n Hr Hn. unfold row_bit, packet_bit. cbn [demod_reset_bits_packet
        bits_buffer set_bits]. by rewrite byte_at_zero_buffer.
  - apply Forall_app in Hbits as [Hbs Hb]. apply Forall_inv in Hb.
    rewrite length_app in Hlen. cbn [length] in Hlen.
    destruct (IH Hbs ltac:(lia))
      as (p & Erun & Hok & Hrow & Hcol & Hbit & Hrow0 & Hrest).
    destruct (demod_add_bit_effect p b Hok Hb)
      as (p' & o & Eadd & Hok' & Ho & Hrow' & Hcol' & Hbit' & Hnew).
    set (len := Z.of_nat (length bs)) in *.
    assert (0 ≤ len < 39) as Hl by (subst len; lia).
    assert (o = []) as ->.
    { rewrite Ho. apply decide_False. rewrite Hcol, Hbit.
      Z.to_euclidean_division_equations. lia. }
    exists p'. split.
    { rewrite map_app, run_ops_app, Erun. cbn [map run_ops run_op bind].
      by rewrite Eadd. }
    split; [done|]. rewrite length_app. cbn [length].
    replace (Z.of_nat (length bs + 1)) with (len + 1) by (subst len; lia).
    split; [congruence|]. split.
    { rewrite Hcol', Hbit, Hcol.
      destruct (decide (7 - len mod 8 = 0));
        Z.to_euclidean_division_equations; lia. }
    split.
    { rewrite Hbit', Hbit.
      destruct (decide (7 - len mod 8 = 0));
        Z.to_euclidean_division_equations; lia. }
    split.
    + intros n Hn. unfold row_bit in *.
      rewrite Hnew by (unfold BITBUF_ROWS, BITBUF_COLS;
                       Z.to_euclidean_division_equations; lia).
      destruct (decide (n = len)) as [->|Hne].
      * rewrite decide_True
          by (rewrite Hrow, Hcol, Hbit; split_and!; reflexivity).
        rewrite Hrow0 by lia.
        rewrite (lookup_ge_None_2 bs) by (subst len; lia).
        rewrite lookup_app_r by (subst len; lia).
        replace (Z.to_nat len - length bs)%nat with 0%nat by (subst len; lia).
        reflexivity.
      * rewrite decide_False.
        2:{ rewrite Hcol, Hbit. intros (_ & H1 & H2). apply Hne.
            Z.to_euclidean_division_equations. lia. }
        rewrite Hrow0 by lia. f_equal. f_equal.
        destruct (decide (n < len)).
        -- by rewrite lookup_app_l by (subst len; lia).
        -- rewrite !lookup_ge_None_2; [done|..];
             rewrite ?length_app; cbn [length]; subst len; lia.
    + intros r n Hr Hn. unfold row_bit in *.
      rewrite Hnew by (unfold BITBUF_ROWS, BITBUF_COLS in *;
                       Z.to_euclidean_division_equations; lia).
      rewrite decide_False by (rewrite Hrow; lia).
      by apply Hrest.
Qed.

(** X6.  Bits are packed most significant bit first.  After fewer than 40
    bits are appended to a reset packet, nothing was printed, the cursor
    stands on bit [7 - len mod 8] of byte [len / 8] of row 0, bit [n] of
    row 0 (in the order the printer shows them) is the [n]-th bit appended
    for [n < len] and 0 behind, and the other rows are still zero. *)
Theorem bits_packed_msb_first (q : protocol_state) (bs : list Z) :
  Forall is_bit bs → (length bs < 40)%nat →
  ∃ p,
    run_ops (demod_reset_bits_packet q) (map AddBit bs) = Some (p, []) ∧
    bits_row_idx p = 0 ∧
    bits_col_idx p = Z.of_nat (length bs) / 8 ∧
    bits_bit_col_idx p = 7 - Z.of_nat (length bs) mod 8 ∧
    (∀ n, 0 ≤ n < 40 →
       row_bit (bits_buffer p) 0 n = (default 0 (bs !! Z.to_nat n) =? 1)) ∧
    (∀ r n, 1 ≤ r < BITBUF_ROWS → 0 ≤ n < 40 →
       row_bit (bits_buffer p) r n = false).
Proof.
  intros Hbits Hlen.
  destruct (packed_run q bs Hbits Hlen) as (p & E & _ & H).
  by exists p.
Qed.

Lemma bits_packed_msb_first_witness :
  ∃ p,
    run_ops (demod_reset_bits_packet rubicson_init)
      (map AddBit [1; 0; 1; 0; 0; 0; 0; 0; 0; 1]) = Some (p, []) ∧
    bits_col_idx p = 1 ∧ bits_bit_col_idx p = 5 ∧
    row_bit (bits_buffer p) 0 2 = true ∧ row_bit (bits_buffer p) 0 3 = false.
Proof.
  destruct (bits_packed_msb_first rubicson_init [1; 0; 1; 0; 0; 0; 0; 0; 0; 1])
    as (p & E & _ & Hcol & Hbit & Hrow0 & _).
  - repeat constructor; (by left) || (by right).
  - cbn. lia.
  - exists p. split; [exact E|]. split; [exact Hcol|]. split; [exact Hbit|].
    split; [exact (Hrow0 2 ltac:(lia)) | exact (Hrow0 3 ltac:(lia))].
Defined.

(** ** Demodulator: a transmission sample by sample *)

Lemma run_op_limits p op q o short long reset :
  run_op p op = Some (q, o) →
  has_limits short long reset p → has_limits short long reset q.
Proof.
  unfold has_limits. destruct op as [bit|]; cbn [run_op].
  - unfold demod_add_bit. destruct (bits_or _ _ _ _) as [buf|]; [|done].
    destruct (_ <? 0); [destruct (4 <? _)|]; by intros [= <- _].
  - unfold demod_next_bits_packet. destruct (11 <? _); by intros [= <- _].
Qed.

Lemma run_op_set_demod len cnt dist ctr start p op :
  run_op (set_demod len cnt dist ctr start p) op =
  do q <- run_op p op in ret (set_demod len cnt dist ctr start q).
Proof.
  destruct op; [apply demod_add_bit_set_demod
               |apply demod_next_bits_packet_set_demod].
Qed.

Lemma pwm_demod_cons level p s buf :
  pwm_demod level p (s :: buf) =
  do q <- pwm_demod_sample level p s in pwm_demod level q buf.
Proof. reflexivity. Qed.

Section Transmission.
Variables level hi lo : Z.
Hypothesis Hlo : lo < level.
Hypothesis Hhi : level < hi.

(** A sample above the level outside a gap: the pulse is entered or goes
    on, and the sample is counted. *)
Lemma pulse_step p :
  truthy (pulse_distance p) = false →
  sample_counter p + 1 ≤ reset_limit p →
  pwm_demod_sample level p hi =
    ret (set_demod (pulse_length p) 1 0 (sample_counter p + 1) 1 p).
Proof.
  intros Hdist Hreset. unfold pwm_demod_sample, pwm_demod_edges.
  rewrite (proj2 (Z.ltb_lt level hi)) by lia.
  rewrite (proj2 (Z.ltb_ge hi level)) by lia.
  demod_proj. rewrite andb_false_r. demod_proj.
  cbn [truthy Z.eqb Pos.eqb negb]. demod_proj.
  rewrite Hdist. cbn [andb]. rewrite bind_ret_l.
  rewrite pwm_demod_timeout_idle by (demod_proj; lia).
  unfold truthy in Hdist. apply negb_false_iff, Z.eqb_eq in Hdist.
  by rewrite Hdist.
Qed.

Lemma pulse_run k p :
  truthy (pulse_distance p) = false →
  sample_counter p + Z.of_nat (S k) ≤ reset_limit p →
  pwm_demod level p (replicate (S k) hi) =
    ret (set_demod (pulse_length p) 1 0 (sample_counter p + Z.of_nat (S k)) 1 p).
Proof.
  revert p. induction k as [|k IH]; intros p Hdist Hreset.
  - cbn [replicate pwm_demod]. rewrite pulse_step by (done || lia).
    by rewrite bind_ret_l.
  - change (replicate (S (S k)) hi) with (hi :: replicate (S k) hi).
    cbn [pwm_demod]. rewrite pulse_step, bind_ret_l by (done || lia).
    rewrite IH by (demod_proj; done || lia). demod_proj.
    replace (sample_counter p + 1 + Z.of_nat (S k))
      with (sample_counter p + Z.of_nat (S (S k))) by lia.
    reflexivity.
Qed.

(** A sample below the level outside a pulse is counted and nothing
    else. *)
Lemma silence_edges p :
  pulse_count p = 0 → truthy (start_c p) = true →
  pwm_demod_edges level p lo =
    ret (set_demod (pulse_length p) 0 (pulse_distance p)
           (sample_counter p + 1) (start_c p) p).
Proof.
  intros Hcount Hstart. unfold pwm_demod_edges.
  rewrite (proj2 (Z.ltb_ge level lo)) by lia.
  rewrite Hcount. cbn [truthy Z.eqb negb andb]. rewrite Hstart.
  demod_proj. by rewrite andb_false_r, Hcount.
Qed.

(** The first sample below the level after a pulse opens the gap. *)
Lemma fall_step p :
  truthy (pulse_count p) = true → truthy (start_c p) = true →
  1 ≤ reset_limit p →
  pwm_demod_sample level p lo = ret (set_demod 0 0 1 1 (start_c p) p).
Proof.
  intros Hcount Hstart Hreset. unfold pwm_demod_sample, pwm_demod_edges.
  rewrite (proj2 (Z.ltb_ge level lo)) by lia.
  rewrite (proj2 (Z.ltb_lt lo level)) by lia.
  rewrite Hcount. cbn [andb]. demod_proj. rewrite Hstart. demod_proj.
  rewrite andb_false_r, bind_ret_l.
  by rewrite pwm_demod_timeout_idle by (demod_proj; lia).
Qed.

(** The sample that closes a gap is counted, then the gap is classified on
    the counter. *)
Lemma rise_step p :
  truthy (pulse_distance p) = true → truthy (start_c p) = true →
  short_limit p ≤ long_limit p → long_limit p ≤ reset_limit p →
  0 ≤ reset_limit p →
  pwm_demod_sample level p hi =
    let c := sample_counter p + 1 in
    let o := band (short_limit p) (long_limit p) c in
    do q <- run_op p (outcome_op o) in
    ret (match o with
         | AppendBit _ => set_demod (pulse_length p) 1 0 c 1 q
         | AdvanceRow => set_demod (pulse_length p) 0 0 0 1 q
         end).
Proof.
  intros Hdist Hstart Hshort Hlong Hreset. cbv zeta.
  unfold pwm_demod_sample, pwm_demod_edges, band.
  rewrite (proj2 (Z.ltb_lt level hi)) by lia.
  rewrite (proj2 (Z.ltb_ge hi level)) by lia.
  demod_proj. rewrite andb_false_r. demod_proj.
  cbn [truthy Z.eqb Pos.eqb negb]. demod_proj.
  fold (truthy (pulse_distance p)). rewrite Hdist. cbn [andb].
  set (c := sample_counter p + 1).
  destruct (Z.ltb_spec c (short_limit p)) as [Hs|Hs];
    [|destruct (Z.ltb_spec c (long_limit p)) as [Hl|Hl]];
    cbn [outcome_op run_op].
  - rewrite !demod_add_bit_set_demod, !bind_assoc.
    destruct (demod_add_bit p 0) as [[q o]|] eqn:E; [|reflexivity].
    apply demod_add_bit_reset_limit in E.
    cbn [bind ret]. demod_proj.
    rewrite pwm_demod_timeout_idle by (demod_proj; rewrite E; lia).
    cbn [ret]. by rewrite !app_nil_r.
  - rewrite !demod_add_bit_set_demod, !bind_assoc.
    destruct (demod_add_bit p 1) as [[q o]|] eqn:E; [|reflexivity].
    apply demod_add_bit_reset_limit in E.
    cbn [bind ret]. demod_proj.
    rewrite pwm_demod_timeout_idle by (demod_proj; rewrite E; lia).
    cbn [ret]. by rewrite !app_nil_r.
  - rewrite !demod_next_bits_packet_set_demod, !bind_assoc.
    destruct (demod_next_bits_packet p) as [[q o]|] eqn:E; [|reflexivity].
    apply demod_next_bits_packet_reset_limit in E.
    cbn [bind ret]. demod_proj.
    rewrite pwm_demod_timeout_idle by (demod_proj; rewrite E; lia).
    cbn [ret]. by rewrite !app_nil_r.
Qed.
Variables short long reset : Z.
Variable w : nat.
Hypothesis Hlimits : 1 ≤ short ∧ short ≤ long ∧ long ≤ reset.
Hypothesis Hw : (2 ≤ w)%nat.

(** A gap and the pulse that closes it, met inside a pulse: one call on
    the packet, and the instance is inside the next pulse. *)
Lemma frame_step (g : nat) len0 c0 q0 :
  has_limits short long reset q0 →
  (1 ≤ g)%nat → Z.of_nat g + Z.of_nat w ≤ reset →
  pwm_demod level (set_demod len0 1 0 c0 1 q0) (pwm_frame hi lo w g) =
    do q <- run_op q0 (gap_op short long g) in
    ret (set_demod 0 1 0
           (match band short long (Z.of_nat g + 1) with
            | AppendBit _ => Z.of_nat g + Z.of_nat w
            | AdvanceRow => Z.of_nat w - 1
            end) 1 q).
Proof.
  intros (Hs & Hl & Hr) Hg Hgw. unfold pwm_frame, gap_op.
  destruct g as [|g]; [lia|]. destruct w as [|[|w']]; [lia..|].
  rewrite pwm_demod_app.
  change (replicate (S g) lo) with (lo :: replicate g lo).
  rewrite pwm_demod_cons.
  rewrite fall_step, bind_ret_l by (demod_proj; done || lia).
  rewrite silence_run by (demod_proj; done || lia).
  rewrite bind_ret_l. demod_proj.
  change (replicate (S (S w')) hi) with (hi :: replicate (S w') hi).
  rewrite pwm_demod_cons.
  rewrite rise_step by (demod_proj; done || lia).
  cbv zeta. demod_proj. rewrite Hs, Hl.
  replace (1 + Z.of_nat g + 1) with (Z.of_nat (S g) + 1) by lia.
  set (o := band short long (Z.of_nat (S g) + 1)).
  rewrite !run_op_set_demod, !bind_assoc.
  destruct (run_op q0 (outcome_op o)) as [[q out]|] eqn:E; [|reflexivity].
  assert (reset_limit q = reset) as Hrq
    by (eapply (run_op_limits _ _ _ _ short long reset); [exact E|done]).
  cbn [bind ret]. demod_proj.
  assert (band short long (Z.of_nat (S g) + 1) = o) as Ho by reflexivity.
  clearbody o. destruct o as [bit|].
  - rewrite pulse_run by (demod_proj; rewrite ?Hrq; done || lia).
    demod_proj. cbn [ret]. rewrite !app_nil_r.
    replace (Z.of_nat (S g) + 1 + Z.of_nat (S w'))
      with (Z.of_nat (S g) + Z.of_nat (S (S w'))) by lia.
    reflexivity.
  - rewrite pulse_run by (demod_proj; rewrite ?Hrq; done || lia).
    demod_proj. cbn [ret]. rewrite !app_nil_r.
    replace (0 + Z.of_nat (S w')) with (Z.of_nat (S (S w')) - 1) by lia.
    reflexivity.
Qed.

(** Gap after gap: the packet sees the calls the gaps stand for, in
    order. *)
Lemma frames_run (gaps : list nat) :
  Forall (λ g, (1 ≤ g)%nat ∧ Z.of_nat g + Z.of_nat w ≤ reset) gaps →
  ∀ c0, ∃ c, ∀ q0,
    has_limits short long reset q0 →
    pwm_demod level (set_demod 0 1 0 c0 1 q0)
      (concat (map (pwm_frame hi lo w) gaps)) =
      do q <- run_ops q0 (map (gap_op short long) gaps) in
      ret (set_demod 0 1 0 c 1 q).
Proof.
  induction 1 as [|g gaps [Hg Hgw] _ IH]; intros c0.
  - exists c0. intros q0 _. cbn [map concat pwm_demod run_ops].
    by rewrite bind_ret_l.
  - destruct (IH (match band short long (Z.of_nat g + 1) with
                  | AppendBit _ => Z.of_nat g + Z.of_nat w
                  | AdvanceRow => Z.of_nat w - 1
                  end)) as (c & Hrest).
    exists c. intros q0 Hq0. cbn [map concat run_ops].
    rewrite pwm_demod_app, frame_step, !bind_assoc by done.
    destruct (run_op q0 (gap_op short long g)) as [[q1 o1]|] eqn:E;
      [|reflexivity].
    cbn [bind ret]. rewrite Hrest by (eapply run_op_limits; eauto).
    destruct (run_ops q1 _) as [[q2 o2]|]; [|reflexivity].
    cbn [bind ret]. by rewrite !app_nil_l, !app_nil_r.
Qed.

(** The whole transmission, from a fresh instance. *)
Lemma encode_run (gaps : list nat) :
  Z.of_nat w ≤ reset →
  Forall (λ g, (1 ≤ g)%nat ∧ Z.of_nat g + Z.of_nat w ≤ reset) gaps →
  ∃ c,
    pwm_demod level (protocol_init short long reset)
      (pwm_encode hi lo w gaps) =
      do q <- run_ops (protocol_init short long reset)
                (map (gap_op short long) gaps) in
      ret (set_demod 0 1 0 c 1 q).
Proof.
  intros Hwr Hgaps.
  destruct (frames_run gaps Hgaps (Z.of_nat w)) as (c & Hrun).
  exists c. unfold pwm_encode. rewrite pwm_demod_app.
  destruct w as [|k]; [lia|].
  rewrite pulse_run by (demod_proj; done || lia).
  rewrite bind_ret_l. demod_proj. rewrite Z.add_0_l.
  by rewrite Hrun.
Qed.

(** The end of a transmission: from inside a pulse, one sample more of
    silence than [reset] prints the packet and clears it. *)
Lemma silence_prints c0 q0 (n : nat) :
  has_limits short long reset q0 → Z.of_nat n = reset →
  pwm_demod level (set_demod 0 1 0 c0 1 q0) (replicate (S n) lo) =
    (demod_print_bits_packet q0 ;;;
     ret (demod_reset_bits_packet (set_demod 0 0 0 0 0 q0))).
Proof.
  intros (Hs & Hl & Hr) Hn. destruct n as [|n]; [lia|].
  rewrite replicate_S_end, pwm_demod_app.
  change (replicate (S n) lo) with (lo :: replicate n lo).
  rewrite pwm_demod_cons.
  rewrite fall_step, bind_ret_l by (demod_proj; done || lia).
  rewrite silence_run by (demod_proj; done || lia).
  rewrite bind_ret_l. demod_proj. cbn [pwm_demod]. rewrite bind_ret_r.
  unfold pwm_demod_sample.
  rewrite silence_edges, bind_ret_l by (demod_proj; done).
  unfold pwm_demod_timeout. demod_proj.
  rewrite (proj2 (Z.ltb_lt _ _)) by lia.
  reflexivity.
Qed.
End Transmission.

Lemma run_ops_limits p ops q o short long reset :
  run_ops p ops = Some (q, o) →
  has_limits short long reset p → has_limits short long reset q.
Proof.
  revert p o. induction ops as [|op ops IH]; intros p o; cbn [run_ops].
  - by intros [= <- _].
  - destruct (run_op p op) as [[p1 o1]|] eqn:E1; [|done]. cbn [bind].
    destruct (run_ops p1 ops) as [[p2 o2]|] eqn:E2; [|done].
    intros [= <- _] Hp. eapply IH; [exact E2|].
    eapply run_op_limits; eauto.
Qed.

Lemma protocol_init_limits short long reset :
  has_limits short long reset (protocol_init short long reset).
Proof. by split_and!. Qed.

(** X7.  A fresh instance with limits [1 <= short <= long <= reset], fed
    pulses of [w >= 2] samples above the level separated by gaps of
    samples below it (each gap at least one sample, gap plus pulse no
    longer than [reset]), makes on its packet exactly the calls the gaps
    stand for, in order: a gap of [g] samples appends 0 when
    [g + 1 < short], appends 1 when [short <= g + 1 < long], and advances
    the row otherwise.  It ends inside the last pulse. *)
Theorem pwm_demod_follows_gaps (level hi lo short long reset : Z) (w : nat)
    (gaps : list nat) :
  lo < level → level < hi →
  1 ≤ short ∧ short ≤ long ∧ long ≤ reset →
  (2 ≤ w)%nat → Z.of_nat w ≤ reset →
  Forall (λ g, (1 ≤ g)%nat ∧ Z.of_nat g + Z.of_nat w ≤ reset) gaps →
  ∃ c,
    pwm_demod level (protocol_init short long reset)
      (pwm_encode hi lo w gaps) =
      do q <- run_ops (protocol_init short long reset)
                (map (gap_op short long) gaps) in
      ret (set_demod 0 1 0 c 1 q).
Proof.
  intros Hlo Hhi Hlimits Hw Hwr Hgaps.
  by apply encode_run.
Qed.

Lemma pwm_demod_follows_gaps_witness :
  ∃ c,
    pwm_demod 10000 rubicson_init
      (pwm_encode 20000 0 600 [1000; 2500; 4000]%nat)
    = do q <- run_ops rubicson_init [AddBit 0; AddBit 1; NextPacket] in
      ret (set_demod 0 1 0 c 1 q).
Proof.
  apply (pwm_demod_follows_gaps 10000 20000 0 1744 3500 5000 600
           [1000; 2500; 4000]%nat); try lia.
  repeat constructor; lia.
Defined.

(** X8.  Round trip of a row: fewer than 40 bits sent as gaps, a 0 as a
    gap classified below [short] and a 1 as a gap classified from [short]
    up to [long], are read back from row 0 of the packet, most significant
    bit of byte 0 first, and nothing is printed. *)
Theorem pwm_row_round_trip (level hi lo short long reset : Z) (w g0 g1 : nat)
    (bs : list Z) :
  lo < level → level < hi →
  1 ≤ short ∧ short ≤ long ∧ long ≤ reset →
  (2 ≤ w)%nat → Z.of_nat w ≤ reset →
  (1 ≤ g0)%nat ∧ Z.of_nat g0 + 1 < short →
  short ≤ Z.of_nat g1 + 1 < long ∧ Z.of_nat g1 + Z.of_nat w ≤ reset →
  Forall is_bit bs → (length bs < 40)%nat →
  ∃ p,
    pwm_demod level (protocol_init short long reset)
      (pwm_encode hi lo w (map (λ bit, if bit =? 1 then g1 else g0) bs))
      = Some (p, []) ∧
    bits_row_idx p = 0 ∧
    ∀ n, 0 ≤ n < 40 →
      row_bit (bits_buffer p) 0 n = (default 0 (bs !! Z.to_nat n) =? 1).
Proof.
  intros Hlo Hhi Hlimits Hw Hwr [Hg0 Hg0s] [Hg1 Hg1w] Hbits Hlen.
  destruct (encode_run level hi lo Hlo Hhi short long reset w Hlimits Hw
              (map (λ bit, if bit =? 1 then g1 else g0) bs) Hwr)
    as (c & Erun).
  { apply Forall_map. eapply Forall_impl; [exact Hbits|].
    intros bit _. cbn beta. destruct (bit =? 1); lia. }
  destruct (packed_run (protocol_init short long reset) bs Hbits Hlen)
    as (p & Eops & _ & Hrow & _ & _ & Hrow0 & _).
  change (demod_reset_bits_packet (protocol_init short long reset))
    with (protocol_init short long reset) in Eops.
  assert (map (gap_op short long) (map (λ bit, if bit =? 1 then g1 else g0) bs)
          = map AddBit bs) as Emap.
  { rewrite map_map. apply map_ext_Forall.
    eapply Forall_impl; [exact Hbits|].
    intros bit [-> | ->]; unfold gap_op, band; cbn [Z.eqb Pos.eqb].
    - rewrite (proj2 (Z.ltb_lt _ _)) by lia. reflexivity.
    - rewrite (proj2 (Z.ltb_ge _ _)) by lia.
      rewrite (proj2 (Z.ltb_lt _ _)) by lia. reflexivity. }
  rewrite Emap, Eops in Erun. cbn [bind ret app] in Erun.
  exists (set_demod 0 1 0 c 1 p). split; [exact Erun|]. split; [exact Hrow|].
  exact Hrow0.
Qed.

Lemma pwm_row_round_trip_witness :
  ∃ p,
    pwm_demod 10000 rubicson_init
      (pwm_encode 20000 0 600
         (map (λ bit, if bit =? 1 then 2500%nat else 1000%nat) [1; 0; 1]))
      = Some (p, []) ∧
    bits_row_idx p = 0 ∧
    ∀ n, 0 ≤ n < 40 →
      row_bit (bits_buffer p) 0 n = (default 0 ([1; 0; 1] !! Z.to_nat n) =? 1).
Proof.
  apply (pwm_row_round_trip 10000 20000 0 1744 3500 5000 600 1000 2500
           [1; 0; 1]); try lia.
  - repeat constructor; (by left) || (by right).
  - cbn. lia.
Defined.

(** X9.  The end of a transmission: when such pulses and gaps are
    followed by [reset + 1] samples below the level, the instance prints
    the packet those calls built, through the one printer, and clears the
    packet and its own state. *)
Theorem transmission_prints_packet (level hi lo short long reset : Z)
    (w n : nat) (gaps : list nat) :
  lo < level → level < hi →
  1 ≤ short ∧ short ≤ long ∧ long ≤ reset →
  (2 ≤ w)%nat → Z.of_nat w ≤ reset →
  Forall (λ g, (1 ≤ g)%nat ∧ Z.of_nat g + Z.of_nat w ≤ reset) gaps →
  Z.of_nat n = reset →
  pwm_demod level (protocol_init short long reset)
    (pwm_encode hi lo w gaps ++ replicate (S n) lo) =
    do q <- run_ops (protocol_init short long reset)
              (map (gap_op short long) gaps) in
    (demod_print_bits_packet q ;;;
     ret (demod_reset_bits_packet (set_demod 0 0 0 0 0 q))).
Proof.
  intros Hlo Hhi Hlimits Hw Hwr Hgaps Hn.
  destruct (encode_run level hi lo Hlo Hhi short long reset w Hlimits Hw
              gaps Hwr Hgaps) as (c & Erun).
  rewrite pwm_demod_app, Erun, bind_assoc.
  destruct (run_ops _ _) as [[q o]|] eqn:Eops; [|reflexivity].
  cbn [bind ret].
  rewrite (silence_prints level lo Hlo short long reset w Hlimits Hw c q n);
    [|eapply run_ops_limits; [exact Eops|apply protocol_init_limits]|done].
  destruct (demod_print_bits_packet q ;;; _) as [[q' o']|]; [|reflexivity].
  by rewrite app_nil_l.
Qed.

Lemma transmission_prints_packet_witness :
  pwm_demod 10000 rubicson_init
    (pwm_encode 20000 0 600 [1000; 2500]%nat ++ replicate (S 5000) 0) =
    do q <- run_ops rubicson_init [AddBit 0; AddBit 1] in
    (demod_print_bits_packet q ;;;
     ret (demod_reset_bits_packet (set_demod 0 0 0 0 0 q))).
Proof.
  apply (transmission_prints_packet 10000 20000 0 1744 3500 5000 600 5000
           [1000; 2500]%nat); try lia.
  repeat constructor; lia.
Defined.

(** ** Demodulator: what every block preserves *)

Lemma run_op_fields p op q o :
  run_op p op = Some (q, o) →
  pulse_length q = pulse_length p ∧ pulse_count q = pulse_count p ∧
  pulse_distance q = pulse_distance p ∧ sample_counter q = sample_counter p ∧
  start_c q = start_c p ∧ short_limit q = short_limit p ∧
  long_limit q = long_limit p ∧ reset_limit q = reset_limit p.
Proof.
  destruct op as [bit|]; cbn [run_op].
  - unfold demod_add_bit. destruct (bits_or _ _ _ _) as [buf|]; [|done].
    destruct (_ <? 0); [destruct (4 <? _)|]; by intros [= <- _].
  - unfold demod_next_bits_packet. destruct (11 <? _); by intros [= <- _].
Qed.

Lemma truthy_bit z : is_bit z → truthy z = true → z = 1.
Proof. by intros [-> | ->]. Qed.

Lemma pwm_demod_edges_fields level p s q o :
  pwm_demod_edges level p s = Some (q, o) →
  flags_ok p → 0 ≤ sample_counter p ≤ reset_limit p →
  flags_ok q ∧ 0 ≤ sample_counter q ≤ reset_limit q + 1 ∧
  has_limits (short_limit p) (long_limit p) (reset_limit p) q.
Proof.
  intros E Hflags Hctr. unfold pwm_demod_edges in E.
  set (short := short_limit p) in *. set (long := long_limit p) in *.
  assert (has_limits short long (reset_limit p) p) as Hlim by done.
  set (reset := reset_limit p) in Hlim |- *.
  assert (0 ≤ sample_counter p ≤ reset) as Hctr' by done.
  clear Hctr. clearbody short long reset.
  revert E.
  set (p1 := if level <? s then _ else p).
  assert (flags_ok p1 ∧ 0 ≤ sample_counter p1 ≤ reset
          ∧ has_limits short long reset p1) as H1.
  { subst p1. unfold flags_ok, has_limits, is_bit in *.
    destruct (level <? s); demod_proj; intuition lia. }
  clearbody p1. clear Hflags Hctr' Hlim.
  set (p2 := if truthy (pulse_count p1) && (s <? level) then _ else p1).
  assert (flags_ok p2 ∧ 0 ≤ sample_counter p2 ≤ reset
          ∧ has_limits short long reset p2) as H2.
  { subst p2. unfold flags_ok, has_limits, is_bit in *.
    destruct (_ && _); demod_proj; intuition lia. }
  clearbody p2. clear H1.
  set (p3 := if truthy (start_c p2) then _ else p2).
  assert (flags_ok p3 ∧ 0 ≤ sample_counter p3 ≤ reset + 1
          ∧ has_limits short long reset p3) as H3.
  { subst p3. unfold flags_ok, has_limits, is_bit in *.
    destruct (truthy (start_c p2)); demod_proj; intuition lia. }
  clearbody p3. clear H2. intros E.
  destruct H3 as ((Hc & Hd & Hs) & Hctr & Hl & Hlg & Hr).
  unfold flags_ok, has_limits, is_bit in *.
  destruct (truthy (pulse_distance p3) && (level <? s)).
  - destruct (sample_counter p3 <? short_limit p3);
      [|destruct (sample_counter p3 <? long_limit p3)].
    + destruct (demod_add_bit p3 0) as [[q1 o1]|] eqn:E1; [|done].
      apply (run_op_fields p3 (AddBit 0)) in E1.
      destruct E1 as (? & ? & ? & ? & ? & ? & ? & ?).
      cbn [bind ret] in E. injection E as <- _. demod_proj.
      intuition lia.
    + destruct (demod_add_bit p3 1) as [[q1 o1]|] eqn:E1; [|done].
      apply (run_op_fields p3 (AddBit 1)) in E1.
      destruct E1 as (? & ? & ? & ? & ? & ? & ? & ?).
      cbn [bind ret] in E. injection E as <- _. demod_proj.
      intuition lia.
    + destruct (demod_next_bits_packet p3) as [[q1 o1]|] eqn:E1; [|done].
      apply (run_op_fields p3 NextPacket) in E1.
      destruct E1 as (? & ? & ? & ? & ? & ? & ? & ?).
      cbn [bind ret] in E. injection E as <- _. demod_proj.
      intuition lia.
  - injection E as <- _. intuition lia.
Qed.

Lemma pwm_demod_timeout_fields q p' o :
  pwm_demod_timeout q = Some (p', o) →
  flags_ok q → 0 ≤ sample_counter q ≤ reset_limit q + 1 →
  0 ≤ reset_limit q →
  flags_ok p' ∧ 0 ≤ sample_counter p' ≤ reset_limit p' ∧
  has_limits (short_limit q) (long_limit q) (reset_limit q) p'.
Proof.
  unfold pwm_demod_timeout, flags_ok, has_limits, is_bit.
  destruct (reset_limit q <? sample_counter q) eqn:Ecmp.
  - apply Z.ltb_lt in Ecmp.
    destruct (demod_print_bits_packet _) as [[[] o1]|]; [|done].
    cbn [bind ret]. intros [= <- _] (Hc & _ & _) Hctr Hr. cbn.
    split_and!; auto; lia.
  - apply Z.ltb_ge in Ecmp. intros [= <- _] Hf Hctr Hr.
    split_and!; auto; lia.
Qed.

Lemma pwm_demod_sample_keeps level p s :
  demod_ok p →
  ∃ p' o, pwm_demod_sample level p s = Some (p', o) ∧ demod_ok p' ∧
          has_limits (short_limit p) (long_limit p) (reset_limit p) p'.
Proof.
  intros (Hcur & Hflags & Hctr). unfold pwm_demod_sample.
  destruct (pwm_demod_edges_ok level p s Hcur) as (q & o1 & E1 & Hq).
  destruct (pwm_demod_edges_fields level p s q o1 E1 Hflags Hctr)
    as (Hfq & Hcq & Hlq & Hgq & Hrq).
  destruct (pwm_demod_timeout_ok q Hq) as (p' & o2 & E2 & Hp').
  destruct (pwm_demod_timeout_fields q p' o2 E2 Hfq Hcq ltac:(lia))
    as (Hfp & Hcp & Hlp & Hgp & Hrp).
  rewrite E1. cbn [bind]. rewrite E2. eexists _, _. split; [done|].
  split; [exact (conj Hp' (conj Hfp Hcp))|].
  unfold has_limits in *. split_and!; congruence.
Qed.

Lemma pwm_demod_invariant level p buf :
  demod_ok p →
  ∃ p' o, pwm_demod level p buf = Some (p', o) ∧ demod_ok p' ∧
          has_limits (short_limit p) (long_limit p) (reset_limit p) p'.
Proof.
  revert p. induction buf as [|s buf IH]; intros p Hok.
  - by exists p, [].
  - destruct (pwm_demod_sample_keeps level p s Hok)
      as (p1 & o1 & E1 & Hp1 & Hl & Hg & Hr).
    destruct (IH p1 Hp1) as (p2 & o2 & E2 & Hp2 & Hl2 & Hg2 & Hr2).
    exists p2, (o1 ++ o2). rewrite pwm_demod_cons, E1. cbn [bind].
    rewrite E2. split; [done|]. split; [done|].
    unfold has_limits. split_and!; congruence.
Qed.

(** X10.  [pwm_demod] accepts any block of samples in any state it can be
    in: when the cursor is inside the packet, the three flags are 0 or 1 and
    the sample counter is between 0 and the reset limit, the call returns
    (no write leaves the packet), the state it leaves satisfies the same
    conditions, and the three limits of the protocol are the ones it started
    with.  In particular the sample counter never exceeds the reset limit
    between two calls, whatever the length of the signal. *)
Theorem pwm_demod_keeps_state level p buf :
  demod_ok p →
  ∃ p' o, pwm_demod level p buf = Some (p', o) ∧ demod_ok p' ∧
          has_limits (short_limit p) (long_limit p) (reset_limit p) p'.
Proof. apply pwm_demod_invariant. Qed.

Lemma pwm_demod_keeps_state_witness :
  demod_ok rubicson_init ∧
  ∃ p' o, pwm_demod 10000 rubicson_init [0; 20000; 0; 0; 20000] =
            Some (p', o) ∧ demod_ok p' ∧
          has_limits (short_limit rubicson_init) (long_limit rubicson_init)
            (reset_limit rubicson_init) p'.
Proof.
  assert (demod_ok rubicson_init) as H.
  { unfold demod_ok, flags_ok, is_bit. split; [apply protocol_init_ok|].
    cbn. lia. }
  split; [exact H|]. exact (pwm_demod_keeps_state 10000 rubicson_init _ H).
Defined.

Lemma pwm_demod_silent level p buf :
  Forall (λ s, s ≤ level) buf →
  pulse_count p = 0 → start_c p = 0 →
  sample_counter p ≤ reset_limit p →
  pwm_demod level p buf = ret p.
Proof.
  intros Hbuf Hc Hs Hr. induction Hbuf as [|s buf Hle _ IH]; [done|].
  rewrite pwm_demod_cons. unfold pwm_demod_sample, pwm_demod_edges.
  rewrite (proj2 (Z.ltb_ge level s)) by lia. cbv zeta.
  rewrite Hc. cbn [truthy Z.eqb negb andb]. rewrite Hs.
  cbn [truthy Z.eqb negb andb]. rewrite andb_false_r, bind_ret_l.
  by rewrite pwm_demod_timeout_idle, bind_ret_l.
Qed.

(** X11.  Samples at or below the level leave an idle demodulator as it is
    and print nothing: with no pulse seen ([pulse_count = 0]), no packet
    begun ([start_c = 0]) and the counter within the reset limit,
    [pwm_demod] returns the state it was given, however long the block. *)
Theorem pwm_demod_idle level p buf :
  Forall (λ s, s ≤ level) buf →
  pulse_count p = 0 → start_c p = 0 →
  sample_counter p ≤ reset_limit p →
  pwm_demod level p buf = ret p.
Proof. apply pwm_demod_silent. Qed.

Lemma pwm_demod_idle_witness :
  pwm_demod 10000 prologue_init [0; 10000; 37; 9999] = ret prologue_init.
Proof.
  apply pwm_demod_idle; [|reflexivity|reflexivity|cbn; lia].
  repeat constructor; lia.
Defined.

(** X12.  Where the stream of samples is cut into blocks does not matter to
    a demodulator: called on the blocks in turn, [pwm_demod] leaves the
    state and prints the lines of one call on their concatenation (and
    faults when that call does). *)
Theorem pwm_demod_blocks_concat level p blocks :
  pwm_demod_blocks level p blocks = pwm_demod level p (concat blocks).
Proof.
  revert p. induction blocks as [|buf blocks IH]; intros p;
    cbn [pwm_demod_blocks concat]; [done|].
  rewrite pwm_demod_app.
  destruct (pwm_demod level p buf) as [[q o]|]; [|done].
  cbn [bind]. by rewrite IH.
Qed.

(** ** Analyzer *)

Lemma pwm_analyze_sample_keeps level st s :
  analyze_ok st →
  ∃ st' o, pwm_analyze_sample level st s = Some (st', o) ∧ analyze_ok st' ∧
           counter st' = counter st + 1 ∧
           pulses_found st ≤ pulses_found st' ≤ pulses_found st + 1.
Proof.
  intros [Hpos Hp2]. unfold pwm_analyze_sample, analyze_ok.
  destruct ((level <? s) && truthy (print st)) eqn:Erise;
    cbn [bind ret fprintf_stderr app].
  - apply andb_prop in Erise as [Hlt _]. apply Z.ltb_lt in Hlt.
    rewrite (proj2 (Z.ltb_ge s level)) by lia.
    eexists _, _. split; [reflexivity|]. cbn. split_and!; first [lia | done | intros; lia].
  - destruct (s <? level); cbn [counter print2 pulses_found].
    + destruct (truthy (print2 st)) eqn:E2.
      * specialize (Hp2 eq_refl).
        rewrite (proj2 (Z.eqb_neq (pulses_found st) 0)) by lia.
        cbn [bind ret fprintf_stderr app].
        eexists _, _. split; [reflexivity|]. cbn. split_and!; first [lia | done | intros; lia].
      * cbn [bind ret app].
        eexists _, _. split; [reflexivity|]. cbn. rewrite E2.
        split_and!; first [lia | done | intros; lia].
    + eexists _, _. split; [reflexivity|]. cbn. split_and!; first [lia | done | intros; lia].
Qed.

Lemma pwm_analyze_invariant level st buf :
  analyze_ok st →
  ∃ st' o, pwm_analyze level st buf = Some (st', o) ∧ analyze_ok st' ∧
           counter st' = counter st + Z.of_nat (length buf) ∧
           pulses_found st ≤ pulses_found st'
             ≤ pulses_found st + Z.of_nat (length buf).
Proof.
  revert st. induction buf as [|s buf IH]; intros st Hok.
  - exists st, []. cbn [length]. split_and!; [done..|lia|lia|lia].
  - destruct (pwm_analyze_sample_keeps level st s Hok)
      as (st1 & o1 & E1 & Hok1 & Hc1 & Hf1).
    destruct (IH st1 Hok1) as (st2 & o2 & E2 & Hok2 & Hc2 & Hf2).
    exists st2, (o1 ++ o2). cbn [pwm_analyze length]. rewrite E1.
    cbn [bind]. rewrite E2. split; [done|]. split; [done|]. lia.
Qed.


Lemma analyze_init_ok : analyze_ok analyze_init.
Proof. split; [cbn; lia|]. intros H. cbn in H. discriminate. Qed.


(** ** Frame printer *)

(** X14.  The temperature is printed as the decimal number a tenth of it
    is: a minus sign exactly when it is negative, the whole part and one
    digit, which together make up its absolute value.  So -5 is printed as
    [-0.5] and -123 as [-12.3]. *)
Theorem fmt_temp_decimal t :
  ∃ whole tenth,
    fmt_temp t =
      ((if (t <? 0)%Z then "-" else "") ++ pretty whole ++ "."
       ++ pretty tenth)%string ∧
    0 ≤ whole ∧ 0 ≤ tenth ≤ 9 ∧ Z.abs t = 10 * whole + tenth.
Proof.
  exists (Z.abs (Z.quot t 10)), (Z.abs (Z.rem t 10)).
  split; [reflexivity|].
  Z.to_euclidean_division_equations. lia.
Qed.

Lemma high_nibble b : 0 ≤ b < 256 → Z.shiftr (Z.land b 0xF0) 4 = b / 16.
Proof.
  intros Hb.
  assert (forallb (λ y, Z.shiftr (Z.land y 0xF0) 4 =? y / 16) (seqZ 0 256)
          = true) as Hall by (vm_compute; reflexivity).
  rewrite forallb_forall in Hall.
  apply Z.eqb_eq, Hall, list_elem_of_In, elem_of_seqZ. lia.
Qed.

Lemma prologue_rid_nibbles b0 b1 :
  0 ≤ b0 < 256 → 0 ≤ b1 < 256 →
  prologue_rid b0 b1 = b0 mod 16 * 16 + b1 / 16.
Proof.
  intros H0 H1. unfold prologue_rid. rewrite high_nibble by done.
  change 0x0F with (Z.ones 4). rewrite Z.land_ones by lia.
  change (2 ^ 4) with 16.
  assert (forallb (λ h, forallb (λ l,
            Z.lor (Z.shiftl h 4) l =? h * 16 + l) (seqZ 0 16)) (seqZ 0 16)
          = true) as Hall by (vm_compute; reflexivity).
  rewrite forallb_forall in Hall.
  assert (0 ≤ b0 mod 16 < 16) as Hh by (apply Z.mod_pos_bound; lia).
  assert (0 ≤ b1 / 16 < 16) as Hl
    by (Z.to_euclidean_division_equations; lia).
  specialize (Hall (b0 mod 16)).
  rewrite forallb_forall in Hall.
  apply Z.eqb_eq, Hall; apply list_elem_of_In, elem_of_seqZ; lia.
Qed.

(** X15.  The Prologue identifiers the printer shows are the first three
    nibbles of row 1: [id] is the high nibble of byte 0 and [rid] the low
    nibble of byte 0 followed by the high nibble of byte 1, so that
    [id * 256 + rid] is the twelve leading bits of the row.  They are the
    sixth and the seventh of the field lines, with [id] in 0..15 and [rid]
    in 0..255. *)
Theorem prologue_id_rid_printed (p : protocol_state) :
  buffer_wf (bits_buffer p) →
  0 ≤ byte_at (bits_buffer p) 1 0 < 256 →
  0 ≤ byte_at (bits_buffer p) 1 1 < 256 →
  ∃ dump lines id rid,
    demod_print_bits_packet p = Some (tt, dump ++ lines) ∧
    lines !! 5%nat = Some ("id            = " ++ fmt_d id ++ nl)%string ∧
    lines !! 6%nat = Some ("rid           = " ++ fmt_d rid ++ nl)%string ∧
    id = byte_at (bits_buffer p) 1 0 / 16 ∧
    rid = byte_at (bits_buffer p) 1 0 mod 16 * 16
          + byte_at (bits_buffer p) 1 1 / 16 ∧
    id * 256 + rid
      = (byte_at (bits_buffer p) 1 0 * 256 + byte_at (bits_buffer p) 1 1) / 16 ∧
    0 ≤ id ≤ 15 ∧ 0 ≤ rid ≤ 255.
Proof.
  intros Hwf H0 H1. destruct (demod_print_bits_packet_lines p Hwf) as [dump E].
  set (b0 := byte_at (bits_buffer p) 1 0) in *.
  set (b1 := byte_at (bits_buffer p) 1 1) in *.
  exists dump, (field_lines (bits_buffer p)),
    (Z.shiftr (Z.land b0 0xF0) 4), (prologue_rid b0 b1).
  split; [done|]. split; [reflexivity|]. split; [reflexivity|].
  rewrite high_nibble, prologue_rid_nibbles by done.
  split; [done|]. split; [done|].
  Z.to_euclidean_division_equations. lia.
Qed.

Lemma prologue_id_rid_printed_witness :
  ∃ dump lines id rid,
    demod_print_bits_packet prologue_packet = Some (tt, dump ++ lines) ∧
    lines !! 5%nat = Some ("id            = " ++ fmt_d id ++ nl)%string ∧
    lines !! 6%nat = Some ("rid           = " ++ fmt_d rid ++ nl)%string ∧
    id = byte_at (bits_buffer prologue_packet) 1 0 / 16 ∧
    rid = byte_at (bits_buffer prologue_packet) 1 0 mod 16 * 16
          + byte_at (bits_buffer prologue_packet) 1 1 / 16 ∧
    id * 256 + rid
      = (byte_at (bits_buffer prologue_packet) 1 0 * 256
         + byte_at (bits_buffer prologue_packet) 1 1) / 16 ∧
    0 ≤ id ≤ 15 ∧ 0 ≤ rid ≤ 255.
Proof.
  apply (prologue_id_rid_printed prologue_packet).
  - apply packet_of_rows_wf; reflexivity.
  - vm_compute. split; [discriminate|reflexivity].
  - vm_compute. split; [discriminate|reflexivity].
Defined.

(** X16.  Both temperatures the printer shows are 12-bit two's-complement
    numbers, so they lie in -2048..2047 (-204.8 to 204.7 degrees): the
    Prologue one, the fourth field line, is made of byte 2 and the high
    nibble of byte 3 of row 1; the Rubicson one, the tenth, of the low
    nibble of byte 1 and byte 2 of row 0. *)
Theorem temperatures_printed (p : protocol_state) :
  buffer_wf (bits_buffer p) →
  0 ≤ byte_at (bits_buffer p) 1 2 < 256 →
  0 ≤ byte_at (bits_buffer p) 1 3 < 256 →
  0 ≤ byte_at (bits_buffer p) 0 1 < 256 →
  0 ≤ byte_at (bits_buffer p) 0 2 < 256 →
  ∃ dump lines t_prologue t_rubicson,
    demod_print_bits_packet p = Some (tt, dump ++ lines) ∧
    lines !! 3%nat
      = Some ("temp          = " ++ fmt_temp t_prologue ++ nl)%string ∧
    lines !! 9%nat = Some ("temp = " ++ fmt_temp t_rubicson ++ nl)%string ∧
    t_prologue = sext12 (byte_at (bits_buffer p) 1 2 * 16
                         + byte_at (bits_buffer p) 1 3 / 16) ∧
    t_rubicson = sext12 (byte_at (bits_buffer p) 0 1 mod 16 * 256
                         + byte_at (bits_buffer p) 0 2) ∧
    -2048 ≤ t_prologue ≤ 2047 ∧ -2048 ≤ t_rubicson ≤ 2047.
Proof.
  intros Hwf H12 H13 H01 H02.
  destruct (demod_print_bits_packet_lines p Hwf) as [dump E].
  set (b12 := byte_at (bits_buffer p) 1 2) in *.
  set (b13 := byte_at (bits_buffer p) 1 3) in *.
  set (b01 := byte_at (bits_buffer p) 0 1) in *.
  set (b02 := byte_at (bits_buffer p) 0 2) in *.
  exists dump, (field_lines (bits_buffer p)),
    (prologue_temp b12 b13), (rubicson_temp b01 b02).
  split; [done|]. split; [reflexivity|]. split; [reflexivity|].
  rewrite prologue_temp_sext12, rubicson_temp_sext12 by done.
  split; [done|]. split; [done|].
  unfold sext12.
  split; case_match; Z.to_euclidean_division_equations; lia.
Qed.

Lemma temperatures_printed_witness :
  ∃ dump lines t_prologue t_rubicson,
    demod_print_bits_packet prologue_packet = Some (tt, dump ++ lines) ∧
    lines !! 3%nat
      = Some ("temp          = " ++ fmt_temp t_prologue ++ nl)%string ∧
    lines !! 9%nat = Some ("temp = " ++ fmt_temp t_rubicson ++ nl)%string ∧
    t_prologue = sext12 (byte_at (bits_buffer prologue_packet) 1 2 * 16
                         + byte_at (bits_buffer prologue_packet) 1 3 / 16) ∧
    t_rubicson = sext12 (byte_at (bits_buffer prologue_packet) 0 1 mod 16 * 256
                         + byte_at (bits_buffer prologue_packet) 0 2) ∧
    -2048 ≤ t_prologue ≤ 2047 ∧ -2048 ≤ t_rubicson ≤ 2047.
Proof.
  apply (temperatures_printed prologue_packet).
  - apply packet_of_rows_wf; reflexivity.
  - vm_compute. split; [discriminate|reflexivity].
  - vm_compute. split; [discriminate|reflexivity].
  - vm_compute. split; [discriminate|reflexivity].
  - vm_compute. split; [discriminate|reflexivity].
Defined.

(** ** Block callback: what every block preserves *)

Lemma bind_ok {A B} (m : Out A) (k : A → Out B) (P : B → Prop) x o :
  m = Some (x, o) →
  (∃ y o', k x = Some (y, o') ∧ P y) →
  ∃ y o', bind m k = Some (y, o') ∧ P y.
Proof.
  intros -> (y & o' & E & HP). exists y, (o ++ o'). cbn [bind].
  by rewrite E.
Qed.

Lemma envelope_detect_ok buf len d :
  0 ≤ d ≤ 30 → 0 ≤ len ≤ Z.of_nat (length buf) →
  ∃ out, envelope_detect buf len d = Some out ∧
         Z.of_nat (length out) = (len / 2 + 2 ^ d - 1) / 2 ^ d.
Proof.
  intros Hd Hlen. unfold envelope_detect. rewrite decide_True by lia.
  rewrite Z.shiftl_1_l.
  assert (1 ≤ 2 ^ d) by (pose proof (Z.pow_pos_nonneg 2 d); lia).
  assert (0 ≤ len / 2 ∧ 2 * (len / 2) ≤ len)
    by (Z.to_euclidean_division_equations; lia).
  destruct (envelope_loop_count (Z.to_nat (len / 2)) buf (len / 2) (2 ^ d) 0)
    as (out & E & Hcount); [lia..|].
  exists out. split; [done|]. rewrite Hcount, Z.sub_0_r.
  apply Z2Nat.id. Z.to_euclidean_division_equations. nia.
Qed.

Lemma low_pass_filter_ok x_buf len st :
  2 ≤ len ≤ Z.of_nat (length x_buf) →
  ∃ ys st', low_pass_filter x_buf len st = Some (ys, st') ∧
            length ys = Z.to_nat len.
Proof.
  intros Hlen. unfold low_pass_filter. rewrite decide_True by done.
  set (ys := lp_run _ _ _).
  assert (length ys = Z.to_nat len) as Hys
    by (subst ys; rewrite lp_run_length, length_take; lia).
  destruct (lookup_lt_is_Some_2 x_buf (Z.to_nat (len - 1 - FILTER_ORDER)))
    as [xk ->]; [unfold FILTER_ORDER; lia|].
  destruct (lookup_lt_is_Some_2 ys (Z.to_nat (len - 1 - FILTER_ORDER)))
    as [yk ->]; [unfold FILTER_ORDER; lia|].
  by eexists _, _.
Qed.

Lemma f_buf_read_ok fb n :
  0 ≤ n ≤ MAXIMAL_BUF_LENGTH → ∃ l, f_buf_read fb n = Some l.
Proof. intros H. unfold f_buf_read. rewrite decide_True by done. eauto. Qed.

Lemma shiftr_halves n d :
  0 ≤ n → 0 ≤ d →
  Z.shiftr n (d + 1) = n / 2 / 2 ^ d ∧ Z.shiftr n d = n / 2 ^ d.
Proof.
  intros Hn Hd. rewrite !Z.shiftr_div_pow2 by lia.
  rewrite Z.pow_add_r, Z.pow_1_r by lia.
  rewrite (Z.mul_comm (2 ^ d) 2), Z.div_div by lia. done.
Qed.

Lemma effective_len_range len w :
  0 ≤ len → 0 ≤ effective_len len w ≤ len.
Proof.
  intros Hlen. unfold effective_len.
  destruct (0 <? bytes_to_read w) eqn:E1; [|cbn; lia].
  destruct (bytes_to_read w <? len) eqn:E2; cbn; lia.
Qed.

Lemma rtlsdr_callback_invariant buf len w :
  world_ok w →
  0 ≤ len ≤ Z.of_nat (length buf) → len ≤ 2 * MAXIMAL_BUF_LENGTH →
  2 ≤ Z.shiftr (effective_len len w) (decimation_level (demod w) + 1) →
  ∃ w' out, rtlsdr_callback buf len w = Some (w', out) ∧
            (world_ok w' ∧ same_options w w').
Proof.
  intros (Hrub & Hpro & Han & Hd) Hlen Hmax Hn.
  pose proof (effective_len_range len w (proj1 Hlen)) as Hrange.
  unfold rtlsdr_callback.
  destruct (file (demod w) || negb (truthy (save_data (demod w))));
    [|by exists w, []].
  destruct (truthy (do_exit w)); [by exists w, []|].
  cbv zeta. fold (effective_len len w).
  set (n := effective_len len w) in *. set (d := decimation_level (demod w)) in *.
  destruct (shiftr_halves n d) as [Ehalf Efull]; [lia..|].
  assert (1 ≤ 2 ^ d) as Hpow by (pose proof (Z.pow_pos_nonneg 2 d); lia).
  destruct (envelope_detect_ok buf n d) as (x_buf & Ex & Hx); [lia..|].
  eapply bind_ok; [by rewrite Ex|].
  destruct (low_pass_filter_ok x_buf (Z.shiftr n (d + 1))
              {| lp_xmem := lp_mem w;
                 lp_ymem := default 0 (filter_buffer (demod w) !! 0%nat) |})
    as (ys & st & Ef & Hys).
  { split; [done|]. rewrite Hx, Ehalf.
    Z.to_euclidean_division_equations. nia. }
  eapply bind_ok; [by rewrite Ef|]. cbn [fst snd].
  destruct (f_buf_read_ok (f_buf_write (filter_buffer (demod w)) ys st)
              (n / 2)) as [fed Efed].
  { unfold MAXIMAL_BUF_LENGTH in *.
    Z.to_euclidean_division_equations. lia. }
  eapply bind_ok; [by rewrite Efed|].
  assert (∃ fb_out o_out,
            (if truthy (save_data (demod w)) then
               do samples <- of_opt
                 (f_buf_read (f_buf_write (filter_buffer (demod w)) ys st)
                    ((Z.shiftr n d + 1) / 2)) in
               ret (take (Z.to_nat (Z.shiftr n d))
                      (concat (map int16_bytes samples)))
             else ret []) = Some (fb_out, o_out)) as (fb_out & o_out & Eout).
  { destruct (truthy (save_data (demod w))); [|by eexists _, _].
    destruct (f_buf_read_ok (f_buf_write (filter_buffer (demod w)) ys st)
                ((Z.shiftr n d + 1) / 2)) as [samples ->];
      [|by eexists _, _].
    rewrite Efull. unfold MAXIMAL_BUF_LENGTH in *.
    Z.to_euclidean_division_equations. nia. }
  destruct (truthy (analyze (demod w))).
  - destruct (pwm_analyze_invariant (level_limit (demod w)) (analyzer w) fed Han)
      as (an & o1 & Ean & Han' & _).
    eapply bind_ok; [by rewrite Ean|]. cbn [bind ret fst snd app].
    eapply bind_ok; [exact Eout|].
    eexists _, _. split; [reflexivity|]. by split.
  - destruct (pwm_demod_invariant (level_limit (demod w)) (prologue (demod w))
                fed Hpro) as (pro & o1 & Epro & Hpro' & _).
    destruct (pwm_demod_invariant (level_limit (demod w)) (rubicson (demod w))
                fed Hrub) as (rub & o2 & Erub & Hrub' & _).
    eapply bind_ok; [by rewrite Epro, Erub|]. cbn [fst snd].
    eapply bind_ok; [exact Eout|].
    eexists _, _. split; [reflexivity|]. by split.
Qed.

(** The steps of a callback that runs and returns. *)
Lemma rtlsdr_callback_inv buf len w w' out :
  rtlsdr_callback buf len w = Some (w', out) →
  file (demod w) || negb (truthy (save_data (demod w))) = true →
  truthy (do_exit w) = false →
  ∃ x_buf ys st fed dumped,
    envelope_detect buf (effective_len len w) (decimation_level (demod w))
      = Some x_buf ∧
    low_pass_filter x_buf
      (Z.shiftr (effective_len len w) (decimation_level (demod w) + 1))
      {| lp_xmem := lp_mem w;
         lp_ymem := default 0 (filter_buffer (demod w) !! 0%nat) |}
      = Some (ys, st) ∧
    f_buf_read (f_buf_write (filter_buffer (demod w)) ys st)
      (effective_len len w / 2) = Some fed ∧
    filter_buffer (demod w') = f_buf_write (filter_buffer (demod w)) ys st ∧
    lp_mem w' = lp_xmem st ∧
    same_options w w' ∧
    do_exit w' = (if (0 <? bytes_to_read w) && (bytes_to_read w <? len)
                  then 1 else do_exit w) ∧
    cancelled w' = (if (0 <? bytes_to_read w) && (bytes_to_read w <? len)
                    then true else cancelled w) ∧
    bytes_to_read w' =
      (if 0 <? bytes_to_read w
       then (bytes_to_read w - effective_len len w) mod 2 ^ 32
       else bytes_to_read w) ∧
    sink w' = sink w ++ dumped ∧
    (if truthy (save_data (demod w)) then
       ∃ samples,
         f_buf_read (f_buf_write (filter_buffer (demod w)) ys st)
           ((Z.shiftr (effective_len len w) (decimation_level (demod w)) + 1)
            / 2) = Some samples ∧
         dumped =
           take (Z.to_nat (Z.shiftr (effective_len len w)
                             (decimation_level (demod w))))
             (concat (map int16_bytes samples))
     else dumped = []) ∧
    (if truthy (analyze (demod w)) then
       pwm_analyze (level_limit (demod w)) (analyzer w) fed
         = Some (analyzer w', out) ∧
       rubicson (demod w') = rubicson (demod w) ∧
       prologue (demod w') = prologue (demod w)
     else
       ∃ o_prologue o_rubicson,
         pwm_demod (level_limit (demod w)) (prologue (demod w)) fed
           = Some (prologue (demod w'), o_prologue) ∧
         pwm_demod (level_limit (demod w)) (rubicson (demod w)) fed
           = Some (rubicson (demod w'), o_rubicson) ∧
         out = o_prologue ++ o_rubicson ∧
         analyzer w' = analyzer w).
Proof.
  intros E Hfile Hexit. unfold rtlsdr_callback in E.
  rewrite Hfile, Hexit in E. cbv zeta in E. fold (effective_len len w) in E.
  set (n := effective_len len w) in *. revert E.
  destruct (envelope_detect buf n _) as [x_buf|] eqn:Ex; [|done].
  cbn [of_opt bind ret].
  destruct (low_pass_filter x_buf _ _) as [[ys st]|] eqn:Ef; [|done].
  cbn [of_opt bind ret fst snd].
  destruct (f_buf_read _ (n / 2)) as [fed|] eqn:Efed; [|done].
  cbn [of_opt bind ret].
  destruct (truthy (analyze (demod w))).
  - destruct (pwm_analyze _ _ fed) as [[an o]|] eqn:Ean; [|done].
    cbn [bind ret fst snd].
    destruct (truthy (save_data (demod w)));
      [destruct (f_buf_read _ ((_ + 1) / 2)) as [samples|] eqn:Es; [|done]|];
      cbn [of_opt bind ret app]; intros [= <- <-];
      exists x_buf, ys, st, fed; eexists; cbn;
      (split_and!; try done); rewrite ?app_nil_r;
      first [done | by eexists].
  - destruct (pwm_demod _ (prologue _) fed) as [[pro o1]|] eqn:Ep; [|done].
    cbn [bind ret].
    destruct (pwm_demod _ (rubicson _) fed) as [[rub o2]|] eqn:Er; [|done].
    cbn [bind ret fst snd].
    destruct (truthy (save_data (demod w)));
      [destruct (f_buf_read _ ((_ + 1) / 2)) as [samples|] eqn:Es; [|done]|];
      cbn [of_opt bind ret app]; intros [= <- <-];
      exists x_buf, ys, st, fed; eexists; cbn;
      (split_and!; try done); rewrite ?app_nil_r;
      first [done | by eexists | by eexists _, _].
Qed.


Lemma demod_ok_init short long reset :
  0 ≤ reset → demod_ok (protocol_init short long reset).
Proof.
  intros H. unfold demod_ok, flags_ok, is_bit.
  split; [apply protocol_init_ok|]. cbn. lia.
Qed.

Lemma world_init_ok level decimation analyze_flag to_read :
  0 ≤ decimation ≤ 30 →
  world_ok (world_init level decimation analyze_flag to_read).
Proof.
  intros H. unfold world_ok. cbn [world_init demod rubicson prologue analyzer
                                   decimation_level].
  split_and!; [by apply demod_ok_init..|apply analyze_init_ok|lia|lia].
Qed.


Lemma envelope_detect_nonneg buf len d out :
  envelope_detect buf len d = Some out → 0 ≤ len.
Proof. unfold envelope_detect. case_decide; [lia|done]. Qed.



(** ** Block callback: the filtered block and the raw dump *)

Lemma f_buf_read_write fb ys st :
  Z.of_nat (length ys) ≤ MAXIMAL_BUF_LENGTH →
  f_buf_read (f_buf_write fb ys st) (Z.of_nat (length ys)) = Some ys.
Proof.
  intros H. unfold f_buf_read, f_buf_write. rewrite decide_True by lia.
  change (Z.to_nat FILTER_ORDER) with 1%nat. cbn [drop]. rewrite drop_0.
  rewrite Nat2Z.id, take_app_length, length_app.
  replace (length ys - _)%nat with 0%nat by lia.
  by rewrite app_nil_r.
Qed.

Lemma int16_bytes_length l :
  length (concat (map int16_bytes l)) = (2 * length l)%nat.
Proof.
  induction l as [|x l IH]; [done|].
  cbn [map concat]. rewrite length_app, IH. cbn [int16_bytes length]. lia.
Qed.

(** X19.  With a file to write to, a callback whose [fwrite] is complete
    appends to it the outputs of the low-pass filter on this block, each as
    two bytes, low byte first, [len >> decimation] bytes in all.  This is
    for a byte count [len >> decimation] that is even, as it is for every
    block length that is a multiple of [2 << decimation]. *)
Theorem raw_dump_is_filter_output buf len w w' out :
  rtlsdr_callback buf len w = Some (w', out) →
  file (demod w) = true → truthy (save_data (demod w)) = true →
  truthy (do_exit w) = false →
  Z.even (Z.shiftr (effective_len len w) (decimation_level (demod w))) = true →
  0 ≤ decimation_level (demod w) →
  ∃ x_buf ys st,
    envelope_detect buf (effective_len len w) (decimation_level (demod w))
      = Some x_buf ∧
    low_pass_filter x_buf
      (Z.shiftr (effective_len len w) (decimation_level (demod w) + 1))
      {| lp_xmem := lp_mem w;
         lp_ymem := default 0 (filter_buffer (demod w) !! 0%nat) |}
      = Some (ys, st) ∧
    sink w' = sink w ++ concat (map int16_bytes ys) ∧
    Z.of_nat (length (concat (map int16_bytes ys)))
      = Z.shiftr (effective_len len w) (decimation_level (demod w)).
Proof.
  intros E Hfile Hsave Hexit Heven Hd.
  destruct (rtlsdr_callback_inv buf len w w' out E)
    as (x_buf & ys & st & fed & dumped & Ex & Ef & Efed & _ & _ & _
        & _ & _ & _ & Hsink & Hdump & _); [by rewrite Hfile|done|].
  rewrite Hsave in Hdump. destruct Hdump as (samples & Es & ->).
  set (n := effective_len len w) in *.
  set (d := decimation_level (demod w)) in *.
  pose proof (envelope_detect_nonneg _ _ _ _ Ex) as Hn.
  destruct (low_pass_filter_keeps _ _ _ _ _ Ef) as (Hys & _ & _).
  destruct (shiftr_halves n d Hn Hd) as [Ehalf Efull].
  assert (1 ≤ 2 ^ d) as Hpow by (pose proof (Z.pow_pos_nonneg 2 d); lia).
  assert (0 ≤ Z.shiftr n d) as Hpos by (apply Z.shiftr_nonneg; lia).
  assert (Z.shiftr n d = 2 * Z.shiftr n (d + 1)) as Hdouble.
  { apply Zeven_bool_iff, Zeven_div2 in Heven.
    rewrite Heven at 1. f_equal. rewrite Z.div2_div, Efull, Ehalf.
    rewrite Z.div_div, Z.mul_comm, <- Z.div_div by lia. done. }
  assert (0 ≤ Z.shiftr n (d + 1)) as Hpos' by lia.
  assert ((Z.shiftr n d + 1) / 2 = Z.of_nat (length ys)) as Ecount.
  { rewrite Hys, Z2Nat.id by done. rewrite Hdouble.
    Z.to_euclidean_division_equations. lia. }
  rewrite Ecount in Es.
  assert (samples = ys) as ->.
  { assert (Z.of_nat (length ys) ≤ MAXIMAL_BUF_LENGTH) as Hmax.
    { pose proof Es as Es'. unfold f_buf_read in Es'.
      case_decide; [lia|done]. }
    rewrite f_buf_read_write in Es by done. congruence. }
  exists x_buf, ys, st. split; [done|]. split; [done|].
  assert (Z.to_nat (Z.shiftr n d) = length (concat (map int16_bytes ys)))
    as Et by (rewrite int16_bytes_length; lia).
  rewrite Et, firstn_all in Hsink.
  split; [done|]. rewrite int16_bytes_length. lia.
Qed.

Lemma raw_dump_is_filter_output_witness :
  ∃ w' out,
    rtlsdr_callback [128; 128; 255; 128; 128; 0; 128; 128] 8
      (world_init_file 10000 0 0 0) = Some (w', out) ∧
    ∃ x_buf ys st,
      envelope_detect [128; 128; 255; 128; 128; 0; 128; 128]
        (effective_len 8 (world_init_file 10000 0 0 0))
        (decimation_level (demod (world_init_file 10000 0 0 0)))
        = Some x_buf ∧
      low_pass_filter x_buf
        (Z.shiftr (effective_len 8 (world_init_file 10000 0 0 0))
           (decimation_level (demod (world_init_file 10000 0 0 0)) + 1))
        {| lp_xmem := lp_mem (world_init_file 10000 0 0 0);
           lp_ymem :=
             default 0
               (filter_buffer (demod (world_init_file 10000 0 0 0))
                  !! 0%nat) |}
        = Some (ys, st) ∧
      sink w' = sink (world_init_file 10000 0 0 0)
                ++ concat (map int16_bytes ys) ∧
      Z.of_nat (length (concat (map int16_bytes ys)))
        = Z.shiftr (effective_len 8 (world_init_file 10000 0 0 0))
            (decimation_level (demod (world_init_file 10000 0 0 0))).
Proof.
  destruct (rtlsdr_callback [128; 128; 255; 128; 128; 0; 128; 128] 8
              (world_init_file 10000 0 0 0)) as [[w' out]|] eqn:E;
    [|vm_compute in E; discriminate].
  exists w', out. split; [reflexivity|].
  apply (raw_dump_is_filter_output _ _ _ _ _ E);
    [reflexivity|reflexivity|reflexivity|vm_compute; reflexivity|cbn; lia].
Defined.

Lemma rtlsdr_callback_keeps_filter_ok buf len w w' out :
  rtlsdr_callback buf len w = Some (w', out) →
  filter_ok w → filter_ok w'.
Proof.
  intros E [Hfb Hmem].
  destruct (file (demod w) || negb (truthy (save_data (demod w)))) eqn:Hfile;
    [|unfold rtlsdr_callback in E; rewrite Hfile in E; by injection E as <- _].
  destruct (truthy (do_exit w)) eqn:Hexit;
    [unfold rtlsdr_callback in E; rewrite Hfile, Hexit in E;
     by injection E as <- _|].
  destruct (rtlsdr_callback_inv buf len w w' out E Hfile Hexit)
    as (x_buf & ys & st & fed & dumped & Ex & Ef & _ & Hfb' & Hmem' & _).
  assert (Forall (λ v, 0 ≤ v ≤ 32768) x_buf) as Hx.
  { unfold envelope_detect in Ex. case_decide; [|done].
    by eapply envelope_loop_range. }
  assert (0 ≤ default 0 (filter_buffer (demod w) !! 0%nat) ≤ 32704) as Hy.
  { destruct (filter_buffer (demod w) !! 0%nat) as [y|] eqn:Ey; [|cbn; lia].
    apply (Forall_lookup_1 _ _ _ _ Hfb Ey). }
  destruct (low_pass_filter_in_range x_buf _
              {| lp_xmem := lp_mem w;
                 lp_ymem := default 0 (filter_buffer (demod w) !! 0%nat) |}
              st ys Hmem Hy Hx Ef) as (Hys & Hxk & Hyk).
  split; [|by rewrite Hmem'].
  rewrite Hfb'. unfold f_buf_write. constructor; [done|].
  apply Forall_app. split; [done|]. by apply Forall_drop.
Qed.

(** X20.  Every word of [filter_buffer] stays in 0..32704 and the input
    kept in [lp_xmem] in 0..32768, callback after callback and whatever
    the bytes of the block are: the filter's outputs never wrap in their
    [int16_t], and no word the demodulators or the analyzer read from the
    buffer is negative. *)
Theorem rtlsdr_callback_filter_range buf len w w' out :
  rtlsdr_callback buf len w = Some (w', out) →
  filter_ok w → filter_ok w'.
Proof. apply rtlsdr_callback_keeps_filter_ok. Qed.

Lemma rtlsdr_callback_filter_range_witness :
  ∃ w' out,
    rtlsdr_callback [128; 128; 255; 128; 128; 0; 128; 128] 8
      (world_init 10000 0 0 0) = Some (w', out) ∧ filter_ok w'.
Proof.
  destruct (rtlsdr_callback [128; 128; 255; 128; 128; 0; 128; 128] 8
              (world_init 10000 0 0 0)) as [[w' out]|] eqn:E;
    [|vm_compute in E; discriminate].
  exists w', out. split; [reflexivity|].
  apply (rtlsdr_callback_filter_range _ _ _ _ _ E).
  split; [constructor|cbn; lia].
Defined.

(** ** Fragments of [main]: the block size and the test mode *)

Lemma rtlsdr_callback_budget_zero buf len w w' out :
  rtlsdr_callback buf len w = Some (w', out) →
  bytes_to_read w = 0 → bytes_to_read w' = 0.
Proof.
  intros E Hzero.
  destruct (file (demod w) || negb (truthy (save_data (demod w)))) eqn:Hfile;
    [|unfold rtlsdr_callback in E; rewrite Hfile in E; by injection E as <- _].
  destruct (truthy (do_exit w)) eqn:Hexit;
    [unfold rtlsdr_callback in E; rewrite Hfile, Hexit in E;
     by injection E as <- _|].
  destruct (rtlsdr_callback_inv buf len w w' out E Hfile Hexit)
    as (x_buf & ys & st & fed & dumped & _ & _ & _ & _ & _ & _ & _ & _
        & Hleft & _).
  by rewrite Hleft, Hzero.
Qed.

Lemma effective_len_no_budget len w :
  bytes_to_read w = 0 → effective_len len w = len.
Proof. intros H. unfold effective_len. by rewrite H. Qed.

Lemma shiftr_block_ge_2 size d k :
  0 ≤ k → 2 ^ (k + 1) ≤ size → 0 ≤ d → d + 1 ≤ k →
  2 ≤ Z.shiftr size (d + 1).
Proof.
  intros Hk Hsize Hd Hdk. rewrite Z.shiftr_div_pow2 by lia.
  assert (0 < 2 ^ (d + 1)) as Hpos by (apply Z.pow_pos_nonneg; lia).
  assert (2 * 2 ^ (d + 1) ≤ size) as Hle.
  { etrans; [|exact Hsize]. rewrite (Z.pow_add_r 2 k 1), Z.pow_1_r by lia.
    assert (2 ^ (d + 1) ≤ 2 ^ k) by (apply Z.pow_le_mono_r; lia). lia. }
  apply Z.div_le_lower_bound; lia.
Qed.

Lemma same_options_trans w1 w2 w3 :
  same_options w1 w2 → same_options w2 w3 → same_options w1 w3.
Proof.
  unfold same_options. intros (? & ? & ? & ? & ?) (? & ? & ? & ? & ?).
  split_and!; congruence.
Qed.

Lemma main_test_mode_loop_ok blocks i w :
  world_ok w → bytes_to_read w = 0 → decimation_level (demod w) ≤ 15 →
  Forall (λ test_mode_buf, 131072 ≤ Z.of_nat (length test_mode_buf)) blocks →
  ∃ r out, main_test_mode_loop blocks i w = Some (r, out) ∧
           (r.1 = i + Z.of_nat (length blocks) ∧ world_ok r.2 ∧
            same_options w r.2).
Proof.
  intros Hok Hzero Hd Hblocks. revert i w Hok Hzero Hd.
  induction Hblocks as [|b blocks Hb _ IH]; intros i w Hok Hzero Hd.
  - exists (i, w), []. split; [done|]. cbn [fst snd length].
    split_and!; [lia|done|by unfold same_options].
  - cbn [main_test_mode_loop].
    destruct (rtlsdr_callback_invariant b 131072 w Hok)
      as (w1 & o1 & E1 & Hok1 & Hsame1).
    { lia. }
    { unfold MAXIMAL_BUF_LENGTH. lia. }
    { rewrite effective_len_no_budget by done.
      destruct Hok as (_ & _ & _ & Hd0).
      apply (shiftr_block_ge_2 131072 _ 16); [lia|done|lia|lia]. }
    pose proof (rtlsdr_callback_budget_zero _ _ _ _ _ E1 Hzero) as Hzero1.
    destruct (IH (i + 1) w1 Hok1 Hzero1) as (r & o2 & E2 & Hr & Hok2 & Hsame2).
    { destruct Hsame1 as (_ & _ & _ & -> & _). done. }
    eapply bind_ok; [exact E1|]. exists r, o2. split; [done|].
    cbn [length]. split_and!; [lia|done|by eapply same_options_trans].
Qed.





(** ** Bit packet: a row that is too long *)

(** X23.  A row has room for 40 bits and the code keeps later ones in it:
    the 40th bit appended after a reset fills the row and prints
    [p->bits_col_idx>4!], the cursor goes back to the first bit of byte 4
    rather than on, and the 41st bit is ORed over the 33rd.  All other bits
    of the row are the bits appended, in order. *)
Theorem row_overflow_folds_into_last_byte (q : protocol_state) (bs : list Z)
    (b40 b41 : Z) :
  Forall is_bit bs → length bs = 39%nat → is_bit b40 → is_bit b41 →
  ∃ p,
    run_ops (demod_reset_bits_packet q) (map AddBit (bs ++ [b40; b41]))
      = Some (p, [col_diag]) ∧
    bits_row_idx p = 0 ∧ bits_col_idx p = 4 ∧ bits_bit_col_idx p = 6 ∧
    row_bit (bits_buffer p) 0 32
      = (default 0 (bs !! 32%nat) =? 1) || (b41 =? 1) ∧
    (∀ n, 0 ≤ n < 40 → n ≠ 32 →
       row_bit (bits_buffer p) 0 n
         = (default 0 ((bs ++ [b40]) !! Z.to_nat n) =? 1)).
Proof.
  intros Hbits Hlen H40 H41.
  destruct (packed_run q bs Hbits ltac:(lia))
    as (p & Erun & Hok & Hrow & Hcol & Hbit & Hrow0 & _).
  rewrite Hlen in Hcol, Hbit.
  change (Z.of_nat 39 / 8) with 4 in Hcol.
  change (7 - Z.of_nat 39 mod 8) with 0 in Hbit.
  destruct (demod_add_bit_effect p b40 Hok H40)
    as (p1 & o1 & E1 & Hok1 & Ho1 & Hrow1 & Hcol1 & Hbit1 & Hnew1).
  rewrite decide_True in Ho1 by lia. rewrite decide_True in Hcol1 by lia.
  rewrite decide_True in Hbit1 by lia. subst o1.
  destruct (demod_add_bit_effect p1 b41 Hok1 H41)
    as (p2 & o2 & E2 & Hok2 & Ho2 & Hrow2 & Hcol2 & Hbit2 & Hnew2).
  rewrite decide_False in Ho2 by lia. rewrite decide_False in Hcol2 by lia.
  rewrite decide_False in Hbit2 by lia. subst o2.
  exists p2. split.
  { rewrite map_app, run_ops_app, Erun.
    cbn [map run_ops run_op bind]. rewrite E1. cbn [bind].
    rewrite E2. reflexivity. }
  split; [lia|]. split; [lia|]. split; [lia|].
  assert (∀ n, 0 ≤ n < 40 →
            0 ≤ 0 < BITBUF_ROWS ∧ 0 ≤ n / 8 < BITBUF_COLS
            ∧ 0 ≤ 7 - n mod 8 < 8) as Hpos.
  { intros n Hn. unfold BITBUF_ROWS, BITBUF_COLS.
    Z.to_euclidean_division_equations. lia. }
  split.
  - unfold row_bit in *. change (32 / 8) with 4. change (7 - 32 mod 8) with 7.
    rewrite Hnew2 by (unfold BITBUF_ROWS, BITBUF_COLS; lia).
    rewrite decide_True by lia.
    rewrite Hnew1 by (unfold BITBUF_ROWS, BITBUF_COLS; lia).
    rewrite decide_False by lia.
    specialize (Hrow0 32 ltac:(lia)).
    change (32 / 8) with 4 in Hrow0. change (7 - 32 mod 8) with 7 in Hrow0.
    by rewrite Hrow0.
  - intros n Hn Hne. unfold row_bit in *.
    destruct (Hpos n Hn) as (Hr & Hc & Hk).
    rewrite Hnew2 by done.
    rewrite decide_False.
    2:{ intros (_ & H1 & H2). apply Hne.
        Z.to_euclidean_division_equations. lia. }
    rewrite Hnew1 by done.
    destruct (decide (n = 39)) as [->|Hne39].
    + rewrite decide_True by (rewrite Hrow, Hcol, Hbit; done).
      rewrite Hrow0 by lia.
      rewrite (lookup_ge_None_2 bs) by lia.
      rewrite lookup_app_r by lia.
      replace (Z.to_nat 39 - length bs)%nat with 0%nat by lia.
      reflexivity.
    + rewrite decide_False.
      2:{ intros (_ & H1 & H2). apply Hne39.
          Z.to_euclidean_division_equations. lia. }
      rewrite Hrow0 by lia.
      by rewrite lookup_app_l by lia.
Qed.

Lemma row_overflow_folds_into_last_byte_witness :
  ∃ p,
    run_ops (demod_reset_bits_packet rubicson_init)
      (map AddBit (replicate 39 0 ++ [1; 1])) = Some (p, [col_diag]) ∧
    bits_col_idx p = 4 ∧ bits_bit_col_idx p = 6 ∧
    row_bit (bits_buffer p) 0 32 = true ∧
    row_bit (bits_buffer p) 0 39 = true ∧
    row_bit (bits_buffer p) 0 38 = false.
Proof.
  destruct (row_overflow_folds_into_last_byte rubicson_init (replicate 39 0)
              1 1) as (p & E & _ & Hcol & Hbit & H32 & Hrest).
  - apply Forall_replicate. by left.
  - apply length_replicate.
  - by right.
  - by right.
  - exists p. split; [exact E|]. split; [exact Hcol|]. split; [exact Hbit|].
    split; [exact H32|].
    split; [exact (Hrest 39 ltac:(lia) ltac:(lia))
           |exact (Hrest 38 ltac:(lia) ltac:(lia))].
Defined.

(** ** Block callback: the level limit *)

Lemma f_buf_read_range (P : Z → Prop) fb n l :
  P 0 → Forall P fb → f_buf_read fb n = Some l → Forall P l.
Proof.
  intros H0 Hfb. unfold f_buf_read. case_decide; [|done]. intros [= <-].
  apply Forall_app. split.
  - by apply Forall_take, Forall_drop.
  - by apply Forall_replicate.
Qed.


